(** * AnkerCloud monitoring backend

    A shallow embedding of the API server's ingestion routes, metrics
    queries, incident actions and live-feed websocket handler, together
    with the PostgreSQL schema objects they run against.

    Conventions of the embedding:
    - an instant ([TIMESTAMPTZ], an ISO-8601 string, [Date]) is a [Z]:
      milliseconds since the epoch;
    - a JSON number and a [NUMERIC]/[BIGINT]/[INTEGER] column value is a
      [Q]; SQL aggregates are exact rational arithmetic;
    - a table is the list of its rows, the most recently inserted row
      first; SQL [NULL] and a missing JavaScript property are [None];
    - a handler is a computation over the [world] (database, Redis
      streams, log, clock) that either returns or throws;
    - the log holds the lines written at level info and above (the debug
      line [query] writes after every successful statement is left out), a
      validation error reply is kept without its [details] array, and a
      column keeps the number it is given (PostgreSQL's rounding to the
      column's scale is not applied). *)

From Stdlib Require Import ZArith QArith Qfield String Ascii List Bool Lia Sorted.
Import ListNotations.
Open Scope string_scope.
Open Scope list_scope.
Open Scope Z_scope.

(** ** JSON values, as a parsed request body or websocket frame holds them *)

#[warnings="-register-all"]
Inductive json : Type :=
| JNull
| JBool (b : bool)
| JNum (q : Q)
| JStr (s : string)
| JArr (items : list json)
| JObj (fields : list (string * json)).

Fixpoint assoc {A : Type} (k : string) (l : list (string * A)) : option A :=
  match l with
  | [] => None
  | (k', v) :: tl => if String.eqb k k' then Some v else assoc k tl
  end.

(** [v.k] on a value that is not [null]: own properties of an object,
    [undefined] on anything else. *)
Definition prop (v : json) (k : string) : option json :=
  match v with
  | JObj fields => assoc k fields
  | _ => None
  end.

(** [x === 'lit'] for a possibly undefined [x]. *)
Definition is_str (x : option json) (lit : string) : bool :=
  match x with
  | Some (JStr s) => String.eqb s lit
  | _ => false
  end.

(** ** Library functions the handlers call, kept abstract *)

Class Platform : Type := {
  (** [bcrypt.compare(plain, hash)] *)
  bcrypt_compare : string -> string -> bool;
  (** the pattern behind zod's [z.string().uuid()] *)
  is_uuid : string -> bool;
  (** zod's [z.string().datetime()] and the instant the string denotes *)
  datetime : string -> option Z;
  (** [fastify.jwt.verify(token)]: the [id] of the decoded payload
      ([Some None] when it has none), or [None] when verification throws *)
  jwt_verify : option json -> option (option string);
  (** the text a template literal gives a value that is not a string *)
  js_to_string : option json -> string;
  (** PostgreSQL's input of an element of [$n::uuid[]] *)
  uuid_in : string -> bool;
  (** PostgreSQL's input of [$n::timestamptz]; [None] when it rejects the text *)
  timestamptz : string -> option Z;
  (** PostgreSQL's input of [$n::interval], in milliseconds *)
  interval : string -> option Z
}.

(** ** Schema (schema.sql) *)

Inductive resource_type := server | website | network | database.
Inductive resource_status := online | offline | warning | critical | unknown.
Inductive alert_severity := sev_info | sev_warning | sev_critical.
Inductive alert_state := active | resolved | acknowledged.

Definition resource_type_eqb (a b : resource_type) : bool :=
  match a, b with
  | server, server | website, website | network, network
  | database, database => true
  | _, _ => false
  end.

Definition alert_state_eqb (a b : alert_state) : bool :=
  match a, b with
  | active, active | resolved, resolved | acknowledged, acknowledged => true
  | _, _ => false
  end.

Record api_key_row := {
  ak_key_hash : string;
  ak_user_id : string;
  ak_last_used : option Z;
  ak_expires_at : option Z;
  ak_is_active : bool
}.

Record resource_row := {
  r_id : string;
  r_user_id : string;
  r_type : resource_type;
  r_name : string;
  r_status : resource_status;
  r_is_active : bool;
  r_last_seen_at : option Z
}.

Record servers_row := {
  sv_resource_id : string;
  sv_cpu_cores : option Q;
  sv_total_memory_mb : option Q;
  sv_total_disk_mb : option Q;
  sv_agent_last_seen : option Z
}.

Record alert_policy_row := {
  ap_id : string;
  ap_user_id : string;
  ap_resource_id : string;
  ap_metric_name : string;
  ap_condition : string;
  ap_threshold : Q;
  ap_duration_seconds : Z;
  ap_severity : alert_severity;
  ap_is_active : bool
}.

Record incident_row := {
  i_id : string;
  i_alert_policy_id : string;
  i_resource_id : string;
  i_state : alert_state;
  i_severity : alert_severity;
  i_triggered_value : option Q;
  i_triggered_at : Z;
  i_resolved_at : option Z;
  i_acknowledged_at : option Z;
  i_acknowledged_by : option string;
  i_notes : option string
}.

Record incident_history_row := {
  h_incident_id : string;
  h_action : string;
  h_performed_by : string;
  h_details : option string;
  h_created_at : Z
}.

Record server_metrics_row := {
  sm_time : Z;
  sm_resource_id : string;
  cpu_usage_percent : Q;
  memory_used_mb : Q;
  memory_total_mb : Q;
  memory_usage_percent : Q;
  disk_used_mb : Q;
  disk_total_mb : Q;
  disk_usage_percent : Q;
  network_in_bytes : Q;
  network_out_bytes : Q;
  process_count : Q;
  load_avg_1m : option Q;
  load_avg_5m : option Q;
  load_avg_15m : option Q;
  uptime_seconds : Q
}.

Record process_metrics_row := {
  pm_time : Z;
  pm_resource_id : string;
  pm_process_name : string;
  pm_pid : Q;
  pm_cpu_percent : Q;
  pm_memory_mb : Q;
  pm_status : string
}.

Record service_metrics_row := {
  svm_time : Z;
  svm_resource_id : string;
  svm_service_name : string;
  svm_status : string;
  svm_startup_type : option string
}.

Record website_metrics_row := {
  wm_time : Z;
  wm_resource_id : string;
  status_code : Q;
  response_time_ms : Q;
  dns_time_ms : option Q;
  connect_time_ms : option Q;
  tls_time_ms : option Q;
  ttfb_ms : option Q;
  total_time_ms : Q;
  content_size_bytes : option Q;
  wm_is_available : bool;
  wm_error_message : option string;
  location : string
}.

Record network_metrics_row := {
  nm_time : Z;
  nm_resource_id : string;
  check_type : string;
  latency_ms : option Q;
  packet_loss_percent : option Q;
  nm_is_available : bool;
  hop_count : option Q;
  nm_error_message : option string
}.

Record database_metrics_row := {
  dm_time : Z;
  dm_resource_id : string;
  connections_active : Q;
  connections_idle : Q;
  queries_per_second : Q;
  dm_is_available : bool
}.

Record db_state := {
  api_keys : list api_key_row;
  resources : list resource_row;
  servers : list servers_row;
  alert_policies : list alert_policy_row;
  incidents : list incident_row;
  incident_history : list incident_history_row;
  server_metrics : list server_metrics_row;
  process_metrics : list process_metrics_row;
  service_metrics : list service_metrics_row;
  website_metrics : list website_metrics_row;
  network_metrics : list network_metrics_row;
  database_metrics : list database_metrics_row
}.

Definition upd_api_keys (f : list api_key_row -> list api_key_row) (d : db_state) :=
  {| api_keys := f (api_keys d); resources := resources d; servers := servers d;
     alert_policies := alert_policies d; incidents := incidents d;
     incident_history := incident_history d; server_metrics := server_metrics d;
     process_metrics := process_metrics d; service_metrics := service_metrics d;
     website_metrics := website_metrics d; network_metrics := network_metrics d;
     database_metrics := database_metrics d |}.

Definition upd_resources (f : list resource_row -> list resource_row) (d : db_state) :=
  {| api_keys := api_keys d; resources := f (resources d); servers := servers d;
     alert_policies := alert_policies d; incidents := incidents d;
     incident_history := incident_history d; server_metrics := server_metrics d;
     process_metrics := process_metrics d; service_metrics := service_metrics d;
     website_metrics := website_metrics d; network_metrics := network_metrics d;
     database_metrics := database_metrics d |}.

Definition upd_servers (f : list servers_row -> list servers_row) (d : db_state) :=
  {| api_keys := api_keys d; resources := resources d; servers := f (servers d);
     alert_policies := alert_policies d; incidents := incidents d;
     incident_history := incident_history d; server_metrics := server_metrics d;
     process_metrics := process_metrics d; service_metrics := service_metrics d;
     website_metrics := website_metrics d; network_metrics := network_metrics d;
     database_metrics := database_metrics d |}.

Definition upd_incidents (f : list incident_row -> list incident_row) (d : db_state) :=
  {| api_keys := api_keys d; resources := resources d; servers := servers d;
     alert_policies := alert_policies d; incidents := f (incidents d);
     incident_history := incident_history d; server_metrics := server_metrics d;
     process_metrics := process_metrics d; service_metrics := service_metrics d;
     website_metrics := website_metrics d; network_metrics := network_metrics d;
     database_metrics := database_metrics d |}.

Definition upd_incident_history
    (f : list incident_history_row -> list incident_history_row) (d : db_state) :=
  {| api_keys := api_keys d; resources := resources d; servers := servers d;
     alert_policies := alert_policies d; incidents := incidents d;
     incident_history := f (incident_history d); server_metrics := server_metrics d;
     process_metrics := process_metrics d; service_metrics := service_metrics d;
     website_metrics := website_metrics d; network_metrics := network_metrics d;
     database_metrics := database_metrics d |}.

Definition upd_server_metrics
    (f : list server_metrics_row -> list server_metrics_row) (d : db_state) :=
  {| api_keys := api_keys d; resources := resources d; servers := servers d;
     alert_policies := alert_policies d; incidents := incidents d;
     incident_history := incident_history d; server_metrics := f (server_metrics d);
     process_metrics := process_metrics d; service_metrics := service_metrics d;
     website_metrics := website_metrics d; network_metrics := network_metrics d;
     database_metrics := database_metrics d |}.

Definition upd_process_metrics
    (f : list process_metrics_row -> list process_metrics_row) (d : db_state) :=
  {| api_keys := api_keys d; resources := resources d; servers := servers d;
     alert_policies := alert_policies d; incidents := incidents d;
     incident_history := incident_history d; server_metrics := server_metrics d;
     process_metrics := f (process_metrics d); service_metrics := service_metrics d;
     website_metrics := website_metrics d; network_metrics := network_metrics d;
     database_metrics := database_metrics d |}.

Definition upd_service_metrics
    (f : list service_metrics_row -> list service_metrics_row) (d : db_state) :=
  {| api_keys := api_keys d; resources := resources d; servers := servers d;
     alert_policies := alert_policies d; incidents := incidents d;
     incident_history := incident_history d; server_metrics := server_metrics d;
     process_metrics := process_metrics d; service_metrics := f (service_metrics d);
     website_metrics := website_metrics d; network_metrics := network_metrics d;
     database_metrics := database_metrics d |}.

Definition upd_website_metrics
    (f : list website_metrics_row -> list website_metrics_row) (d : db_state) :=
  {| api_keys := api_keys d; resources := resources d; servers := servers d;
     alert_policies := alert_policies d; incidents := incidents d;
     incident_history := incident_history d; server_metrics := server_metrics d;
     process_metrics := process_metrics d; service_metrics := service_metrics d;
     website_metrics := f (website_metrics d); network_metrics := network_metrics d;
     database_metrics := database_metrics d |}.

Definition upd_network_metrics
    (f : list network_metrics_row -> list network_metrics_row) (d : db_state) :=
  {| api_keys := api_keys d; resources := resources d; servers := servers d;
     alert_policies := alert_policies d; incidents := incidents d;
     incident_history := incident_history d; server_metrics := server_metrics d;
     process_metrics := process_metrics d; service_metrics := service_metrics d;
     website_metrics := website_metrics d; network_metrics := f (network_metrics d);
     database_metrics := database_metrics d |}.

(** ** The world a handler runs in *)

Inductive log_level := lvl_debug | lvl_info | lvl_warn | lvl_error.

Inductive error :=
| ZodError            (* schema.parse rejected the body *)
| TypeError           (* property access on undefined or null *)
| DbError             (* the pg driver rejected or could not run a query *)
| RedisError.         (* the Redis client rejected or could not run a command *)

Record world := {
  clock : Z;                 (* Date.now() and SQL NOW() *)
  db_up : bool;              (* whether PostgreSQL answers queries *)
  redis_up : bool;           (* whether Redis answers commands *)
  db : db_state;
  streams : list (string * list (string * json));   (* XADD log, newest first *)
  log : list (log_level * string)   (* newest first *)
}.

Definition with_db (d : db_state) (w : world) : world :=
  {| clock := clock w; db_up := db_up w; redis_up := redis_up w; db := d;
     streams := streams w; log := log w |}.

Definition with_streams (s : list (string * list (string * json))) (w : world) : world :=
  {| clock := clock w; db_up := db_up w; redis_up := redis_up w; db := db w;
     streams := s; log := log w |}.

Definition with_log (l : list (log_level * string)) (w : world) : world :=
  {| clock := clock w; db_up := db_up w; redis_up := redis_up w; db := db w;
     streams := streams w; log := l |}.

(** ** Computations that may throw; a throw keeps the effects made so far *)

Inductive outcome (A : Type) : Type :=
| Ok (a : A)
| Throw (e : error).
Arguments Ok {A} a.
Arguments Throw {A} e.

Definition M (A : Type) : Type := world -> outcome A * world.

Definition ret {A} (a : A) : M A := fun w => (Ok a, w).

Definition throw {A} (e : error) : M A := fun w => (Throw e, w).

Definition bind {A B} (m : M A) (k : A -> M B) : M B :=
  fun w =>
    match m w with
    | (Ok a, w') => k a w'
    | (Throw e, w') => (Throw e, w')
    end.

(** [try { m } catch (error) { h error }] *)
Definition try_catch {A} (m : M A) (h : error -> M A) : M A :=
  fun w =>
    match m w with
    | (Ok a, w') => (Ok a, w')
    | (Throw e, w') => h e w'
    end.

Notation "x <- m ;; k" := (bind m (fun x => k))
  (at level 61, m at next level, right associativity).
Notation "m ;;; k" := (bind m (fun _ => k))
  (at level 61, right associativity).

Definition get_clock : M Z := fun w => (Ok (clock w), w).

Definition logger (lvl : log_level) (msg : string) : M unit :=
  fun w => (Ok tt, with_log ((lvl, msg) :: log w) w).

(** [for (const x of xs) { await body(x) }] *)
Fixpoint for_each {A} (xs : list A) (body : A -> M unit) : M unit :=
  match xs with
  | [] => ret tt
  | x :: tl => body x ;;; for_each tl body
  end.

(** *** database/connection.ts *)

(** [query(text, params)]: runs one statement; a failure is logged and
    rethrown. A statement is a function on the database state. *)
Definition query {A} (stmt : Z -> db_state -> A * db_state) : M A :=
  fun w =>
    if db_up w then
      let (a, d') := stmt (clock w) (db w) in (Ok a, with_db d' w)
    else (Throw DbError, with_log ((lvl_error, "query failed") :: log w) w).

(** [query(text, params)] on a statement PostgreSQL rejects (an unknown
    column, a value a cast refuses). *)
Definition rejected_query {A} : M A :=
  fun w => (Throw DbError, with_log ((lvl_error, "query failed") :: log w) w).

(** [transaction(callback)]: BEGIN, the callback, COMMIT; on a throw
    ROLLBACK and rethrow. Statements inside go through [client.query]. *)
Definition client_query {A} (stmt : Z -> db_state -> A * db_state) : M A :=
  fun w =>
    if db_up w then
      let (a, d') := stmt (clock w) (db w) in (Ok a, with_db d' w)
    else (Throw DbError, w).

Definition transaction {A} (callback : M A) : M A :=
  fun w =>
    if db_up w then
      match callback w with
      | (Ok a, w') => (Ok a, w')
      | (Throw e, w') => (Throw e, with_db (db w) w')
      end
    else (Throw DbError, w).

(** *** utils/redis.ts *)

(** [addToStream(stream, data)]: XADD of the fields to the stream. A field
    is kept as the value whose text the route passes. *)
Definition addToStream (stream : string) (data : list (string * json)) : M unit :=
  fun w =>
    if redis_up w then
      if String.eqb stream "" then (Throw RedisError, w)
      else (Ok tt, with_streams ((stream, data) :: streams w) w)
    else (Throw RedisError, w).

(** ** HTTP replies *)

Record reply (A : Type) := mk_reply { code : Z; body : A }.
Arguments mk_reply {A} code body.
Arguments code {A} r.
Arguments body {A} r.

Definition send {A} (payload : A) : M (reply A) := ret (mk_reply 200 payload).
Definition send_code {A} (c : Z) (payload : A) : M (reply A) := ret (mk_reply c payload).

Definition error_body (msg : string) : json := JObj [("error", JStr msg)].

(** A handler that throws is answered by Fastify's default error reply,
    with status 500; [None] stands for its body. *)
Definition fastify_reply {A} (h : M (reply A)) (w : world)
  : reply (option A) * world :=
  match h w with
  | (Ok r, w') => (mk_reply (code r) (Some (body r)), w')
  | (Throw _, w') => (mk_reply 500 None, w')
  end.

(** ** routes/alerts.ts: incident actions *)

Definition newline : string := String (ascii_of_nat 10) EmptyString.

(** [COALESCE(notes || E'\n' || $p, $p)] *)
Definition coalesce_notes (notes p : option string) : option string :=
  match notes, p with
  | Some old, Some n => Some (String.append old (String.append newline n))
  | _, _ => p
  end.

(** [SELECT i.id FROM incidents i JOIN alert_policies ap
     ON i.alert_policy_id = ap.id WHERE i.id = $1 AND ap.user_id = $2] *)
Definition select_incident_check (incidentId userId : string) (d : db_state)
  : list string :=
  flat_map
    (fun i =>
       map (fun _ => i_id i)
           (filter (fun ap => String.eqb (i_alert_policy_id i) (ap_id ap)
                              && String.eqb (ap_user_id ap) userId)
                   (alert_policies d)))
    (filter (fun i => String.eqb (i_id i) incidentId) (incidents d)).

(** [UPDATE incidents SET state = 'acknowledged', acknowledged_at = NOW(),
     acknowledged_by = $1, notes = COALESCE(...) WHERE id = $3] *)
Definition set_acknowledged (now : Z) (userId : string) (notes : option string)
    (i : incident_row) : incident_row :=
  {| i_id := i_id i; i_alert_policy_id := i_alert_policy_id i;
     i_resource_id := i_resource_id i;
     i_state := acknowledged;
     i_severity := i_severity i; i_triggered_value := i_triggered_value i;
     i_triggered_at := i_triggered_at i; i_resolved_at := i_resolved_at i;
     i_acknowledged_at := Some now;
     i_acknowledged_by := Some userId;
     i_notes := coalesce_notes (i_notes i) notes |}.

(** [UPDATE incidents SET state = 'resolved', resolved_at = NOW(),
     notes = COALESCE(...) WHERE id = $2] *)
Definition set_resolved (now : Z) (notes : option string)
    (i : incident_row) : incident_row :=
  {| i_id := i_id i; i_alert_policy_id := i_alert_policy_id i;
     i_resource_id := i_resource_id i;
     i_state := resolved;
     i_severity := i_severity i; i_triggered_value := i_triggered_value i;
     i_triggered_at := i_triggered_at i;
     i_resolved_at := Some now;
     i_acknowledged_at := i_acknowledged_at i;
     i_acknowledged_by := i_acknowledged_by i;
     i_notes := coalesce_notes (i_notes i) notes |}.

Definition update_incident_where_id (incidentId : string)
    (set : incident_row -> incident_row) (d : db_state) : db_state :=
  upd_incidents
    (map (fun i => if String.eqb (i_id i) incidentId then set i else i)) d.

Definition insert_incident_history (incidentId action userId : string)
    (notes : option string) (now : Z) (d : db_state) : db_state :=
  upd_incident_history
    (cons {| h_incident_id := incidentId; h_action := action;
             h_performed_by := userId; h_details := notes;
             h_created_at := now |}) d.

(** [POST /incidents/:id/acknowledge], after the [authenticate] hook has
    put the caller in [request.user]. *)
Definition acknowledge (userId incidentId : string) (notes : option string)
  : M (reply json) :=
  incidentCheck <- query (fun _ d => (select_incident_check incidentId userId d, d)) ;;
  if (Z.of_nat (List.length incidentCheck) =? 0) then
    send_code 404 (error_body "Incident not found")
  else
    transaction (
      client_query (fun now d =>
        (tt, update_incident_where_id incidentId
               (set_acknowledged now userId notes) d)) ;;;
      client_query (fun now d =>
        (tt, insert_incident_history incidentId "acknowledged" userId notes now d))) ;;;
    logger lvl_info "Incident acknowledged" ;;;
    send (JObj [("message", JStr "Incident acknowledged successfully")]).

(** [POST /incidents/:id/resolve] *)
Definition resolve (userId incidentId : string) (notes : option string)
  : M (reply json) :=
  incidentCheck <- query (fun _ d => (select_incident_check incidentId userId d, d)) ;;
  if (Z.of_nat (List.length incidentCheck) =? 0) then
    send_code 404 (error_body "Incident not found")
  else
    transaction (
      client_query (fun now d =>
        (tt, update_incident_where_id incidentId (set_resolved now notes) d)) ;;;
      client_query (fun now d =>
        (tt, insert_incident_history incidentId "resolved" userId notes now d))) ;;;
    logger lvl_info "Incident resolved" ;;;
    send (JObj [("message", JStr "Incident resolved successfully")]).

(** The row of the incident with the given id (the primary key). *)
Definition incident_by_id (incidentId : string) (d : db_state) : option incident_row :=
  find (fun i => String.eqb (i_id i) incidentId) (incidents d).

(** ** routes/ingest.ts *)

(** *** Validation schemas (zod) *)

Notation "'let*' x ':=' e 'in' k" :=
  (match e with Some x => k | None => None end)
  (at level 10, x name, e at level 100, k at level 200, only parsing).

Definition z_number (x : option json) : option Q :=
  match x with Some (JNum q) => Some q | _ => None end.

(** [z.number().min(lo).max(hi)] *)
Definition z_number_min_max (lo hi : Q) (x : option json) : option Q :=
  match x with
  | Some (JNum q) => if Qle_bool lo q && Qle_bool q hi then Some q else None
  | _ => None
  end.

(** [z.number().optional()]: an absent property passes as [undefined]. *)
Definition z_number_optional (x : option json) : option (option Q) :=
  match x with
  | None => Some None
  | Some (JNum q) => Some (Some q)
  | Some _ => None
  end.

Definition z_string (x : option json) : option string :=
  match x with Some (JStr s) => Some s | _ => None end.

Definition z_string_optional (x : option json) : option (option string) :=
  match x with
  | None => Some None
  | Some (JStr s) => Some (Some s)
  | Some _ => None
  end.

Definition z_boolean (x : option json) : option bool :=
  match x with Some (JBool b) => Some b | _ => None end.

(** [z.object({...})] accepts objects only. *)
Definition z_object (x : option json) : option json :=
  match x with Some (JObj f) => Some (JObj f) | _ => None end.

Fixpoint z_array {A} (item : option json -> option A) (l : list json)
  : option (list A) :=
  match l with
  | [] => Some []
  | x :: tl =>
      let* a := item (Some x) in
      let* r := z_array item tl in
      Some (a :: r)
  end.

Definition z_array_optional {A} (item : option json -> option A) (x : option json)
  : option (option (list A)) :=
  match x with
  | None => Some None
  | Some (JArr l) => let* r := z_array item l in Some (Some r)
  | Some _ => None
  end.

Section Ingest.
Context {P : Platform}.

(** [z.string().uuid()] *)
Definition z_uuid (x : option json) : option string :=
  match x with
  | Some (JStr s) => if is_uuid s then Some s else None
  | _ => None
  end.

(** [z.string().datetime().optional()], read as the instant it denotes *)
Definition z_datetime_optional (x : option json) : option (option Z) :=
  match x with
  | None => Some None
  | Some (JStr s) => let* t := datetime s in Some (Some t)
  | Some _ => None
  end.

Record server_metrics_in := {
  cpuUsagePercent : Q;
  memoryUsedMb : Q;
  memoryTotalMb : Q;
  memoryUsagePercent : Q;
  diskUsedMb : Q;
  diskTotalMb : Q;
  diskUsagePercent : Q;
  networkInBytes : Q;
  networkOutBytes : Q;
  processCount : Q;
  loadAvg1m : option Q;
  loadAvg5m : option Q;
  loadAvg15m : option Q;
  uptimeSeconds : Q
}.

Record process_in := {
  p_name : string; p_pid : Q; p_cpuPercent : Q; p_memoryMb : Q; p_status : string
}.

Record service_in := {
  s_name : string; s_status : string; s_startupType : option string
}.

Record server_body := {
  sb_resourceId : string;
  sb_metrics : server_metrics_in;
  sb_processes : option (list process_in);
  sb_services : option (list service_in);
  sb_timestamp : option Z
}.

Definition server_metrics_object (x : option json) : option server_metrics_in :=
  let* m := z_object x in
  let* cpu := z_number_min_max 0 100 (prop m "cpuUsagePercent") in
  let* mu := z_number (prop m "memoryUsedMb") in
  let* mt := z_number (prop m "memoryTotalMb") in
  let* mp := z_number_min_max 0 100 (prop m "memoryUsagePercent") in
  let* du := z_number (prop m "diskUsedMb") in
  let* dt := z_number (prop m "diskTotalMb") in
  let* dp := z_number_min_max 0 100 (prop m "diskUsagePercent") in
  let* ni := z_number (prop m "networkInBytes") in
  let* no := z_number (prop m "networkOutBytes") in
  let* pc := z_number (prop m "processCount") in
  let* l1 := z_number_optional (prop m "loadAvg1m") in
  let* l5 := z_number_optional (prop m "loadAvg5m") in
  let* l15 := z_number_optional (prop m "loadAvg15m") in
  let* up := z_number (prop m "uptimeSeconds") in
  Some {| cpuUsagePercent := cpu; memoryUsedMb := mu; memoryTotalMb := mt;
          memoryUsagePercent := mp; diskUsedMb := du; diskTotalMb := dt;
          diskUsagePercent := dp; networkInBytes := ni; networkOutBytes := no;
          processCount := pc; loadAvg1m := l1; loadAvg5m := l5;
          loadAvg15m := l15; uptimeSeconds := up |}.

Definition process_object (x : option json) : option process_in :=
  let* o := z_object x in
  let* n := z_string (prop o "name") in
  let* pid := z_number (prop o "pid") in
  let* c := z_number (prop o "cpuPercent") in
  let* mem := z_number (prop o "memoryMb") in
  let* st := z_string (prop o "status") in
  Some {| p_name := n; p_pid := pid; p_cpuPercent := c; p_memoryMb := mem;
          p_status := st |}.

Definition service_object (x : option json) : option service_in :=
  let* o := z_object x in
  let* n := z_string (prop o "name") in
  let* st := z_string (prop o "status") in
  let* su := z_string_optional (prop o "startupType") in
  Some {| s_name := n; s_status := st; s_startupType := su |}.

Definition serverMetricsSchema (x : option json) : option server_body :=
  let* b := z_object x in
  let* rid := z_uuid (prop b "resourceId") in
  let* m := server_metrics_object (prop b "metrics") in
  let* ps := z_array_optional process_object (prop b "processes") in
  let* ss := z_array_optional service_object (prop b "services") in
  let* ts := z_datetime_optional (prop b "timestamp") in
  Some {| sb_resourceId := rid; sb_metrics := m; sb_processes := ps;
          sb_services := ss; sb_timestamp := ts |}.

Record website_metrics_in := {
  statusCode : Q;
  responseTimeMs : Q;
  dnsTimeMs : option Q;
  connectTimeMs : option Q;
  tlsTimeMs : option Q;
  ttfbMs : option Q;
  totalTimeMs : Q;
  contentSizeBytes : option Q;
  w_isAvailable : bool;
  w_errorMessage : option string;
  w_location : option string
}.

Record website_body := {
  wb_resourceId : string;
  wb_metrics : website_metrics_in;
  wb_timestamp : option Z
}.

Definition website_metrics_object (x : option json) : option website_metrics_in :=
  let* m := z_object x in
  let* sc := z_number (prop m "statusCode") in
  let* rt := z_number (prop m "responseTimeMs") in
  let* dns := z_number_optional (prop m "dnsTimeMs") in
  let* con := z_number_optional (prop m "connectTimeMs") in
  let* tls := z_number_optional (prop m "tlsTimeMs") in
  let* ttfb := z_number_optional (prop m "ttfbMs") in
  let* tot := z_number (prop m "totalTimeMs") in
  let* size := z_number_optional (prop m "contentSizeBytes") in
  let* av := z_boolean (prop m "isAvailable") in
  let* em := z_string_optional (prop m "errorMessage") in
  let* loc := z_string_optional (prop m "location") in
  Some {| statusCode := sc; responseTimeMs := rt; dnsTimeMs := dns;
          connectTimeMs := con; tlsTimeMs := tls; ttfbMs := ttfb;
          totalTimeMs := tot; contentSizeBytes := size; w_isAvailable := av;
          w_errorMessage := em; w_location := loc |}.

Definition websiteMetricsSchema (x : option json) : option website_body :=
  let* b := z_object x in
  let* rid := z_uuid (prop b "resourceId") in
  let* m := website_metrics_object (prop b "metrics") in
  let* ts := z_datetime_optional (prop b "timestamp") in
  Some {| wb_resourceId := rid; wb_metrics := m; wb_timestamp := ts |}.

Record network_metrics_in := {
  checkType : string;
  latencyMs : option Q;
  packetLossPercent : option Q;
  n_isAvailable : bool;
  hopCount : option Q;
  n_errorMessage : option string
}.

Record network_body := {
  nb_resourceId : string;
  nb_metrics : network_metrics_in;
  nb_timestamp : option Z
}.

(** [z.enum(['ping', 'port', 'traceroute'])] *)
Definition z_check_type (x : option json) : option string :=
  match x with
  | Some (JStr s) =>
      if String.eqb s "ping" || String.eqb s "port" || String.eqb s "traceroute"
      then Some s else None
  | _ => None
  end.

Definition network_metrics_object (x : option json) : option network_metrics_in :=
  let* m := z_object x in
  let* ct := z_check_type (prop m "checkType") in
  let* lat := z_number_optional (prop m "latencyMs") in
  let* pl := z_number_optional (prop m "packetLossPercent") in
  let* av := z_boolean (prop m "isAvailable") in
  let* hc := z_number_optional (prop m "hopCount") in
  let* em := z_string_optional (prop m "errorMessage") in
  Some {| checkType := ct; latencyMs := lat; packetLossPercent := pl;
          n_isAvailable := av; hopCount := hc; n_errorMessage := em |}.

Definition networkMetricsSchema (x : option json) : option network_body :=
  let* b := z_object x in
  let* rid := z_uuid (prop b "resourceId") in
  let* m := network_metrics_object (prop b "metrics") in
  let* ts := z_datetime_optional (prop b "timestamp") in
  Some {| nb_resourceId := rid; nb_metrics := m; nb_timestamp := ts |}.

(** [schema.parse(request.body)] *)
Definition parse {A} (schema : option json -> option A) (x : option json) : M A :=
  match schema x with
  | Some a => ret a
  | None => throw ZodError
  end.

(** *** SQL run by the ingestion routes *)

(** [ORDER BY time DESC LIMIT 1]. PostgreSQL leaves the order among rows
    of equal time open; here the most recently inserted of them is kept. *)
Fixpoint order_by_time_desc_limit_1 {R : Type} (time : R -> Z) (rows : list R)
  : option R :=
  match rows with
  | [] => None
  | r :: tl =>
      match order_by_time_desc_limit_1 time tl with
      | Some r' => if time r <? time r' then Some r' else Some r
      | None => Some r
      end
  end.

(** [x > y] on NUMERIC values *)
Definition Qgtb (x y : Q) : bool := negb (Qle_bool x y).

Definition five_minutes : Z := 300000.

(** The rows [get_resource_status] selects from:
    [WHERE resource_id = p_resource_id AND time > NOW() - INTERVAL '5 minutes'] *)
Definition recent_server_metrics (now : Z) (p_resource_id : string) (d : db_state)
  : list server_metrics_row :=
  filter (fun m => String.eqb (sm_resource_id m) p_resource_id
                   && (now - five_minutes <? sm_time m))
         (server_metrics d).

(** The status bands of [get_resource_status] on the selected row. *)
Definition status_of_metric (v_recent_metric : server_metrics_row) : resource_status :=
  if Qgtb (cpu_usage_percent v_recent_metric) 90
     || Qgtb (memory_usage_percent v_recent_metric) 90
     || Qgtb (disk_usage_percent v_recent_metric) 90
  then critical
  else if Qgtb (cpu_usage_percent v_recent_metric) 75
          || Qgtb (memory_usage_percent v_recent_metric) 75
          || Qgtb (disk_usage_percent v_recent_metric) 75
  then warning
  else online.

(** schema.sql: [FUNCTION get_resource_status(p_resource_id UUID)] *)
Definition get_resource_status (now : Z) (d : db_state) (p_resource_id : string)
  : resource_status :=
  match order_by_time_desc_limit_1 sm_time
          (recent_server_metrics now p_resource_id d) with
  | None => unknown
  | Some v_recent_metric => status_of_metric v_recent_metric
  end.

(** [SELECT id FROM resources WHERE id = $1 AND user_id = $2 AND type = $3] *)
Definition select_resource_check (resourceId userId : string) (ty : resource_type)
    (d : db_state) : list string :=
  map r_id
      (filter (fun r => String.eqb (r_id r) resourceId
                        && String.eqb (r_user_id r) userId
                        && resource_type_eqb (r_type r) ty)
              (resources d)).

Definition set_seen (timestamp : Z) (st : resource_status) (r : resource_row)
  : resource_row :=
  {| r_id := r_id r; r_user_id := r_user_id r; r_type := r_type r;
     r_name := r_name r; r_status := st; r_is_active := r_is_active r;
     r_last_seen_at := Some timestamp |}.

(** [UPDATE resources SET last_seen_at = $1, status = $2 WHERE id = $3] *)
Definition update_resource_seen (timestamp : Z) (st : resource_status)
    (resourceId : string) (d : db_state) : db_state :=
  upd_resources
    (map (fun r => if String.eqb (r_id r) resourceId
                   then set_seen timestamp st r else r)) d.

(** [UPDATE resources SET last_seen_at = $1,
     status = get_resource_status($2) WHERE id = $2] *)
Definition update_resource_seen_server (now timestamp : Z) (resourceId : string)
    (d : db_state) : db_state :=
  update_resource_seen timestamp (get_resource_status now d resourceId) resourceId d.

(** [x || null] on an optional number: [0] is falsy. *)
Definition or_null (x : option Q) : option Q :=
  match x with
  | Some q => if Qeq_bool q 0 then None else Some q
  | None => None
  end.

(** [x || null] on an optional string: the empty string is falsy. *)
Definition or_null_str (x : option string) : option string :=
  match x with
  | Some s => if String.eqb s "" then None else Some s
  | None => None
  end.

Definition server_metrics_values (timestamp : Z) (body : server_body)
  : server_metrics_row :=
  let m := sb_metrics body in
  {| sm_time := timestamp; sm_resource_id := sb_resourceId body;
     cpu_usage_percent := cpuUsagePercent m;
     memory_used_mb := memoryUsedMb m;
     memory_total_mb := memoryTotalMb m;
     memory_usage_percent := memoryUsagePercent m;
     disk_used_mb := diskUsedMb m;
     disk_total_mb := diskTotalMb m;
     disk_usage_percent := diskUsagePercent m;
     network_in_bytes := networkInBytes m;
     network_out_bytes := networkOutBytes m;
     process_count := processCount m;
     load_avg_1m := or_null (loadAvg1m m);
     load_avg_5m := or_null (loadAvg5m m);
     load_avg_15m := or_null (loadAvg15m m);
     uptime_seconds := uptimeSeconds m |}.

Definition process_metrics_values (timestamp : Z) (resourceId : string)
    (p : process_in) : process_metrics_row :=
  {| pm_time := timestamp; pm_resource_id := resourceId;
     pm_process_name := p_name p; pm_pid := p_pid p;
     pm_cpu_percent := p_cpuPercent p; pm_memory_mb := p_memoryMb p;
     pm_status := p_status p |}.

Definition service_metrics_values (timestamp : Z) (resourceId : string)
    (s : service_in) : service_metrics_row :=
  {| svm_time := timestamp; svm_resource_id := resourceId;
     svm_service_name := s_name s; svm_status := s_status s;
     svm_startup_type := or_null_str (s_startupType s) |}.

Definition website_metrics_values (timestamp : Z) (body : website_body)
  : website_metrics_row :=
  let m := wb_metrics body in
  {| wm_time := timestamp; wm_resource_id := wb_resourceId body;
     status_code := statusCode m;
     response_time_ms := responseTimeMs m;
     dns_time_ms := or_null (dnsTimeMs m);
     connect_time_ms := or_null (connectTimeMs m);
     tls_time_ms := or_null (tlsTimeMs m);
     ttfb_ms := or_null (ttfbMs m);
     total_time_ms := totalTimeMs m;
     content_size_bytes := or_null (contentSizeBytes m);
     wm_is_available := w_isAvailable m;
     wm_error_message := or_null_str (w_errorMessage m);
     location := match or_null_str (w_location m) with
                 | Some l => l
                 | None => "default"
                 end |}.

Definition network_metrics_values (timestamp : Z) (body : network_body)
  : network_metrics_row :=
  let m := nb_metrics body in
  {| nm_time := timestamp; nm_resource_id := nb_resourceId body;
     check_type := checkType m;
     latency_ms := or_null (latencyMs m);
     packet_loss_percent := or_null (packetLossPercent m);
     nm_is_available := n_isAvailable m;
     hop_count := or_null (hopCount m);
     nm_error_message := or_null_str (n_errorMessage m) |}.

(** [UPDATE servers SET agent_last_seen = $1,
     cpu_cores = COALESCE(cpu_cores, $2), total_memory_mb = $3,
     total_disk_mb = $4 WHERE resource_id = $5] *)
Definition update_servers (timestamp : Z) (body : server_body) (d : db_state)
  : db_state :=
  let m := sb_metrics body in
  upd_servers
    (map (fun s =>
       if String.eqb (sv_resource_id s) (sb_resourceId body) then
         {| sv_resource_id := sv_resource_id s;
            sv_cpu_cores := match sv_cpu_cores s with
                            | Some c => Some c
                            | None => Some (processCount m)
                            end;
            sv_total_memory_mb := Some (memoryTotalMb m);
            sv_total_disk_mb := Some (diskTotalMb m);
            sv_agent_last_seen := Some timestamp |}
       else s)) d.

(** [UPDATE api_keys SET last_used = NOW() WHERE key_hash = $1] *)
Definition update_last_used (now : Z) (key_hash : string) (d : db_state) : db_state :=
  upd_api_keys
    (map (fun k =>
       if String.eqb (ak_key_hash k) key_hash then
         {| ak_key_hash := ak_key_hash k; ak_user_id := ak_user_id k;
            ak_last_used := Some now; ak_expires_at := ak_expires_at k;
            ak_is_active := ak_is_active k |}
       else k)) d.

(** *** Helper to validate API key *)

Definition key_expired (now : Z) (row : api_key_row) : bool :=
  match ak_expires_at row with
  | Some e => e <? now
  | None => false
  end.

(** [validateApiKey(apiKey)]: [Some userId] for [{ isValid: true, userId }],
    [None] for [{ isValid: false }]. *)
Definition validateApiKey (apiKey : string) : M (option string) :=
  try_catch
    (rows <- query (fun _ d => (filter ak_is_active (api_keys d), d)) ;;
     match find (fun row => bcrypt_compare apiKey (ak_key_hash row)) rows with
     | Some row =>
         now <- get_clock ;;
         if key_expired now row then ret None
         else
           query (fun now d => (tt, update_last_used now (ak_key_hash row) d)) ;;;
           ret (Some (ak_user_id row))
     | None => ret None
     end)
    (fun _ => logger lvl_error "API key validation error" ;;; ret None).

(** [if (!apiKey)]: a missing header and the empty string are both falsy. *)
Definition header_present (apiKey : option string) : option string :=
  match apiKey with
  | Some k => if String.eqb k "" then None else Some k
  | None => None
  end.

Definition ok_body (timestamp : Z) : json :=
  JObj [("status", JStr "ok"); ("timestamp", JNum (inject_Z timestamp))].

Definition validation_error_body : json := JObj [("error", JStr "Validation error")].

(** The [catch] block shared by the three single-sample routes. *)
Definition ingest_catch (what : string) (e : error) : M (reply json) :=
  match e with
  | ZodError => send_code 400 validation_error_body
  | _ =>
      logger lvl_error what ;;;
      send_code 500 (error_body "Internal server error")
  end.

(** [POST /server] *)
Definition ingest_server (x_api_key : option string) (request_body : option json)
  : M (reply json) :=
  try_catch
    (match header_present x_api_key with
     | None => send_code 401 (error_body "API key required")
     | Some apiKey =>
         v <- validateApiKey apiKey ;;
         match v with
         | None => send_code 401 (error_body "Invalid API key")
         | Some userId =>
             body <- parse serverMetricsSchema request_body ;;
             resourceCheck <- query (fun _ d =>
               (select_resource_check (sb_resourceId body) userId server d, d)) ;;
             if Z.of_nat (List.length resourceCheck) =? 0 then
               send_code 404 (error_body "Resource not found")
             else
               now <- get_clock ;;
               let timestamp :=
                 match sb_timestamp body with Some t => t | None => now end in
               (* Insert server metrics *)
               query (fun _ d =>
                 (tt, upd_server_metrics
                        (cons (server_metrics_values timestamp body)) d)) ;;;
               (* Insert process metrics if provided *)
               match sb_processes body with
               | Some (p :: ps) =>
                   for_each (p :: ps) (fun process =>
                     query (fun _ d =>
                       (tt, upd_process_metrics
                              (cons (process_metrics_values timestamp
                                       (sb_resourceId body) process)) d)))
               | _ => ret tt
               end ;;;
               (* Insert service metrics if provided *)
               match sb_services body with
               | Some (s :: ss) =>
                   for_each (s :: ss) (fun service =>
                     query (fun _ d =>
                       (tt, upd_service_metrics
                              (cons (service_metrics_values timestamp
                                       (sb_resourceId body) service)) d)))
               | _ => ret tt
               end ;;;
               (* Update resource last seen *)
               query (fun now d =>
                 (tt, update_resource_seen_server now timestamp
                        (sb_resourceId body) d)) ;;;
               (* Update server info if needed *)
               query (fun _ d => (tt, update_servers timestamp body d)) ;;;
               (* Publish to Redis stream for real-time updates *)
               addToStream (String.append "metrics:server:" (sb_resourceId body))
                 [("cpu", JNum (cpuUsagePercent (sb_metrics body)));
                  ("memory", JNum (memoryUsagePercent (sb_metrics body)));
                  ("disk", JNum (diskUsagePercent (sb_metrics body)));
                  ("timestamp", JNum (inject_Z timestamp))] ;;;
               send (ok_body timestamp)
         end
     end)
    (ingest_catch "Server metrics ingestion error").

Definition availability_status (isAvailable : bool) : resource_status :=
  if isAvailable then online else offline.

(** [POST /website] *)
Definition ingest_website (x_api_key : option string) (request_body : option json)
  : M (reply json) :=
  try_catch
    (match header_present x_api_key with
     | None => send_code 401 (error_body "API key required")
     | Some apiKey =>
         v <- validateApiKey apiKey ;;
         match v with
         | None => send_code 401 (error_body "Invalid API key")
         | Some userId =>
             body <- parse websiteMetricsSchema request_body ;;
             resourceCheck <- query (fun _ d =>
               (select_resource_check (wb_resourceId body) userId website d, d)) ;;
             if Z.of_nat (List.length resourceCheck) =? 0 then
               send_code 404 (error_body "Resource not found")
             else
               now <- get_clock ;;
               let timestamp :=
                 match wb_timestamp body with Some t => t | None => now end in
               (* Insert website metrics *)
               query (fun _ d =>
                 (tt, upd_website_metrics
                        (cons (website_metrics_values timestamp body)) d)) ;;;
               (* Update resource status *)
               let status := availability_status (w_isAvailable (wb_metrics body)) in
               query (fun _ d =>
                 (tt, update_resource_seen timestamp status (wb_resourceId body) d)) ;;;
               (* Publish to Redis stream *)
               addToStream (String.append "metrics:website:" (wb_resourceId body))
                 [("status", JNum (statusCode (wb_metrics body)));
                  ("responseTime", JNum (responseTimeMs (wb_metrics body)));
                  ("available", JBool (w_isAvailable (wb_metrics body)));
                  ("timestamp", JNum (inject_Z timestamp))] ;;;
               send (ok_body timestamp)
         end
     end)
    (ingest_catch "Website metrics ingestion error").

(** [POST /network] *)
Definition ingest_network (x_api_key : option string) (request_body : option json)
  : M (reply json) :=
  try_catch
    (match header_present x_api_key with
     | None => send_code 401 (error_body "API key required")
     | Some apiKey =>
         v <- validateApiKey apiKey ;;
         match v with
         | None => send_code 401 (error_body "Invalid API key")
         | Some userId =>
             body <- parse networkMetricsSchema request_body ;;
             resourceCheck <- query (fun _ d =>
               (select_resource_check (nb_resourceId body) userId network d, d)) ;;
             if Z.of_nat (List.length resourceCheck) =? 0 then
               send_code 404 (error_body "Resource not found")
             else
               now <- get_clock ;;
               let timestamp :=
                 match nb_timestamp body with Some t => t | None => now end in
               (* Insert network metrics *)
               query (fun _ d =>
                 (tt, upd_network_metrics
                        (cons (network_metrics_values timestamp body)) d)) ;;;
               (* Update resource status *)
               let status := availability_status (n_isAvailable (nb_metrics body)) in
               query (fun _ d =>
                 (tt, update_resource_seen timestamp status (nb_resourceId body) d)) ;;;
               (* Publish to Redis stream *)
               addToStream (String.append "metrics:network:" (nb_resourceId body))
                 [("checkType", JStr (checkType (nb_metrics body)));
                  ("latency", JNum (match or_null (latencyMs (nb_metrics body)) with
                                    | Some l => l
                                    | None => 0
                                    end));
                  ("available", JBool (n_isAvailable (nb_metrics body)));
                  ("timestamp", JNum (inject_Z timestamp))] ;;;
               send (ok_body timestamp)
         end
     end)
    (ingest_catch "Network metrics ingestion error").

(** *** Batch metrics ingestion *)

(** One turn of the loop over [metrics]: the counters [(processed, errors)]
    after the entry. Reading [metric.type] throws on [null]. *)
Definition batch_entry (metric : json) (counters : Z * Z) : M (Z * Z) :=
  let '(processed, errors) := counters in
  try_catch
    (type <- match metric with
             | JNull => throw TypeError
             | _ => ret (prop metric "type")
             end ;;
     if is_str type "server" then ret (processed + 1, errors)
     else if is_str type "website" then ret (processed + 1, errors)
     else if is_str type "network" then ret (processed + 1, errors)
     else ret (processed, errors + 1))
    (fun _ =>
       logger lvl_error "Batch metric processing error" ;;;
       ret (processed, errors + 1)).

Fixpoint batch_loop (metrics : list json) (counters : Z * Z) : M (Z * Z) :=
  match metrics with
  | [] => ret counters
  | metric :: tl => c <- batch_entry metric counters ;; batch_loop tl c
  end.

Definition batch_body (processed errors total : Z) : json :=
  JObj [("status", JStr "ok");
        ("processed", JNum (inject_Z processed));
        ("errors", JNum (inject_Z errors));
        ("total", JNum (inject_Z total))].

(** [POST /batch] *)
Definition ingest_batch (x_api_key : option string) (request_body : option json)
  : M (reply json) :=
  try_catch
    (match header_present x_api_key with
     | None => send_code 401 (error_body "API key required")
     | Some apiKey =>
         v <- validateApiKey apiKey ;;
         match v with
         | None => send_code 401 (error_body "Invalid API key")
         | Some _ =>
             (* const { metrics } = request.body *)
             metrics <- match request_body with
                        | None | Some JNull => throw TypeError
                        | Some b => ret (prop b "metrics")
                        end ;;
             match metrics with
             | Some (JArr metrics) =>
                 c <- batch_loop metrics (0, 0) ;;
                 send (batch_body (fst c) (snd c) (Z.of_nat (List.length metrics)))
             | _ => send_code 400 (error_body "metrics array required")
             end
         end
     end)
    (fun _ =>
       logger lvl_error "Batch ingestion error" ;;;
       send_code 500 (error_body "Internal server error")).

End Ingest.

(** ** routes/metrics.ts *)

(** *** Bucketed range queries *)

(** TimescaleDB aligns buckets on Monday 2000-01-03 00:00:00 UTC. *)
Definition time_bucket_origin : Z := 946857600000.

Definition time_bucket (width t : Z) : Z :=
  time_bucket_origin + width * ((t - time_bucket_origin) / width).

(** [GROUP BY bucket ORDER BY bucket ASC]: the distinct buckets, ascending *)
Fixpoint insert_bucket (b : Z) (l : list Z) : list Z :=
  match l with
  | [] => [b]
  | x :: tl =>
      if b <? x then b :: l
      else if b =? x then l
      else x :: insert_bucket b tl
  end.

Definition distinct_buckets (bs : list Z) : list Z :=
  fold_right insert_bucket [] bs.

Section RangeQuery.
Variables (R A : Type).
Variable resource_id_of : R -> string.
Variable time_of : R -> Z.
(** the SELECT list: one output row from a bucket and the rows grouped in it *)
Variable select : Z -> list R -> A.

Definition bucket_group (width b : Z) (rows : list R) : list R :=
  filter (fun r => time_bucket width (time_of r) =? b) rows.

(** [SELECT time_bucket(width, time) AS bucket, ... GROUP BY bucket
     ORDER BY bucket ASC] over the rows the WHERE clause kept *)
Definition group_by_bucket (width : Z) (rows : list R) : list A :=
  map (fun b => select b (bucket_group width b rows))
      (distinct_buckets (map (fun r => time_bucket width (time_of r)) rows)).

(** [WHERE resource_id = $2 AND time >= $3 AND time <= $4] *)
Definition where_range (resourceId : string) (startTime endTime : Z) (r : R) : bool :=
  String.eqb (resource_id_of r) resourceId
  && (startTime <=? time_of r) && (time_of r <=? endTime).

Definition range_query (table : list R) (width : Z) (resourceId : string)
    (startTime endTime : Z) : list A :=
  group_by_bucket width (filter (where_range resourceId startTime endTime) table).

End RangeQuery.
Arguments bucket_group {R} time_of width b rows.
Arguments group_by_bucket {R A} time_of select width rows.
Arguments where_range {R} resource_id_of time_of resourceId startTime endTime r.
Arguments range_query {R A} resource_id_of time_of select table width resourceId
  startTime endTime.

(** *** SQL aggregates *)

Definition Qsum (xs : list Q) : Q := fold_right Qplus 0%Q xs.

(** [AVG(col)]: NULL over no value *)
Definition AVG (xs : list Q) : option Q :=
  match xs with
  | [] => None
  | _ => Some (Qsum xs / inject_Z (Z.of_nat (List.length xs)))%Q
  end.

(** [MAX(col)] and [MIN(col)]: NULL over no value *)
Fixpoint MAX (xs : list Q) : option Q :=
  match xs with
  | [] => None
  | x :: tl =>
      match MAX tl with
      | Some m => if Qle_bool x m then Some m else Some x
      | None => Some x
      end
  end.

Fixpoint MIN (xs : list Q) : option Q :=
  match xs with
  | [] => None
  | x :: tl =>
      match MIN tl with
      | Some m => if Qle_bool m x then Some m else Some x
      | None => Some x
      end
  end.

(** the non-NULL values of a nullable column *)
Definition non_null {R} (col : R -> option Q) (rows : list R) : list Q :=
  flat_map (fun r => match col r with Some q => [q] | None => [] end) rows.

(** [COUNT( * )] *)
Definition COUNT {R} (rows : list R) : Z := Z.of_nat (List.length rows).

(** [SUM(CASE WHEN is_available THEN 1 ELSE 0 END)] *)
Definition SUM_available {R} (is_available : R -> bool) (rows : list R) : Z :=
  Z.of_nat (List.length (filter is_available rows)).

Record server_bucket := {
  sbk_bucket : Z;
  sbk_cpu : option Q;
  sbk_memory_mb : option Q;
  sbk_disk_mb : option Q
}.

Record website_bucket := {
  wbk_bucket : Z;
  wbk_response_time : option Q;
  wbk_dns_time : option Q;
  wbk_connect_time : option Q;
  wbk_ttfb : option Q;
  wbk_checks : Z;
  wbk_successful : Z
}.

Record network_bucket := {
  nbk_bucket : Z;
  nbk_latency : option Q;
  nbk_packet_loss : option Q;
  nbk_checks : Z;
  nbk_successful : Z
}.

Definition select_server (bucket : Z) (g : list server_metrics_row) : server_bucket :=
  {| sbk_bucket := bucket;
     sbk_cpu := AVG (map cpu_usage_percent g);
     sbk_memory_mb := AVG (map memory_used_mb g);
     sbk_disk_mb := AVG (map disk_used_mb g) |}.

Definition select_website (bucket : Z) (g : list website_metrics_row) : website_bucket :=
  {| wbk_bucket := bucket;
     wbk_response_time := AVG (map response_time_ms g);
     wbk_dns_time := AVG (non_null dns_time_ms g);
     wbk_connect_time := AVG (non_null connect_time_ms g);
     wbk_ttfb := AVG (non_null ttfb_ms g);
     wbk_checks := COUNT g;
     wbk_successful := SUM_available wm_is_available g |}.

Definition select_network (bucket : Z) (g : list network_metrics_row) : network_bucket :=
  {| nbk_bucket := bucket;
     nbk_latency := AVG (non_null latency_ms g);
     nbk_packet_loss := AVG (non_null packet_loss_percent g);
     nbk_checks := COUNT g;
     nbk_successful := SUM_available nm_is_available g |}.

Definition server_range := range_query sm_resource_id sm_time select_server.
Definition website_range := range_query wm_resource_id wm_time select_website.
Definition network_range := range_query nm_resource_id nm_time select_network.

Inductive series :=
| ServerSeries (rows : list server_bucket)
| WebsiteSeries (rows : list website_bucket)
| NetworkSeries (rows : list network_bucket).

(** the [bucket] column of the returned rows, in the order returned *)
Definition series_buckets (s : series) : list Z :=
  match s with
  | ServerSeries rows => map sbk_bucket rows
  | WebsiteSeries rows => map wbk_bucket rows
  | NetworkSeries rows => map nbk_bucket rows
  end.

Record user := { u_id : string; u_role : option string }.

Definition is_admin (u : user) : bool :=
  match u_role u with Some r => String.eqb r "admin" | None => false end.

Record metrics_body := {
  mb_resourceId : string;
  mb_name : string;
  mb_resourceType : resource_type;
  mb_startTime : Z;
  mb_endTime : Z;
  mb_interval : string;
  mb_data : series
}.

Inductive metrics_payload :=
| MError (msg : string)
| MData (b : metrics_body).

(** [SELECT id, name, type FROM resources WHERE id = $1 [AND user_id = $2]] *)
Definition select_resource (u : user) (resourceId : string) (d : db_state)
  : list resource_row :=
  filter (fun r => String.eqb (r_id r) resourceId
                   && (is_admin u || String.eqb (r_user_id r) (u_id u)))
         (resources d).

(** [x || fallback] on a query-string parameter *)
Definition or_default (x : option string) : option string :=
  match x with
  | Some s => if String.eqb s "" then None else Some s
  | None => None
  end.

Section Metrics.
Context {P : Platform}.

(** [GET /:resourceId], after the [authenticate] hook. Every branch's
    statement casts [$1::interval], [$3::timestamptz] and [$4::timestamptz],
    which PostgreSQL may reject, and [time_bucket] rejects a width that is
    not positive. *)
Definition get_resource_metrics (u : user) (resourceId : string)
    (q_startTime q_endTime q_interval : option string) : M (reply metrics_payload) :=
  now <- get_clock ;;
  let startTime :=
    match or_default q_startTime with
    | Some s => timestamptz s
    | None => Some (now - 3600000)
    end in
  let endTime :=
    match or_default q_endTime with
    | Some s => timestamptz s
    | None => Some now
    end in
  let interval_text :=
    match or_default q_interval with Some i => i | None => "1m" end in
  let width := interval interval_text in
  resourceCheck <- query (fun _ d => (select_resource u resourceId d, d)) ;;
  match resourceCheck with
  | [] => send_code 404 (MError "Resource not found")
  | resource :: _ =>
      match width, startTime, endTime with
      | Some w, Some s, Some e =>
          if 0 <? w then
            metricsData <-
              match r_type resource with
              | server =>
                  rows <- query (fun _ d =>
                    (server_range (server_metrics d) w (r_id resource) s e, d)) ;;
                  ret (ServerSeries rows)
              | website =>
                  rows <- query (fun _ d =>
                    (website_range (website_metrics d) w (r_id resource) s e, d)) ;;
                  ret (WebsiteSeries rows)
              | network =>
                  rows <- query (fun _ d =>
                    (network_range (network_metrics d) w (r_id resource) s e, d)) ;;
                  ret (NetworkSeries rows)
              | database =>
                  (* the statement averages cpu_usage_percent, memory_used_mb
                     and active_connections, none of which is a column of
                     database_metrics in schema.sql *)
                  rejected_query
              end ;;
            send (MData {| mb_resourceId := r_id resource;
                           mb_name := r_name resource;
                           mb_resourceType := r_type resource;
                           mb_startTime := s; mb_endTime := e;
                           mb_interval := interval_text;
                           mb_data := metricsData |})
          else rejected_query
      | _, _, _ => rejected_query
      end
  end.

(** *** Latest metrics for multiple resources *)

Record latest_data := {
  ld_cpu_usage_percent : Q;
  ld_memory_used_mb : Q;
  ld_memory_total_mb : Q;
  ld_disk_used_mb : Q;
  ld_disk_total_mb : Q;
  ld_network_usage_percent : Q;
  ld_db_cpu_percent : Q;
  ld_time : Z
}.

Record latest_entry := {
  le_name : string;
  le_type : resource_type;
  le_data : latest_data
}.

Inductive latest_payload :=
| LError (msg : string)
| LMetrics (metrics : list (string * latest_entry)).

(** the [data] object built from a [server_metrics] row: [col ?? 0] is the
    column where the row has it, [0] for a column the table lacks *)
Definition server_latest_data (row : server_metrics_row) : latest_data :=
  {| ld_cpu_usage_percent := cpu_usage_percent row;
     ld_memory_used_mb := memory_used_mb row;
     ld_memory_total_mb := memory_total_mb row;
     ld_disk_used_mb := disk_used_mb row;
     ld_disk_total_mb := disk_total_mb row;
     ld_network_usage_percent := 0;
     ld_db_cpu_percent := 0;
     ld_time := sm_time row |}.

(** the [data] object built from a row of a table that has none of the
    columns read but [time] *)
Definition other_latest_data (time : Z) : latest_data :=
  {| ld_cpu_usage_percent := 0; ld_memory_used_mb := 0; ld_memory_total_mb := 0;
     ld_disk_used_mb := 0; ld_disk_total_mb := 0; ld_network_usage_percent := 0;
     ld_db_cpu_percent := 0; ld_time := time |}.

(** [SELECT * FROM table WHERE resource_id = $1 ORDER BY time DESC LIMIT 1] *)
Definition select_latest {R} (resource_id_of : R -> string) (time_of : R -> Z)
    (table : list R) (resourceId : string) : option R :=
  order_by_time_desc_limit_1 time_of
    (filter (fun r => String.eqb (resource_id_of r) resourceId) table).

(** the [data] object for one resource, when its query returned a row *)
Definition latest_row_data (d : db_state) (resource : resource_row)
  : option latest_data :=
  match r_type resource with
  | server =>
      option_map server_latest_data
        (select_latest sm_resource_id sm_time (server_metrics d) (r_id resource))
  | website =>
      option_map (fun row => other_latest_data (wm_time row))
        (select_latest wm_resource_id wm_time (website_metrics d) (r_id resource))
  | network =>
      option_map (fun row => other_latest_data (nm_time row))
        (select_latest nm_resource_id nm_time (network_metrics d) (r_id resource))
  | database =>
      option_map (fun row => other_latest_data (dm_time row))
        (select_latest dm_resource_id dm_time (database_metrics d) (r_id resource))
  end.

(** [obj[key] = value] on an object used as a map *)
Fixpoint set_key {A} (key : string) (value : A) (obj : list (string * A))
  : list (string * A) :=
  match obj with
  | [] => [(key, value)]
  | (k, v) :: tl =>
      if String.eqb key k then (k, value) :: tl else (k, v) :: set_key key value tl
  end.

Fixpoint latest_loop (validResources : list resource_row)
    (latestMetrics : list (string * latest_entry))
  : M (list (string * latest_entry)) :=
  match validResources with
  | [] => ret latestMetrics
  | resource :: tl =>
      result <- query (fun _ d => (latest_row_data d resource, d)) ;;
      latest_loop tl
        match result with
        | Some data =>
            set_key (r_id resource)
              {| le_name := r_name resource; le_type := r_type resource;
                 le_data := data |} latestMetrics
        | None => latestMetrics
        end
  end.

(** the text array sent for [$1::uuid[]]: [null] elements stay NULL and
    match nothing; any other element must be text the uuid input accepts *)
Fixpoint uuid_array (ids : list json) : option (list string) :=
  match ids with
  | [] => Some []
  | JNull :: tl => uuid_array tl
  | JStr s :: tl =>
      if uuid_in s then let* r := uuid_array tl in Some (s :: r) else None
  | _ :: _ => None
  end.

(** [SELECT id, name, type FROM resources
     WHERE id = ANY($1::uuid[]) [AND user_id = $2]] *)
Definition select_resources_any (u : user) (ids : list string) (d : db_state)
  : list resource_row :=
  filter (fun r => existsb (String.eqb (r_id r)) ids
                   && (is_admin u || String.eqb (r_user_id r) (u_id u)))
         (resources d).

(** [POST /latest], after the [authenticate] hook *)
Definition post_latest (u : user) (request_body : option json)
  : M (reply latest_payload) :=
  resourceIds <- match request_body with
                 | None | Some JNull => throw TypeError
                 | Some b => ret (prop b "resourceIds")
                 end ;;
  match resourceIds with
  | Some (JArr ids) =>
      match uuid_array ids with
      | Some ids =>
          validResources <- query (fun _ d => (select_resources_any u ids d, d)) ;;
          latestMetrics <- latest_loop validResources [] ;;
          send (LMetrics latestMetrics)
      | None => rejected_query
      end
  | _ => send_code 400 (LError "resourceIds array required")
  end.

End Metrics.

(** ** schema.sql: continuous aggregates *)


Record server_metrics_1h_row := {
  h1_bucket : Z;
  h1_resource_id : string;
  avg_cpu : option Q;
  max_cpu : option Q;
  min_cpu : option Q;
  avg_memory : option Q;
  max_memory : option Q;
  avg_disk : option Q
}.

Definition one_hour : Z := 3600000.

(** The rows of [server_metrics_1h] for one [resource_id], rebuilt from
    the raw table. *)
Definition server_metrics_1h (table : list server_metrics_row) (resourceId : string)
  : list server_metrics_1h_row :=
  group_by_bucket sm_time
    (fun bucket g =>
       {| h1_bucket := bucket; h1_resource_id := resourceId;
          avg_cpu := AVG (map cpu_usage_percent g);
          max_cpu := MAX (map cpu_usage_percent g);
          min_cpu := MIN (map cpu_usage_percent g);
          avg_memory := AVG (map memory_usage_percent g);
          max_memory := MAX (map memory_usage_percent g);
          avg_disk := AVG (map disk_usage_percent g) |})
    one_hour
    (filter (fun r => String.eqb (sm_resource_id r) resourceId) table).

(** ** routes/websocket.ts: the live-feed socket [GET /metrics] *)

(** What [JSON.parse(message.toString())] made of a received message. *)
Inductive frame :=
| Unparsable
| Parsed (data : json).

Inductive socket_action :=
| SockSend (msg : json)
| SockClose.

(** The handler's closure variables. [streamReaders] holds the keys that
    have a polling timer running. *)
Record connection := {
  authenticated : bool;
  userId : option string;
  subscriptions : list string;
  streamReaders : list string
}.

Definition new_connection : connection :=
  {| authenticated := false; userId := None; subscriptions := [];
     streamReaders := [] |}.

Definition includes (l : list string) (x : string) : bool := existsb (String.eqb x) l.

(** [l.splice(l.indexOf(x), 1)] when [x] is in [l] *)
Fixpoint splice_first (x : string) (l : list string) : list string :=
  match l with
  | [] => []
  | y :: tl => if String.eqb x y then tl else y :: splice_first x tl
  end.

Definition opt_json (x : option json) : json :=
  match x with Some v => v | None => JNull end.

Section WebSocket.
Context {P : Platform}.

(** [`${x}`] *)
Definition template (x : option json) : string :=
  match x with
  | Some (JStr s) => s
  | _ => js_to_string x
  end.

Definition stream_key (data : json) : string :=
  String.append "metrics:"
    (String.append (template (prop data "resourceType"))
       (String.append ":" (template (prop data "resourceId")))).

Definition not_authenticated_msg : json :=
  JObj [("type", JStr "error"); ("message", JStr "Not authenticated")].

Definition invalid_format_msg : json :=
  JObj [("type", JStr "error"); ("message", JStr "Invalid message format")].

Definition pong_msg (now : Z) : json :=
  JObj [("type", JStr "pong"); ("timestamp", JNum (inject_Z now))].

Definition subscribed_msg (data : json) : json :=
  JObj [("type", JStr "subscribed");
        ("resourceId", opt_json (prop data "resourceId"));
        ("resourceType", opt_json (prop data "resourceType"))].

Definition unsubscribed_msg (data : json) : json :=
  JObj [("type", JStr "unsubscribed");
        ("resourceId", opt_json (prop data "resourceId"));
        ("resourceType", opt_json (prop data "resourceType"))].

(** The body of the [try] in [socket.on('message', ...)], on parsed data. *)
Definition on_data (c : connection) (data : json)
  : M (connection * list socket_action) :=
  type <- match data with
          | JNull => throw TypeError
          | _ => ret (prop data "type")
          end ;;
  if is_str type "auth" then
    match jwt_verify (prop data "token") with
    | Some id =>
        logger lvl_info "WebSocket authenticated" ;;;
        ret ({| authenticated := true; userId := id;
                subscriptions := subscriptions c;
                streamReaders := streamReaders c |},
             [SockSend (JObj [("type", JStr "auth"); ("status", JStr "success");
                              ("userId", match id with
                                         | Some i => JStr i
                                         | None => JNull
                                         end)])])
    | None =>
        ret (c, [SockSend (JObj [("type", JStr "auth"); ("status", JStr "error");
                                 ("message", JStr "Invalid token")]);
                 SockClose])
    end
  else if negb (authenticated c) then
    ret (c, [SockSend not_authenticated_msg; SockClose])
  else if is_str type "subscribe" then
    let streamKey := stream_key data in
    if negb (includes (subscriptions c) streamKey) then
      logger lvl_info "subscribed" ;;;
      ret ({| authenticated := authenticated c; userId := userId c;
              subscriptions := subscriptions c ++ [streamKey];
              streamReaders := streamKey
                               :: filter (fun k => negb (String.eqb k streamKey))
                                         (streamReaders c) |},
           [SockSend (subscribed_msg data)])
    else ret (c, [])
  else if is_str type "unsubscribe" then
    let streamKey := stream_key data in
    if includes (subscriptions c) streamKey then
      logger lvl_info "unsubscribed" ;;;
      ret ({| authenticated := authenticated c; userId := userId c;
              subscriptions := splice_first streamKey (subscriptions c);
              streamReaders := filter (fun k => negb (String.eqb k streamKey))
                                      (streamReaders c) |},
           [SockSend (unsubscribed_msg data)])
    else ret (c, [])
  else if is_str type "ping" then
    now <- get_clock ;;
    ret (c, [SockSend (pong_msg now)])
  else ret (c, []).

(** [socket.on('message', ...)] *)
Definition on_message (c : connection) (message : frame)
  : M (connection * list socket_action) :=
  try_catch
    (match message with
     | Unparsable => throw TypeError
     | Parsed data => on_data c data
     end)
    (fun _ =>
       logger lvl_error "WebSocket message error" ;;;
       ret (c, [SockSend invalid_format_msg])).

(** The messages of one connection, handled in the order received: the
    final closure state and everything written to the socket. *)
Fixpoint on_messages (c : connection) (messages : list frame)
  : M (connection * list socket_action) :=
  match messages with
  | [] => ret (c, [])
  | m :: tl =>
      r <- on_message c m ;;
      r' <- on_messages (fst r) tl ;;
      ret (fst r', snd r ++ snd r')
  end.

End WebSocket.

(** ** Fixtures: a concrete platform and empty tables, for running the model *)

Fixpoint decimal (s : string) (acc : Z) : option Z :=
  match s with
  | EmptyString => Some acc
  | String c tl =>
      let n := Z.of_nat (nat_of_ascii c) in
      if (48 <=? n) && (n <=? 57) then decimal tl (10 * acc + (n - 48)) else None
  end.

(** Instants and intervals are written as decimal millisecond counts,
    [bcrypt] hashes are the keys themselves, the token "good" verifies as
    user "u1", and every text is a well-formed uuid. *)
Definition test_platform : Platform :=
  {| bcrypt_compare := String.eqb;
     is_uuid := fun _ => true;
     datetime := fun s => if String.eqb s "" then None else decimal s 0;
     jwt_verify := fun t => if is_str t "good" then Some (Some "u1") else None;
     js_to_string := fun _ => "undefined";
     uuid_in := fun _ => true;
     timestamptz := fun s => if String.eqb s "" then None else decimal s 0;
     interval := fun s => if String.eqb s "1m" then Some 60000 else decimal s 0 |}.

Definition empty_db : db_state :=
  {| api_keys := []; resources := []; servers := []; alert_policies := [];
     incidents := []; incident_history := []; server_metrics := [];
     process_metrics := []; service_metrics := []; website_metrics := [];
     network_metrics := []; database_metrics := [] |}.

Definition world_of (now : Z) (d : db_state) : world :=
  {| clock := now; db_up := true; redis_up := true; db := d; streams := [];
     log := [] |}.

(** A policy of user "u1" on resource "r1" and an incident on it that was
    resolved at instant 10. *)
Definition policy_p1 : alert_policy_row :=
  {| ap_id := "p1"; ap_user_id := "u1"; ap_resource_id := "r1";
     ap_metric_name := "cpuUsagePercent"; ap_condition := "gt";
     ap_threshold := 90; ap_duration_seconds := 60;
     ap_severity := sev_critical; ap_is_active := true |}.

Definition incident_i1 (st : alert_state) (resolved_at : option Z) : incident_row :=
  {| i_id := "i1"; i_alert_policy_id := "p1"; i_resource_id := "r1";
     i_state := st; i_severity := sev_critical; i_triggered_value := Some 95%Q;
     i_triggered_at := 5; i_resolved_at := resolved_at;
     i_acknowledged_at := None; i_acknowledged_by := None; i_notes := None |}.

Definition db_resolved_incident : db_state :=
  upd_incidents (fun _ => [incident_i1 resolved (Some 10)])
    {| api_keys := []; resources := []; servers := [];
       alert_policies := [policy_p1];
       incidents := []; incident_history := []; server_metrics := [];
       process_metrics := []; service_metrics := []; website_metrics := [];
       network_metrics := []; database_metrics := [] |}.

(** User "u1" holds the key "k1" and one resource of each kind. *)
Definition key_k1 : api_key_row :=
  {| ak_key_hash := "k1"; ak_user_id := "u1"; ak_last_used := None;
     ak_expires_at := None; ak_is_active := true |}.

Definition resource_of (id : string) (ty : resource_type) : resource_row :=
  {| r_id := id; r_user_id := "u1"; r_type := ty; r_name := id;
     r_status := unknown; r_is_active := true; r_last_seen_at := None |}.

Definition db_u1 : db_state :=
  {| api_keys := [key_k1];
     resources := [resource_of "srv" server; resource_of "web" website;
                   resource_of "net" network; resource_of "dbs" database];
     servers := []; alert_policies := []; incidents := []; incident_history := [];
     server_metrics := []; process_metrics := []; service_metrics := [];
     website_metrics := []; network_metrics := []; database_metrics := [] |}.

(** A body for [POST /server] on resource "srv". *)
Definition server_sample (timestamp : string) (cpu : Q) : json :=
  JObj [("resourceId", JStr "srv");
        ("metrics",
         JObj [("cpuUsagePercent", JNum cpu); ("memoryUsedMb", JNum 512);
               ("memoryTotalMb", JNum 1024); ("memoryUsagePercent", JNum 50);
               ("diskUsedMb", JNum 100); ("diskTotalMb", JNum 1000);
               ("diskUsagePercent", JNum 10); ("networkInBytes", JNum 0);
               ("networkOutBytes", JNum 0); ("processCount", JNum 4);
               ("uptimeSeconds", JNum 60)]);
        ("timestamp", JStr timestamp)].

(** A body for [POST /website] or any route that reads [isAvailable]. *)
Definition website_sample (resourceId timestamp : string) (isAvailable : bool)
  : json :=
  JObj [("resourceId", JStr resourceId);
        ("metrics",
         JObj [("statusCode", JNum 200); ("responseTimeMs", JNum 30);
               ("totalTimeMs", JNum 40); ("isAvailable", JBool isAvailable)]);
        ("timestamp", JStr timestamp)].

Definition network_sample (resourceId timestamp : string) (isAvailable : bool)
  : json :=
  JObj [("resourceId", JStr resourceId);
        ("metrics",
         JObj [("checkType", JStr "ping"); ("isAvailable", JBool isAvailable)]);
        ("timestamp", JStr timestamp)].

Definition redis_down (w : world) : world :=
  {| clock := clock w; db_up := db_up w; redis_up := false; db := db w;
     streams := streams w; log := log w |}.

Definition at_clock (c : Z) (w : world) : world :=
  {| clock := c; db_up := db_up w; redis_up := redis_up w; db := db w;
     streams := streams w; log := log w |}.

(** The resources of "u1" with one server sample for "srv", taken at
    instant 0. *)
Definition old_server_row : server_metrics_row :=
  {| sm_time := 0; sm_resource_id := "srv"; cpu_usage_percent := 12;
     memory_used_mb := 512; memory_total_mb := 1024; memory_usage_percent := 50;
     disk_used_mb := 100; disk_total_mb := 1000; disk_usage_percent := 10;
     network_in_bytes := 0; network_out_bytes := 0; process_count := 4;
     load_avg_1m := None; load_avg_5m := None; load_avg_15m := None;
     uptime_seconds := 60 |}.

Definition db_old_sample : db_state :=
  upd_server_metrics (fun _ => [old_server_row]) db_u1.

Definition user_u1 : user := {| u_id := "u1"; u_role := None |}.

(** User "u1" with an active policy "cpu above 90" on server "srv" and no
    incident yet. *)
Definition policy_cpu : alert_policy_row :=
  {| ap_id := "p1"; ap_user_id := "u1"; ap_resource_id := "srv";
     ap_metric_name := "cpuUsagePercent"; ap_condition := "gt";
     ap_threshold := 90; ap_duration_seconds := 60;
     ap_severity := sev_critical; ap_is_active := true |}.

Definition db_policy_cpu : db_state :=
  {| api_keys := [key_k1];
     resources := [resource_of "srv" server];
     servers := []; alert_policies := [policy_cpu]; incidents := [];
     incident_history := []; server_metrics := []; process_metrics := [];
     service_metrics := []; website_metrics := []; network_metrics := [];
     database_metrics := [] |}.

(** The same policy with one active incident "i1" and an older, resolved
    incident "i2" of the same pair. *)
Definition incident_on_srv (id : string) (st : alert_state) : incident_row :=
  {| i_id := id; i_alert_policy_id := "p1"; i_resource_id := "srv";
     i_state := st; i_severity := sev_critical; i_triggered_value := Some 95%Q;
     i_triggered_at := 5; i_resolved_at := None;
     i_acknowledged_at := None; i_acknowledged_by := None; i_notes := None |}.

Definition db_two_incidents : db_state :=
  upd_incidents
    (fun _ => [incident_on_srv "i1" active; incident_on_srv "i2" resolved])
    db_policy_cpu.

(** Server "srv" with samples at instants 1000, 2000, 70000 and 500000. *)
Definition server_row_at (t : Z) (cpu : Q) : server_metrics_row :=
  {| sm_time := t; sm_resource_id := "srv"; cpu_usage_percent := cpu;
     memory_used_mb := 512; memory_total_mb := 1024; memory_usage_percent := 50;
     disk_used_mb := 100; disk_total_mb := 1000; disk_usage_percent := 10;
     network_in_bytes := 0; network_out_bytes := 0; process_count := 4;
     load_avg_1m := None; load_avg_5m := None; load_avg_15m := None;
     uptime_seconds := 60 |}.

Definition db_series : db_state :=
  upd_server_metrics
    (fun _ => [server_row_at 500000 40; server_row_at 70000 30;
               server_row_at 2000 20; server_row_at 1000 10])
    db_u1.

(** ** Vocabulary for the statements below *)

Section RangeVocabulary.
Context {P : Platform}.

(** The instants and the bucket width [GET /:resourceId] hands to its
    statement; [None] when PostgreSQL rejects the text. *)
Definition query_start (q_startTime : option string) (now : Z) : option Z :=
  match or_default q_startTime with
  | Some s => timestamptz s
  | None => Some (now - 3600000)
  end.

Definition query_end (q_endTime : option string) (now : Z) : option Z :=
  match or_default q_endTime with
  | Some s => timestamptz s
  | None => Some now
  end.

Definition query_interval (q_interval : option string) : string :=
  match or_default q_interval with Some i => i | None => "1m" end.

Definition query_width (q_interval : option string) : option Z :=
  interval (query_interval q_interval).

End RangeVocabulary.

(** The bucketed series of a resource over [startTime, endTime], by the
    statement of its kind; a database resource has none. *)
Definition series_of (d : db_state) (resource : resource_row)
    (width startTime endTime : Z) : option series :=
  match r_type resource with
  | server =>
      Some (ServerSeries
              (server_range (server_metrics d) width (r_id resource)
                 startTime endTime))
  | website =>
      Some (WebsiteSeries
              (website_range (website_metrics d) width (r_id resource)
                 startTime endTime))
  | network =>
      Some (NetworkSeries
              (network_range (network_metrics d) width (r_id resource)
                 startTime endTime))
  | database => None
  end.

Definition series_rows (s : series) : nat :=
  match s with
  | ServerSeries rows => List.length rows
  | WebsiteSeries rows => List.length rows
  | NetworkSeries rows => List.length rows
  end.

Section SocketVocabulary.
Context {P : Platform}.

(** An [auth] message whose token verifies. *)
Definition verified_auth (m : frame) : bool :=
  match m with
  | Parsed JNull | Unparsable => false
  | Parsed data =>
      is_str (prop data "type") "auth"
      && match jwt_verify (prop data "token") with Some _ => true | None => false end
  end.

End SocketVocabulary.

Definition auth_error_msg : json :=
  JObj [("type", JStr "auth"); ("status", JStr "error");
        ("message", JStr "Invalid token")].

(** What the socket may carry while nobody has authenticated. *)
Definition refusal (a : socket_action) : Prop :=
  a = SockClose
  \/ a = SockSend (JObj [("type", JStr "error");
                         ("message", JStr "Not authenticated")])
  \/ a = SockSend (JObj [("type", JStr "error");
                         ("message", JStr "Invalid message format")])
  \/ a = SockSend auth_error_msg.

Section Vocabulary.
Context {P : Platform}.

(** The active key row [validateApiKey] stops at. *)
Definition matching_key (apiKey : string) (d : db_state) : option api_key_row :=
  find (fun row => bcrypt_compare apiKey (ak_key_hash row))
       (filter ak_is_active (api_keys d)).

(** The user a key authenticates at instant [now], if any. *)
Definition key_owner (apiKey : string) (now : Z) (d : db_state) : option string :=
  match matching_key apiKey d with
  | Some row => if key_expired now row then None else Some (ak_user_id row)
  | None => None
  end.

(** The database after [validateApiKey]: an accepted key is stamped. *)
Definition key_checked (apiKey : string) (now : Z) (d : db_state) : db_state :=
  match matching_key apiKey d with
  | Some row =>
      if key_expired now row then d else update_last_used now (ak_key_hash row) d
  | None => d
  end.

(** The instant a sample is filed under. *)
Definition sample_time (timestamp : option Z) (now : Z) : Z :=
  match timestamp with Some t => t | None => now end.

(** The database writes of [POST /server] for an accepted body, in order. *)
Definition server_writes (now : Z) (body : server_body) (d : db_state) : db_state :=
  let timestamp := sample_time (sb_timestamp body) now in
  let d1 := upd_server_metrics (cons (server_metrics_values timestamp body)) d in
  let d2 := upd_process_metrics
              (app (rev (map (process_metrics_values timestamp (sb_resourceId body))
                             (match sb_processes body with
                              | Some l => l
                              | None => []
                              end)))) d1 in
  let d3 := upd_service_metrics
              (app (rev (map (service_metrics_values timestamp (sb_resourceId body))
                             (match sb_services body with
                              | Some l => l
                              | None => []
                              end)))) d2 in
  let d4 := update_resource_seen_server now timestamp (sb_resourceId body) d3 in
  update_servers timestamp body d4.

(** The database writes of [POST /website] for an accepted body. *)
Definition website_writes (now : Z) (body : website_body) (d : db_state) : db_state :=
  let timestamp := sample_time (wb_timestamp body) now in
  update_resource_seen timestamp
    (availability_status (w_isAvailable (wb_metrics body))) (wb_resourceId body)
    (upd_website_metrics (cons (website_metrics_values timestamp body)) d).

(** The database writes of [POST /network] for an accepted body. *)
Definition network_writes (now : Z) (body : network_body) (d : db_state) : db_state :=
  let timestamp := sample_time (nb_timestamp body) now in
  update_resource_seen timestamp
    (availability_status (n_isAvailable (nb_metrics body))) (nb_resourceId body)
    (upd_network_metrics (cons (network_metrics_values timestamp body)) d).

Definition resource_by_id (resourceId : string) (d : db_state) : option resource_row :=
  find (fun r => String.eqb (r_id r) resourceId) (resources d).

(** A request to [POST /server] that passes the key check, validation and
    the resource lookup, and the body validation made of it. *)
Definition server_accepted (apiKey : string) (request_body : option json)
    (w : world) (body : server_body) : Prop :=
  apiKey <> ""
  /\ serverMetricsSchema request_body = Some body
  /\ exists userId,
       key_owner apiKey (clock w) (db w) = Some userId
       /\ select_resource_check (sb_resourceId body) userId server (db w) <> [].

Definition website_accepted (apiKey : string) (request_body : option json)
    (w : world) (body : website_body) : Prop :=
  apiKey <> ""
  /\ websiteMetricsSchema request_body = Some body
  /\ exists userId,
       key_owner apiKey (clock w) (db w) = Some userId
       /\ select_resource_check (wb_resourceId body) userId website (db w) <> [].

Definition network_accepted (apiKey : string) (request_body : option json)
    (w : world) (body : network_body) : Prop :=
  apiKey <> ""
  /\ networkMetricsSchema request_body = Some body
  /\ exists userId,
       key_owner apiKey (clock w) (db w) = Some userId
       /\ select_resource_check (nb_resourceId body) userId network (db w) <> [].

(** The entry each route adds to its Redis stream. *)
Definition server_publication (now : Z) (body : server_body)
  : string * list (string * json) :=
  (String.append "metrics:server:" (sb_resourceId body),
   [("cpu", JNum (cpuUsagePercent (sb_metrics body)));
    ("memory", JNum (memoryUsagePercent (sb_metrics body)));
    ("disk", JNum (diskUsagePercent (sb_metrics body)));
    ("timestamp", JNum (inject_Z (sample_time (sb_timestamp body) now)))]).

Definition website_publication (now : Z) (body : website_body)
  : string * list (string * json) :=
  (String.append "metrics:website:" (wb_resourceId body),
   [("status", JNum (statusCode (wb_metrics body)));
    ("responseTime", JNum (responseTimeMs (wb_metrics body)));
    ("available", JBool (w_isAvailable (wb_metrics body)));
    ("timestamp", JNum (inject_Z (sample_time (wb_timestamp body) now)))]).

Definition network_publication (now : Z) (body : network_body)
  : string * list (string * json) :=
  (String.append "metrics:network:" (nb_resourceId body),
   [("checkType", JStr (checkType (nb_metrics body)));
    ("latency", JNum (match or_null (latencyMs (nb_metrics body)) with
                      | Some l => l
                      | None => 0
                      end));
    ("available", JBool (n_isAvailable (nb_metrics body)));
    ("timestamp", JNum (inject_Z (sample_time (nb_timestamp body) now)))]).

(** The world a single-sample route leaves behind once its writes [d'] are
    made: the stream entry when Redis answers, an error log line when not. *)
Definition after_publish (what : string) (entry : string * list (string * json))
    (d' : db_state) (w : world) : world :=
  if redis_up w then with_streams (entry :: streams w) (with_db d' w)
  else with_log ((lvl_error, what) :: log w) (with_db d' w).

(** The reply of a single-sample route whose writes were made. *)
Definition reply_after_publish (timestamp : Z) (w : world) : reply json :=
  if redis_up w then mk_reply 200 (ok_body timestamp)
  else mk_reply 500 (error_body "Internal server error").

(** The instants of every sample stored for a resource, in the table of
    its kind. *)
Definition sample_times (d : db_state) (resource : resource_row) : list Z :=
  match r_type resource with
  | server =>
      map sm_time
        (filter (fun m => String.eqb (sm_resource_id m) (r_id resource))
                (server_metrics d))
  | website =>
      map wm_time
        (filter (fun m => String.eqb (wm_resource_id m) (r_id resource))
                (website_metrics d))
  | network =>
      map nm_time
        (filter (fun m => String.eqb (nm_resource_id m) (r_id resource))
                (network_metrics d))
  | database =>
      map dm_time
        (filter (fun m => String.eqb (dm_resource_id m) (r_id resource))
                (database_metrics d))
  end.

(** One turn of the loop of [POST /latest] on the object being built. *)
Definition latest_step (d : db_state) (latestMetrics : list (string * latest_entry))
    (resource : resource_row) : list (string * latest_entry) :=
  match latest_row_data d resource with
  | Some data =>
      set_key (r_id resource)
        {| le_name := r_name resource; le_type := r_type resource;
           le_data := data |} latestMetrics
  | None => latestMetrics
  end.

(** The tables of the alerting subsystem. *)
Definition alert_tables (d : db_state)
  : list alert_policy_row * list incident_row * list incident_history_row :=
  (alert_policies d, incidents d, incident_history d).

(** The incidents of a (policy, resource) pair that are [active] or
    [acknowledged]. *)
Definition open_incidents (policyId resourceId : string) (d : db_state)
  : list incident_row :=
  filter (fun i => String.eqb (i_alert_policy_id i) policyId
                   && String.eqb (i_resource_id i) resourceId
                   && (alert_state_eqb (i_state i) active
                       || alert_state_eqb (i_state i) acknowledged))
         (incidents d).

(** [compare(sampleValue, operator, threshold)] of a policy, for reading
    the fixtures; no route evaluates it. *)
Definition violates (p : alert_policy_row) (value : Q) : bool :=
  if String.eqb (ap_condition p) "gt" then Qgtb value (ap_threshold p)
  else if String.eqb (ap_condition p) "gte" then Qle_bool (ap_threshold p) value
  else if String.eqb (ap_condition p) "lt" then Qgtb (ap_threshold p) value
  else if String.eqb (ap_condition p) "lte" then Qle_bool value (ap_threshold p)
  else if String.eqb (ap_condition p) "eq" then Qeq_bool value (ap_threshold p)
  else negb (Qeq_bool value (ap_threshold p)).

(** A computation that leaves the alerting tables as it found them. *)
Definition keeps_alerts {A} (m : M A) : Prop :=
  forall w, alert_tables (db (snd (m w))) = alert_tables (db w).

(** The samples of a resource that fall in bucket [b] of the given width. *)
Definition server_bucket_rows (table : list server_metrics_row) (resourceId : string)
    (width b : Z) : list server_metrics_row :=
  bucket_group sm_time width b
    (filter (fun r => String.eqb (sm_resource_id r) resourceId) table).

(** An aggregate that is not NULL and equals [q]. *)
Definition agg_is (o : option Q) (q : Q) : bool :=
  match o with Some a => Qeq_bool a q | None => false end.

(** Whether the batch loop counts an entry as processed: its [type] is
    one of the three sample kinds. *)
Definition counted (metric : json) : bool :=
  is_str (prop metric "type") "server"
  || is_str (prop metric "type") "website"
  || is_str (prop metric "type") "network".

(** Everything a stored sample would show in: the time-series tables and
    the resources with their status and last-seen instant. *)
Definition telemetry (d : db_state) :=
  (server_metrics d, process_metrics d, service_metrics d, website_metrics d,
   network_metrics d, database_metrics d, resources d, servers d).

End Vocabulary.

(** ** Vocabulary for the properties of the routes beyond the claims *)

(** A row whose three usage percentages lie between 0 and 100. *)
Definition percentages_in_range (m : server_metrics_row) : Prop :=
  (0 <= cpu_usage_percent m <= 100)%Q
  /\ (0 <= memory_usage_percent m <= 100)%Q
  /\ (0 <= disk_usage_percent m <= 100)%Q.

(** Some resource row has this id and this kind. *)
Definition resource_of_kind (d : db_state) (resourceId : string)
    (ty : resource_type) : Prop :=
  exists r, In r (resources d) /\ r_id r = resourceId /\ r_type r = ty.

(** Every sample row belongs to a resource of the kind of its table. *)
Definition samples_have_resources (d : db_state) : Prop :=
  (forall m, In m (server_metrics d) -> resource_of_kind d (sm_resource_id m) server)
  /\ (forall m, In m (website_metrics d) ->
                resource_of_kind d (wm_resource_id m) website)
  /\ (forall m, In m (network_metrics d) ->
                resource_of_kind d (nm_resource_id m) network)
  /\ (forall m, In m (process_metrics d) -> resource_of_kind d (pm_resource_id m) server)
  /\ (forall m, In m (service_metrics d) ->
                resource_of_kind d (svm_resource_id m) server).

(** A reply that turns the request down. *)
Definition refused (r : reply json) : Prop :=
  code r = 400 \/ code r = 401 \/ code r = 404.

(** What a single-sample route does with a request it does not accept:
    the reply turns it down, and neither the samples, the resources nor
    the streams change. *)
Definition turned_down (res : outcome (reply json) * world) (x : option string)
    (w : world) : Prop :=
  exists r w',
    res = (Ok r, w')
    /\ refused r
    /\ telemetry (db w') = telemetry (db w)
    /\ streams w' = streams w
    /\ (header_present x = None \/ db_up w = false -> code r = 401 /\ db w' = db w).


(** What a single-sample route may do with any request: it answers, with
    one of five status codes; it publishes one stream entry exactly when
    it answers 200; a reply that turns the request down leaves samples and
    resources alone; 500 needs Redis to be down; without a key, or without
    the database, the answer is 401 and the database is as before. *)
Definition outcome_in_order (res : outcome (reply json) * world) (x : option string)
    (w : world) : Prop :=
  exists r w',
    res = (Ok r, w')
    /\ In (code r) [200; 400; 401; 404; 500]
    /\ (code r = 200 -> exists entry, streams w' = entry :: streams w)
    /\ (code r <> 200 -> streams w' = streams w)
    /\ (refused r -> telemetry (db w') = telemetry (db w))
    /\ (code r = 500 -> redis_up w = false /\ db_up w = true)
    /\ (header_present x = None \/ db_up w = false -> code r = 401 /\ db w' = db w).

(** A second tenant "u2" with a server of its own beside those of "u1". *)
Definition resource_u2 : resource_row :=
  {| r_id := "srv2"; r_user_id := "u2"; r_type := server; r_name := "srv2";
     r_status := online; r_is_active := true; r_last_seen_at := Some 7 |}.

Definition db_two_tenants : db_state := upd_resources (cons resource_u2) db_u1.

(** [SUM(col)] over a BIGINT column of the rows returned. *)
Definition Zsum (xs : list Z) : Z := fold_right Z.add 0 xs.

(** The closure state of the live-feed socket is in step: no stream key
    is subscribed twice, none has two polling timers, and a key has a timer
    exactly when it is subscribed. *)
Definition in_step (c : connection) : Prop :=
  NoDup (subscriptions c)
  /\ NoDup (streamReaders c)
  /\ forall k, In k (subscriptions c) <-> In k (streamReaders c).

(** The ways one message can change the closure state. *)
Inductive ws_step (c : connection) : connection -> Prop :=
| ws_same : ws_step c c
| ws_auth (id : option string) :
    ws_step c {| authenticated := true; userId := id;
                 subscriptions := subscriptions c;
                 streamReaders := streamReaders c |}
| ws_subscribe (k : string) :
    authenticated c = true ->
    includes (subscriptions c) k = false ->
    ws_step c {| authenticated := authenticated c; userId := userId c;
                 subscriptions := subscriptions c ++ [k];
                 streamReaders := k :: filter (fun x => negb (String.eqb x k))
                                              (streamReaders c) |}
| ws_unsubscribe (k : string) :
    authenticated c = true ->
    includes (subscriptions c) k = true ->
    ws_step c {| authenticated := authenticated c; userId := userId c;
                 subscriptions := splice_first k (subscriptions c);
                 streamReaders := filter (fun x => negb (String.eqb x k))
                                         (streamReaders c) |}.

(** A [subscribe] and an [unsubscribe] message for one resource. *)
Definition subscribe_to (resourceType resourceId : string) : frame :=
  Parsed (JObj [("type", JStr "subscribe"); ("resourceId", JStr resourceId);
                ("resourceType", JStr resourceType)]).

Definition unsubscribe_from (resourceType resourceId : string) : frame :=
  Parsed (JObj [("type", JStr "unsubscribe"); ("resourceId", JStr resourceId);
                ("resourceType", JStr resourceType)]).

Definition auth_with (token : string) : frame :=
  Parsed (JObj [("type", JStr "auth"); ("token", JStr token)]).

(** The stream a subscription to a resource reads: the one the ingestion
    route of its kind publishes to. *)
Definition key_of (resourceType resourceId : string) : string :=
  String.append "metrics:" (String.append resourceType (String.append ":" resourceId)).

(** An authenticated connection of user "u1" with no subscription yet. *)
Definition connection_u1 : connection :=
  {| authenticated := true; userId := Some "u1"; subscriptions := [];
     streamReaders := [] |}.

(** ** routes/alerts.ts: policies and the incident list *)

Definition upd_alert_policies
    (f : list alert_policy_row -> list alert_policy_row) (d : db_state) :=
  {| api_keys := api_keys d; resources := resources d; servers := servers d;
     alert_policies := f (alert_policies d);
     incidents := incidents d; incident_history := incident_history d;
     server_metrics := server_metrics d; process_metrics := process_metrics d;
     service_metrics := service_metrics d; website_metrics := website_metrics d;
     network_metrics := network_metrics d; database_metrics := database_metrics d |}.

Definition set_inactive (p : alert_policy_row) : alert_policy_row :=
  {| ap_id := ap_id p; ap_user_id := ap_user_id p; ap_resource_id := ap_resource_id p;
     ap_metric_name := ap_metric_name p; ap_condition := ap_condition p;
     ap_threshold := ap_threshold p; ap_duration_seconds := ap_duration_seconds p;
     ap_severity := ap_severity p; ap_is_active := false |}.

(** [WHERE id = $1 AND user_id = $2] on [alert_policies] *)
Definition policy_of (policyId userId : string) (p : alert_policy_row) : bool :=
  String.eqb (ap_id p) policyId && String.eqb (ap_user_id p) userId.

(** [UPDATE alert_policies SET is_active = false
     WHERE id = $1 AND user_id = $2 RETURNING id] *)
Definition deactivate_policy (policyId userId : string) (d : db_state)
  : list string * db_state :=
  (map ap_id (filter (policy_of policyId userId) (alert_policies d)),
   upd_alert_policies
     (map (fun p => if policy_of policyId userId p then set_inactive p else p)) d).

Section Alerts.
Context {P : Platform}.

(** [DELETE /policies/:id], after the [authenticate] hook. The path
    parameter is compared with a [uuid] column, so PostgreSQL rejects the
    statement when the text is not a uuid. *)
Definition delete_policy (userId policyId : string) : M (reply json) :=
  result <- (if uuid_in policyId
             then query (fun _ d => deactivate_policy policyId userId d)
             else rejected_query) ;;
  if Z.of_nat (List.length result) =? 0 then
    send_code 404 (error_body "Alert policy not found")
  else
    logger lvl_info "Alert policy deleted" ;;;
    send (JObj [("message", JStr "Alert policy deleted successfully")]).

End Alerts.

(** An incident row joined with its policy and its resource:
    [FROM incidents i JOIN alert_policies ap ON i.alert_policy_id = ap.id
     JOIN resources r ON i.resource_id = r.id]. *)
Record incident_listing := {
  il_incident : incident_row;
  il_policy : alert_policy_row;
  il_resource : resource_row
}.

Definition incidents_joined (d : db_state) : list incident_listing :=
  flat_map
    (fun i =>
       flat_map
         (fun ap =>
            map (fun r => {| il_incident := i; il_policy := ap; il_resource := r |})
                (filter (fun r => String.eqb (i_resource_id i) (r_id r))
                        (resources d)))
         (filter (fun ap => String.eqb (i_alert_policy_id i) (ap_id ap))
                 (alert_policies d)))
    (incidents d).

(** PostgreSQL's input of the enum types [alert_state] and
    [alert_severity]. *)
Definition alert_state_in (s : string) : option alert_state :=
  if String.eqb s "active" then Some active
  else if String.eqb s "resolved" then Some resolved
  else if String.eqb s "acknowledged" then Some acknowledged
  else None.

Definition alert_severity_in (s : string) : option alert_severity :=
  if String.eqb s "info" then Some sev_info
  else if String.eqb s "warning" then Some sev_warning
  else if String.eqb s "critical" then Some sev_critical
  else None.

Definition alert_severity_eqb (a b : alert_severity) : bool :=
  match a, b with
  | sev_info, sev_info | sev_warning, sev_warning | sev_critical, sev_critical => true
  | _, _ => false
  end.

(** A condition the handler appends only [if (param)]: [Some None] when
    the parameter is absent or empty, [None] when its text is rejected. *)
Definition optional_condition {A} (input : string -> option A) (param : option string)
  : option (option A) :=
  match or_default param with
  | None => Some None
  | Some s => option_map Some (input s)
  end.

Definition holds_if {A} (cond : option A) (test : A -> bool) : bool :=
  match cond with Some a => test a | None => true end.

(** [WHERE ap.user_id = $1 [AND i.state = $n] [AND i.severity = $n]
     [AND i.resource_id = $n]] *)
Definition incident_where (userId : string) (state : option alert_state)
    (severity : option alert_severity) (resourceId : option string)
    (row : incident_listing) : bool :=
  String.eqb (ap_user_id (il_policy row)) userId
  && holds_if state (alert_state_eqb (i_state (il_incident row)))
  && holds_if severity (alert_severity_eqb (i_severity (il_incident row)))
  && holds_if resourceId (String.eqb (i_resource_id (il_incident row))).

(** [ORDER BY i.triggered_at DESC]; rows of equal instant keep the order
    they were produced in. *)
Fixpoint insert_by_triggered (row : incident_listing) (sorted : list incident_listing)
  : list incident_listing :=
  match sorted with
  | [] => [row]
  | x :: tl =>
      if i_triggered_at (il_incident x) <=? i_triggered_at (il_incident row)
      then row :: sorted
      else x :: insert_by_triggered row tl
  end.

Definition order_by_triggered_desc (rows : list incident_listing)
  : list incident_listing :=
  fold_right insert_by_triggered [] rows.

Section Incidents.
Context {P : Platform}.

(** [GET /incidents], after the [authenticate] hook *)
Definition get_incidents (userId : string)
    (q_state q_severity q_resourceId : option string)
  : M (reply (list incident_listing)) :=
  match optional_condition alert_state_in q_state,
        optional_condition alert_severity_in q_severity,
        optional_condition (fun s => if uuid_in s then Some s else None) q_resourceId
  with
  | Some state, Some severity, Some resourceId =>
      rows <- query (fun _ d =>
        (firstn 100
           (order_by_triggered_desc
              (filter (incident_where userId state severity resourceId)
                      (incidents_joined d))), d)) ;;
      send rows
  | _, _, _ => rejected_query
  end.

End Incidents.

(** The rows [GET /incidents] chooses from for a caller and conditions. *)
Definition incident_candidates (userId : string) (state : option alert_state)
    (severity : option alert_severity) (resourceId : option string) (d : db_state)
  : list incident_listing :=
  filter (incident_where userId state severity resourceId) (incidents_joined d).

Definition newer_or_equal (a b : incident_listing) : Prop :=
  i_triggered_at (il_incident b) <= i_triggered_at (il_incident a).

(** A second policy, of user "u2", on the second tenant's server, with
    one incident. *)
Definition policy_u2 : alert_policy_row :=
  {| ap_id := "p2"; ap_user_id := "u2"; ap_resource_id := "srv2";
     ap_metric_name := "cpuUsagePercent"; ap_condition := "gt";
     ap_threshold := 90; ap_duration_seconds := 60;
     ap_severity := sev_warning; ap_is_active := true |}.

Definition incident_u2 : incident_row :=
  {| i_id := "i9"; i_alert_policy_id := "p2"; i_resource_id := "srv2";
     i_state := active; i_severity := sev_warning; i_triggered_value := Some 95%Q;
     i_triggered_at := 50; i_resolved_at := None;
     i_acknowledged_at := None; i_acknowledged_by := None; i_notes := None |}.

Definition db_two_policies : db_state :=
  upd_incidents (cons incident_u2)
    (upd_alert_policies (cons policy_u2)
       (upd_resources (cons resource_u2) db_two_incidents)).

(** ** utils/redis.ts: what a stream entry carries *)

(** The [fields] array [addToStream] spreads into XADD: each key of
    [Object.entries(data)] followed by its value. *)
Definition stream_fields (data : list (string * string)) : list string :=
  flat_map (fun kv => [fst kv; snd kv]) data.

(** The object [readFromStream] builds from one entry [[id, fields]]:
    [{ id }], then [data[fields[i]] = fields[i + 1]] for every even [i]. A
    value is [None] where [fields[i + 1]] is [undefined]. *)
Fixpoint read_fields (fields : list string) (data : list (string * option string))
  : list (string * option string) :=
  match fields with
  | [] => data
  | [k] => set_key k None data
  | k :: v :: tl => read_fields tl (set_key k (Some v) data)
  end.

Definition entry_object (id : string) (fields : list string)
  : list (string * option string) :=
  read_fields fields [("id", Some id)].

(** ** routes/resources.ts: deleting a resource *)

Definition set_deleted (r : resource_row) : resource_row :=
  {| r_id := r_id r; r_user_id := r_user_id r; r_type := r_type r;
     r_name := r_name r; r_status := r_status r; r_is_active := false;
     r_last_seen_at := r_last_seen_at r |}.

(** [WHERE id = $1 AND user_id = $2] on [resources] *)
Definition resource_owned (resourceId userId : string) (r : resource_row) : bool :=
  String.eqb (r_id r) resourceId && String.eqb (r_user_id r) userId.

(** [UPDATE resources SET is_active = false, updated_at = NOW()
     WHERE id = $1 AND user_id = $2 RETURNING id]; the row record has no
    [updated_at]. *)
Definition deactivate_resource (resourceId userId : string) (d : db_state)
  : list string * db_state :=
  (map r_id (filter (resource_owned resourceId userId) (resources d)),
   upd_resources
     (map (fun r => if resource_owned resourceId userId r then set_deleted r else r))
     d).

Section Resources.
Context {P : Platform}.

(** [DELETE /:id], after the [authenticate] hook *)
Definition delete_resource (userId resourceId : string) : M (reply json) :=
  result <- (if uuid_in resourceId
             then query (fun _ d => deactivate_resource resourceId userId d)
             else rejected_query) ;;
  if Z.of_nat (List.length result) =? 0 then
    send_code 404 (error_body "Resource not found")
  else
    logger lvl_info "Resource deleted" ;;;
    send (JObj [("message", JStr "Resource deleted successfully")]).

End Resources.

(** ** routes/metrics.ts: metrics for all resources of a type *)

(** PostgreSQL's input of the enum type [resource_type]. *)
Definition resource_type_in (s : string) : option resource_type :=
  if String.eqb s "server" then Some server
  else if String.eqb s "website" then Some website
  else if String.eqb s "network" then Some network
  else if String.eqb s "database" then Some database
  else None.

(** [SELECT id, name, type FROM resources WHERE type = $1 [AND user_id = $2]] *)
Definition select_resources_of_type (u : user) (ty : resource_type) (d : db_state)
  : list resource_row :=
  filter (fun r => resource_type_eqb (r_type r) ty
                   && (is_admin u || String.eqb (r_user_id r) (u_id u)))
         (resources d).

Record type_entry := {
  te_resourceId : string;
  te_name : string;
  te_data : series
}.

Inductive type_payload :=
| TError (msg : string)
| TResources (resources : list type_entry).

(** The loop over [resources.rows]; each turn runs the statement of the
    resource's kind and pushes one entry. *)
Fixpoint type_loop (rows : list resource_row) (width startTime endTime : Z)
    (metricsData : list type_entry) : M (list type_entry) :=
  match rows with
  | [] => ret metricsData
  | resource :: tl =>
      result <-
        match r_type resource with
        | server =>
            rows <- query (fun _ d =>
              (server_range (server_metrics d) width (r_id resource)
                 startTime endTime, d)) ;;
            ret (ServerSeries rows)
        | website =>
            rows <- query (fun _ d =>
              (website_range (website_metrics d) width (r_id resource)
                 startTime endTime, d)) ;;
            ret (WebsiteSeries rows)
        | network =>
            rows <- query (fun _ d =>
              (network_range (network_metrics d) width (r_id resource)
                 startTime endTime, d)) ;;
            ret (NetworkSeries rows)
        | database =>
            (* columns that database_metrics does not have, as in
               [GET /:resourceId] *)
            rejected_query
        end ;;
      type_loop tl width startTime endTime
        (metricsData ++ [{| te_resourceId := r_id resource;
                            te_name := r_name resource;
                            te_data := result |}])
  end.

Section TypeMetrics.
Context {P : Platform}.

(** [GET /type/:type], after the [authenticate] hook. The casts of the
    interval and the instants are made by the first statement of the loop. *)
Definition get_type_metrics (u : user) (resourceType : string)
    (q_startTime q_endTime q_interval : option string) : M (reply type_payload) :=
  now <- get_clock ;;
  let startTime :=
    match or_default q_startTime with
    | Some s => timestamptz s
    | None => Some (now - 3600000)
    end in
  let endTime :=
    match or_default q_endTime with
    | Some s => timestamptz s
    | None => Some now
    end in
  let interval_text :=
    match or_default q_interval with Some i => i | None => "1m" end in
  let width := interval interval_text in
  rows <- match resource_type_in resourceType with
          | Some ty => query (fun _ d => (select_resources_of_type u ty d, d))
          | None => rejected_query
          end ;;
  match rows with
  | [] => send_code 404 (TError "No resources found")
  | _ :: _ =>
      match width, startTime, endTime with
      | Some w, Some s, Some e =>
          if 0 <? w then
            metricsData <- type_loop rows w s e [] ;;
            send (TResources metricsData)
          else rejected_query
      | _, _, _ => rejected_query
      end
  end.

End TypeMetrics.

(** The entry [GET /type/:type] pushes for a resource whose statement
    runs. *)
Definition type_entry_of (d : db_state) (width startTime endTime : Z)
    (resource : resource_row) : type_entry :=
  {| te_resourceId := r_id resource; te_name := r_name resource;
     te_data := match series_of d resource width startTime endTime with
                | Some data => data
                | None => ServerSeries []
                end |}.

(** ** schema.sql: the hourly website availability aggregate *)

Record website_availability_1h_row := {
  wa_bucket : Z;
  wa_resource_id : string;
  total_checks : Z;
  successful_checks : Z;
  availability_percent : Q;
  avg_response_time : option Q;
  max_response_time : option Q;
  min_response_time : option Q
}.

(** The rows of [website_availability_1h] for one [resource_id], rebuilt
    from the raw table. *)
Definition website_availability_1h (table : list website_metrics_row)
    (resourceId : string) : list website_availability_1h_row :=
  group_by_bucket wm_time
    (fun bucket g =>
       {| wa_bucket := bucket; wa_resource_id := resourceId;
          total_checks := COUNT g;
          successful_checks := SUM_available wm_is_available g;
          availability_percent :=
            (inject_Z (SUM_available wm_is_available g) / inject_Z (COUNT g) * 100)%Q;
          avg_response_time := AVG (map response_time_ms g);
          max_response_time := MAX (map response_time_ms g);
          min_response_time := MIN (map response_time_ms g) |})
    one_hour
    (filter (fun r => String.eqb (wm_resource_id r) resourceId) table).

(** Website "web" checked at instants 1000 (up), 2000 (down) and 3000 (up). *)
Definition website_row_at (t : Z) (up : bool) : website_metrics_row :=
  {| wm_time := t; wm_resource_id := "web"; status_code := 200;
     response_time_ms := 30; dns_time_ms := None; connect_time_ms := None;
     tls_time_ms := None; ttfb_ms := None; total_time_ms := 40;
     content_size_bytes := None; wm_is_available := up;
     wm_error_message := None; location := "default" |}.

Definition website_checks : list website_metrics_row :=
  [website_row_at 3000 true; website_row_at 2000 false; website_row_at 1000 true].

(** ** routes/websocket.ts: the system status socket [GET /status] *)

(** The handler's closure variables, with the interval timers the
    connection has started and not cleared; a timer is named by the number
    of timers started before it. *)
Record status_connection := {
  st_authenticated : bool;
  statusInterval : option nat;
  st_running : list nat;
  st_started : nat
}.

Definition new_status_connection : status_connection :=
  {| st_authenticated := false; statusInterval := None; st_running := [];
     st_started := 0 |}.

(** [clearInterval(t)] *)
Definition clear_interval (t : nat) (running : list nat) : list nat :=
  filter (fun x => negb (Nat.eqb x t)) running.

Section StatusSocket.
Context {P : Platform}.

(** [socket.on('message', ...)]; the [catch] only logs. *)
Definition status_on_message (c : status_connection) (message : frame)
  : M (status_connection * list socket_action) :=
  try_catch
    (match message with
     | Unparsable => throw TypeError
     | Parsed data =>
         type <- match data with
                 | JNull => throw TypeError
                 | _ => ret (prop data "type")
                 end ;;
         if is_str type "auth" then
           match jwt_verify (prop data "token") with
           | Some _ =>
               ret ({| st_authenticated := true;
                       statusInterval := Some (st_started c);
                       st_running := st_started c :: st_running c;
                       st_started := S (st_started c) |},
                    [SockSend (JObj [("type", JStr "auth");
                                     ("status", JStr "success")])])
           | None =>
               ret (c, [SockSend (JObj [("type", JStr "auth");
                                        ("status", JStr "error");
                                        ("message", JStr "Invalid token")]);
                        SockClose])
           end
         else if negb (st_authenticated c) then
           ret (c, [SockSend (JObj [("type", JStr "error");
                                    ("message", JStr "Not authenticated")]);
                    SockClose])
         else ret (c, [])
     end)
    (fun _ =>
       logger lvl_error "Status WebSocket message error" ;;;
       ret (c, [])).

Fixpoint status_on_messages (c : status_connection) (messages : list frame)
  : M (status_connection * list socket_action) :=
  match messages with
  | [] => ret (c, [])
  | m :: tl =>
      r <- status_on_message c m ;;
      r' <- status_on_messages (fst r) tl ;;
      ret (fst r', snd r ++ snd r')
  end.

(** [socket.on('close', ...)] *)
Definition status_on_close (c : status_connection) : M status_connection :=
  logger lvl_info "Status WebSocket closed" ;;;
  ret match statusInterval c with
      | Some t =>
          {| st_authenticated := st_authenticated c;
             statusInterval := statusInterval c;
             st_running := clear_interval t (st_running c);
             st_started := st_started c |}
      | None => c
      end.

End StatusSocket.

(** The timers of a status connection are as the handler leaves them:
    distinct, all started earlier, the variable holding the newest. *)
Definition timers_in_order (c : status_connection) : Prop :=
  NoDup (st_running c)
  /\ (forall t, In t (st_running c) -> (t < st_started c)%nat)
  /\ match st_running c with
     | [] => statusInterval c = None
     | t :: _ => statusInterval c = Some t
     end.

(** * Properties *)

Section IncidentActions.

Lemma find_update_where_id (incidentId : string) (set : incident_row -> incident_row)
    (l : list incident_row) :
  (forall i, i_id (set i) = i_id i) ->
  find (fun i => String.eqb (i_id i) incidentId)
       (map (fun i => if String.eqb (i_id i) incidentId then set i else i) l)
  = option_map set (find (fun i => String.eqb (i_id i) incidentId) l).
Proof.
  intros Hid. induction l as [|i tl IH]; simpl; [reflexivity|].
  destruct (String.eqb (i_id i) incidentId) eqn:E; simpl.
  - rewrite Hid, E. reflexivity.
  - rewrite E. exact IH.
Qed.

Lemma length_nonzero {A} (l : list A) :
  l <> [] -> (Z.of_nat (List.length l) =? 0) = false.
Proof.
  destruct l; [congruence|]. intros _. apply Z.eqb_neq. simpl List.length. lia.
Qed.


End IncidentActions.



Section IngestRuns.
Context {P : Platform}.

Lemma with_db_same (w : world) : with_db (db w) w = w.
Proof. destruct w; reflexivity. Qed.

Lemma validateApiKey_run (apiKey : string) (w : world) :
  db_up w = true ->
  validateApiKey apiKey w
  = (Ok (key_owner apiKey (clock w) (db w)),
     with_db (key_checked apiKey (clock w) (db w)) w).
Proof.
  intros Hup. destruct w as [now up rup d st lg]. simpl in *. subst up.
  unfold validateApiKey, try_catch, bind, query, key_owner, key_checked,
    matching_key, get_clock, ret, with_db; simpl.
  destruct (find _ _) as [row|]; simpl; [|reflexivity].
  destruct (key_expired now row); reflexivity.
Qed.

Lemma for_each_insert_process (timestamp : Z) (rid : string)
    (ps : list process_in) (w : world) :
  db_up w = true ->
  for_each ps (fun process =>
    query (fun _ d =>
      (tt, upd_process_metrics
             (cons (process_metrics_values timestamp rid process)) d))) w
  = (Ok tt,
     with_db (upd_process_metrics
                (app (rev (map (process_metrics_values timestamp rid) ps)))
                (db w)) w).
Proof.
  revert w. induction ps as [|p tl IH]; intros w Hup.
  - destruct w as [now up rup d st lg]. destruct d. reflexivity.
  - simpl. unfold bind at 1. unfold query at 1. rewrite Hup.
    rewrite IH by (destruct w; exact Hup).
    destruct w as [now up rup d st lg]. destruct d. simpl.
    unfold with_db, upd_process_metrics. simpl.
    rewrite <- app_assoc. reflexivity.
Qed.

Lemma for_each_insert_service (timestamp : Z) (rid : string)
    (ss : list service_in) (w : world) :
  db_up w = true ->
  for_each ss (fun service =>
    query (fun _ d =>
      (tt, upd_service_metrics
             (cons (service_metrics_values timestamp rid service)) d))) w
  = (Ok tt,
     with_db (upd_service_metrics
                (app (rev (map (service_metrics_values timestamp rid) ss)))
                (db w)) w).
Proof.
  revert w. induction ss as [|p tl IH]; intros w Hup.
  - destruct w as [now up rup d st lg]. destruct d. reflexivity.
  - simpl. unfold bind at 1. unfold query at 1. rewrite Hup.
    rewrite IH by (destruct w; exact Hup).
    destruct w as [now up rup d st lg]. destruct d. simpl.
    unfold with_db, upd_service_metrics. simpl.
    rewrite <- app_assoc. reflexivity.
Qed.

Lemma resources_key_checked apiKey now d :
  resources (key_checked apiKey now d) = resources d.
Proof.
  unfold key_checked. destruct (matching_key apiKey d); [|reflexivity].
  destruct (key_expired now a); reflexivity.
Qed.

Lemma optional_process_inserts timestamp rid (o : option (list process_in)) w :
  db_up w = true ->
  match o with
  | Some (p :: ps) =>
      for_each (p :: ps) (fun process =>
        query (fun _ d =>
          (tt, upd_process_metrics
                 (cons (process_metrics_values timestamp rid process)) d)))
  | _ => ret tt
  end w
  = (Ok tt,
     with_db (upd_process_metrics
                (app (rev (map (process_metrics_values timestamp rid)
                               (match o with Some l => l | None => [] end))))
                (db w)) w).
Proof.
  intros Hup. destruct o as [[|p ps]|].
  - destruct w as [now up rup d st lg]; destruct d; reflexivity.
  - apply for_each_insert_process; exact Hup.
  - destruct w as [now up rup d st lg]; destruct d; reflexivity.
Qed.

Lemma optional_service_inserts timestamp rid (o : option (list service_in)) w :
  db_up w = true ->
  match o with
  | Some (p :: ps) =>
      for_each (p :: ps) (fun service =>
        query (fun _ d =>
          (tt, upd_service_metrics
                 (cons (service_metrics_values timestamp rid service)) d)))
  | _ => ret tt
  end w
  = (Ok tt,
     with_db (upd_service_metrics
                (app (rev (map (service_metrics_values timestamp rid)
                               (match o with Some l => l | None => [] end))))
                (db w)) w).
Proof.
  intros Hup. destruct o as [[|p ps]|].
  - destruct w as [now up rup d st lg]; destruct d; reflexivity.
  - apply for_each_insert_service; exact Hup.
  - destruct w as [now up rup d st lg]; destruct d; reflexivity.
Qed.

Lemma ingest_server_run apiKey request_body w body :
  db_up w = true ->
  server_accepted apiKey request_body w body ->
  ingest_server (Some apiKey) request_body w
  = (Ok (reply_after_publish (sample_time (sb_timestamp body) (clock w)) w),
     after_publish "Server metrics ingestion error"
       (server_publication (clock w) body)
       (server_writes (clock w) body (key_checked apiKey (clock w) (db w))) w).
Proof.
  intros Hup (Hne & Hparse & userId & Hkey & Hres).
  apply String.eqb_neq in Hne. apply length_nonzero in Hres.
  unfold ingest_server, try_catch, header_present. rewrite Hne.
  unfold bind at 1. rewrite validateApiKey_run by exact Hup. rewrite Hkey.
  unfold bind at 1. unfold parse. rewrite Hparse. unfold ret at 1.
  destruct w as [now up rup d st lg]. simpl in Hup, Hkey, Hres. subst up.
  unfold bind at 1. unfold query at 1. cbn [db_up with_db db clock].
  unfold select_resource_check in *. rewrite resources_key_checked, Hres.
  unfold bind at 1. unfold get_clock at 1. cbn [db_up with_db db clock].
  unfold bind at 1. unfold query at 1. cbn [db_up with_db db clock].
  unfold bind at 1.
  rewrite optional_process_inserts by reflexivity.
  unfold bind at 1.
  rewrite optional_service_inserts by reflexivity.
  unfold bind, query, addToStream, send, ret, ingest_catch, logger, send_code.
  cbn [db_up with_db db clock redis_up with_streams streams log with_log].
  unfold after_publish, reply_after_publish, server_publication, server_writes,
    sample_time.
  destruct rup; simpl; reflexivity.
Qed.

Lemma ingest_website_run apiKey request_body w body :
  db_up w = true ->
  website_accepted apiKey request_body w body ->
  ingest_website (Some apiKey) request_body w
  = (Ok (reply_after_publish (sample_time (wb_timestamp body) (clock w)) w),
     after_publish "Website metrics ingestion error"
       (website_publication (clock w) body)
       (website_writes (clock w) body (key_checked apiKey (clock w) (db w))) w).
Proof.
  intros Hup (Hne & Hparse & userId & Hkey & Hres).
  apply String.eqb_neq in Hne. apply length_nonzero in Hres.
  unfold ingest_website, try_catch, header_present. rewrite Hne.
  unfold bind at 1. rewrite validateApiKey_run by exact Hup. rewrite Hkey.
  unfold bind at 1. unfold parse. rewrite Hparse. unfold ret at 1.
  destruct w as [now up rup d st lg]. simpl in Hup, Hkey, Hres. subst up.
  unfold bind at 1. unfold query at 1. cbn [db_up with_db db clock].
  unfold select_resource_check in *. rewrite resources_key_checked, Hres.
  unfold bind, get_clock, query, addToStream, send, ret, ingest_catch, logger,
    send_code.
  cbn [db_up with_db db clock redis_up with_streams streams log with_log].
  unfold after_publish, reply_after_publish, website_publication, website_writes,
    sample_time.
  destruct rup; simpl; reflexivity.
Qed.

Lemma ingest_network_run apiKey request_body w body :
  db_up w = true ->
  network_accepted apiKey request_body w body ->
  ingest_network (Some apiKey) request_body w
  = (Ok (reply_after_publish (sample_time (nb_timestamp body) (clock w)) w),
     after_publish "Network metrics ingestion error"
       (network_publication (clock w) body)
       (network_writes (clock w) body (key_checked apiKey (clock w) (db w))) w).
Proof.
  intros Hup (Hne & Hparse & userId & Hkey & Hres).
  apply String.eqb_neq in Hne. apply length_nonzero in Hres.
  unfold ingest_network, try_catch, header_present. rewrite Hne.
  unfold bind at 1. rewrite validateApiKey_run by exact Hup. rewrite Hkey.
  unfold bind at 1. unfold parse. rewrite Hparse. unfold ret at 1.
  destruct w as [now up rup d st lg]. simpl in Hup, Hkey, Hres. subst up.
  unfold bind at 1. unfold query at 1. cbn [db_up with_db db clock].
  unfold select_resource_check in *. rewrite resources_key_checked, Hres.
  unfold bind, get_clock, query, addToStream, send, ret, ingest_catch, logger,
    send_code.
  cbn [db_up with_db db clock redis_up with_streams streams log with_log].
  unfold after_publish, reply_after_publish, network_publication, network_writes,
    sample_time.
  destruct rup; simpl; reflexivity.
Qed.

End IngestRuns.

Section PublishFailure.
Context {P : Platform}.

Lemma server_metrics_key_checked apiKey now d :
  server_metrics (key_checked apiKey now d) = server_metrics d.
Proof.
  unfold key_checked. destruct (matching_key apiKey d) as [row|]; [|reflexivity].
  destruct (key_expired now row); reflexivity.
Qed.

Lemma website_metrics_key_checked apiKey now d :
  website_metrics (key_checked apiKey now d) = website_metrics d.
Proof.
  unfold key_checked. destruct (matching_key apiKey d) as [row|]; [|reflexivity].
  destruct (key_expired now row); reflexivity.
Qed.

Lemma network_metrics_key_checked apiKey now d :
  network_metrics (key_checked apiKey now d) = network_metrics d.
Proof.
  unfold key_checked. destruct (matching_key apiKey d) as [row|]; [|reflexivity].
  destruct (key_expired now row); reflexivity.
Qed.

Lemma incidents_key_checked apiKey now d :
  incidents (key_checked apiKey now d) = incidents d.
Proof.
  unfold key_checked. destruct (matching_key apiKey d) as [row|]; [|reflexivity].
  destruct (key_expired now row); reflexivity.
Qed.


End PublishFailure.

Lemma server_sample_accepted (timestamp : string) (t : Z) (cpu : Q) (w : world) :
  @datetime test_platform timestamp = Some t ->
  Qle_bool 0 cpu = true -> Qle_bool cpu 100 = true ->
  @key_owner test_platform "k1" (clock w) (db w) = Some "u1" ->
  select_resource_check "srv" "u1" server (db w) <> [] ->
  exists body,
    @server_accepted test_platform "k1" (Some (server_sample timestamp cpu)) w body
    /\ sb_timestamp body = Some t
    /\ sb_resourceId body = "srv"
    /\ cpuUsagePercent (sb_metrics body) = cpu
    /\ memoryUsagePercent (sb_metrics body) = 50%Q
    /\ diskUsagePercent (sb_metrics body) = 10%Q.
Proof.
  intros Ht H0 H100 Hkey Hres. eexists. split.
  - unfold server_accepted. split; [discriminate|]. split.
    + unfold serverMetricsSchema, server_sample, server_metrics_object,
        z_number_min_max, z_datetime_optional.
      cbn -[Qle_bool datetime]. rewrite H0, H100.
      cbn -[Qle_bool datetime]. rewrite Ht. reflexivity.
    + exists "u1". split; [exact Hkey|exact Hres].
  - simpl. repeat split; reflexivity.
Qed.



Section LatestRow.
Variable R : Type.
Variable time : R -> Z.

Lemma limit_1_none (rows : list R) :
  order_by_time_desc_limit_1 time rows = None <-> rows = [].
Proof.
  split; [|intros ->; reflexivity].
  destruct rows as [|a tl]; [reflexivity|]. simpl.
  destruct (order_by_time_desc_limit_1 time tl) as [r'|];
    [destruct (time a <? time r')|]; discriminate.
Qed.

Lemma limit_1_in_max (rows : list R) (r : R) :
  order_by_time_desc_limit_1 time rows = Some r ->
  In r rows /\ forall x, In x rows -> time x <= time r.
Proof.
  revert r. induction rows as [|a tl IH]; intros r H; simpl in H; [discriminate|].
  destruct (order_by_time_desc_limit_1 time tl) as [r'|] eqn:E.
  - destruct (IH r' eq_refl) as [Hin Hmax].
    destruct (time a <? time r') eqn:Hlt; inversion H; subst r.
    + split; [right; exact Hin|]. intros x [->|Hx].
      * apply Z.ltb_lt in Hlt. lia.
      * apply Hmax, Hx.
    + split; [left; reflexivity|]. intros x [->|Hx]; [lia|].
      apply Z.ltb_ge in Hlt. specialize (Hmax x Hx). lia.
  - inversion H; subst r. apply limit_1_none in E. subst tl.
    split; [left; reflexivity|]. intros x [->|[]]. lia.
Qed.

(** A row strictly later than every other row is the one selected. *)
Lemma limit_1_strict_max (rows : list R) (r : R) :
  In r rows ->
  (forall x, In x rows -> x = r \/ time x < time r) ->
  order_by_time_desc_limit_1 time rows = Some r.
Proof.
  intros Hin Hmax.
  destruct (order_by_time_desc_limit_1 time rows) as [r'|] eqn:E.
  - destruct (limit_1_in_max _ _ E) as [Hin' Hmax'].
    destruct (Hmax r' Hin') as [->|Hlt]; [reflexivity|].
    specialize (Hmax' r Hin). lia.
  - apply limit_1_none in E. subst rows. destruct Hin.
Qed.

End LatestRow.
Arguments limit_1_in_max {R} time rows r.
Arguments limit_1_none {R} time rows.
Arguments limit_1_strict_max {R} time rows r.

Section OutOfOrder.
Context {P : Platform}.

Lemma find_update_resource (resourceId : string) (set : resource_row -> resource_row)
    (l : list resource_row) :
  (forall r, r_id (set r) = r_id r) ->
  find (fun r => String.eqb (r_id r) resourceId)
       (map (fun r => if String.eqb (r_id r) resourceId then set r else r) l)
  = option_map set (find (fun r => String.eqb (r_id r) resourceId) l).
Proof.
  intros Hid. induction l as [|r tl IH]; simpl; [reflexivity|].
  destruct (String.eqb (r_id r) resourceId) eqn:E; simpl.
  - rewrite Hid, E. reflexivity.
  - rewrite E. exact IH.
Qed.

Lemma resource_check_found resourceId userId ty d :
  select_resource_check resourceId userId ty d <> [] ->
  exists r, resource_by_id resourceId d = Some r.
Proof.
  unfold select_resource_check, resource_by_id.
  induction (resources d) as [|r tl IH]; simpl; [congruence|].
  destruct (String.eqb (r_id r) resourceId) eqn:E; simpl.
  - intros _. eexists; reflexivity.
  - exact IH.
Qed.

Lemma db_after_publish what entry d' w : db (after_publish what entry d' w) = d'.
Proof. unfold after_publish. destruct (redis_up w); reflexivity. Qed.

Lemma db_up_after_publish what entry d' w :
  db_up (after_publish what entry d' w) = db_up w.
Proof. unfold after_publish. destruct (redis_up w); reflexivity. Qed.

Lemma get_resource_status_table now d d' rid :
  server_metrics d = server_metrics d' ->
  get_resource_status now d rid = get_resource_status now d' rid.
Proof.
  intros H. unfold get_resource_status, recent_server_metrics. rewrite H. reflexivity.
Qed.

(** What one accepted [POST /server] leaves in the resource's row. *)
Lemma server_writes_resource now body d r :
  resource_by_id (sb_resourceId body) d = Some r ->
  resource_by_id (sb_resourceId body) (server_writes now body d)
  = Some (set_seen (sample_time (sb_timestamp body) now)
            (get_resource_status now
               (upd_server_metrics
                  (cons (server_metrics_values
                           (sample_time (sb_timestamp body) now) body)) d)
               (sb_resourceId body)) r).
Proof.
  intros Hr. unfold resource_by_id, server_writes, update_servers,
    update_resource_seen_server, update_resource_seen in *. simpl.
  rewrite find_update_resource by reflexivity. rewrite Hr. reflexivity.
Qed.

Lemma website_writes_resource now body d r :
  resource_by_id (wb_resourceId body) d = Some r ->
  resource_by_id (wb_resourceId body) (website_writes now body d)
  = Some (set_seen (sample_time (wb_timestamp body) now)
            (availability_status (w_isAvailable (wb_metrics body))) r).
Proof.
  intros Hr. unfold resource_by_id, website_writes, update_resource_seen in *. simpl.
  rewrite find_update_resource by reflexivity. rewrite Hr. reflexivity.
Qed.

Lemma network_writes_resource now body d r :
  resource_by_id (nb_resourceId body) d = Some r ->
  resource_by_id (nb_resourceId body) (network_writes now body d)
  = Some (set_seen (sample_time (nb_timestamp body) now)
            (availability_status (n_isAvailable (nb_metrics body))) r).
Proof.
  intros Hr. unfold resource_by_id, network_writes, update_resource_seen in *. simpl.
  rewrite find_update_resource by reflexivity. rewrite Hr. reflexivity.
Qed.

Lemma resource_by_id_key_checked apiKey now d rid :
  resource_by_id rid (key_checked apiKey now d) = resource_by_id rid d.
Proof. unfold resource_by_id. rewrite resources_key_checked. reflexivity. Qed.

Lemma server_metrics_server_writes now body d :
  server_metrics (server_writes now body d)
  = server_metrics_values (sample_time (sb_timestamp body) now) body
    :: server_metrics d.
Proof. reflexivity. Qed.

Lemma status_of_later_fresh_sample now rid (row1 row2 : server_metrics_row)
    (table : list server_metrics_row) (d : db_state) :
  server_metrics d = row2 :: row1 :: table ->
  sm_resource_id row1 = rid ->
  sm_time row2 < sm_time row1 ->
  now - five_minutes < sm_time row1 ->
  (forall m, In m table -> sm_resource_id m = rid -> sm_time m < sm_time row1) ->
  get_resource_status now d rid = status_of_metric row1.
Proof.
  intros Hd Hrid Hlt Hfresh Hold.
  unfold get_resource_status, recent_server_metrics. rewrite Hd.
  rewrite (limit_1_strict_max sm_time _ row1); [reflexivity| |].
  - apply filter_In. split; [right; left; reflexivity|].
    rewrite Hrid, String.eqb_refl. apply Z.ltb_lt. exact Hfresh.
  - intros x Hx. apply filter_In in Hx. destruct Hx as [Hin Hp].
    apply andb_true_iff in Hp. destruct Hp as [Hid _].
    apply String.eqb_eq in Hid.
    destruct Hin as [<-|[<-|Hin]]; [right; exact Hlt|left; reflexivity|].
    right. apply Hold; assumption.
Qed.


End OutOfOrder.



Section Latest.
Context {P : Platform}.

Lemma assoc_set_key {A} (k key : string) (value : A) (obj : list (string * A)) :
  assoc k (set_key key value obj)
  = if String.eqb k key then Some value else assoc k obj.
Proof.
  induction obj as [|[k1 v1] tl IH]; simpl.
  - destruct (String.eqb k key); reflexivity.
  - destruct (String.eqb key k1) eqn:E1; simpl.
    + apply String.eqb_eq in E1. subst k1.
      destruct (String.eqb k key); reflexivity.
    + rewrite IH. destruct (String.eqb k k1) eqn:E2; [|reflexivity].
      apply String.eqb_eq in E2. subst k1.
      rewrite String.eqb_sym, E1. reflexivity.
Qed.

Lemma latest_loop_run (validResources : list resource_row)
    (latestMetrics : list (string * latest_entry)) (w : world) :
  db_up w = true ->
  latest_loop validResources latestMetrics w
  = (Ok (fold_left (latest_step (db w)) validResources latestMetrics), w).
Proof.
  intros Hup. revert latestMetrics.
  induction validResources as [|r tl IH]; intros acc; [reflexivity|].
  simpl. unfold bind, query. rewrite Hup. rewrite with_db_same.
  rewrite IH. reflexivity.
Qed.

Lemma find_none_not_in (k : string) (l : list resource_row) :
  ~ In k (map r_id l) -> find (fun r => String.eqb (r_id r) k) l = None.
Proof.
  induction l as [|a tl IH]; simpl; [reflexivity|]. intros H.
  destruct (String.eqb (r_id a) k) eqn:E.
  - apply String.eqb_eq in E. tauto.
  - apply IH. tauto.
Qed.

Lemma assoc_fold_other (d : db_state) (l : list resource_row)
    (acc : list (string * latest_entry)) (k : string) :
  ~ In k (map r_id l) ->
  assoc k (fold_left (latest_step d) l acc) = assoc k acc.
Proof.
  revert acc. induction l as [|a tl IH]; intros acc Hn; [reflexivity|].
  simpl in *. rewrite IH by tauto.
  unfold latest_step. destruct (latest_row_data d a); [|reflexivity].
  rewrite assoc_set_key. destruct (String.eqb k (r_id a)) eqn:E; [|reflexivity].
  apply String.eqb_eq in E. exfalso. apply Hn. left. symmetry. exact E.
Qed.

Lemma assoc_latest_fold (d : db_state) (l : list resource_row)
    (acc : list (string * latest_entry)) (r : resource_row) :
  NoDup (map r_id l) -> In r l ->
  assoc (r_id r) (fold_left (latest_step d) l acc)
  = match latest_row_data d r with
    | Some data =>
        Some {| le_name := r_name r; le_type := r_type r; le_data := data |}
    | None => assoc (r_id r) acc
    end.
Proof.
  revert acc. induction l as [|a tl IH]; intros acc Hnd Hin; [destruct Hin|].
  inversion Hnd as [|? ? Hnotin Hnd']; subst. simpl fold_left.
  destruct Hin as [->|Hin].
  - rewrite assoc_fold_other by exact Hnotin.
    unfold latest_step. destruct (latest_row_data d r); [|reflexivity].
    rewrite assoc_set_key, String.eqb_refl. reflexivity.
  - rewrite (IH _ Hnd' Hin).
    destruct (latest_row_data d r); [reflexivity|].
    unfold latest_step. destruct (latest_row_data d a); [|reflexivity].
    rewrite assoc_set_key.
    destruct (String.eqb (r_id r) (r_id a)) eqn:E; [|reflexivity].
    apply String.eqb_eq in E. exfalso. apply Hnotin. rewrite <- E.
    apply in_map. exact Hin.
Qed.

(** A WHERE clause keeps the primary key unique. *)
Lemma unique_ids_where (keep : resource_row -> bool) (rows : list resource_row) :
  NoDup (map r_id rows) -> NoDup (map r_id (filter keep rows)).
Proof.
  induction rows as [|a tl IH]; simpl; intros H; [constructor|].
  inversion H as [|? ? Hn Hnd]; subst.
  destruct (keep a); simpl; [constructor|]; auto.
  intros Hin. apply Hn. apply in_map_iff in Hin. destruct Hin as (x & Hx & Hin).
  apply in_map_iff. exists x. split; [exact Hx|].
  apply filter_In in Hin. tauto.
Qed.

(** The row [POST /latest] reads for a resource is its latest sample by
    timestamp, however old; there is none only when the table of its kind
    holds no sample of it. *)
Lemma latest_row_data_times (d : db_state) (r : resource_row) :
  match latest_row_data d r with
  | Some data =>
      In (ld_time data) (sample_times d r)
      /\ forall t, In t (sample_times d r) -> t <= ld_time data
  | None => sample_times d r = []
  end.
Proof.
  unfold latest_row_data, sample_times, select_latest.
  destruct (r_type r);
    match goal with
    | |- context [order_by_time_desc_limit_1 ?tm ?rows] =>
        destruct (order_by_time_desc_limit_1 tm rows) as [row|] eqn:E;
        [ destruct (limit_1_in_max tm rows row E) as [Hin Hmax]; simpl; split;
          [ apply in_map_iff; exists row; split; [reflexivity|exact Hin]
          | intros t Ht; apply in_map_iff in Ht; destruct Ht as (x & <- & Hx);
            apply Hmax; exact Hx ]
        | apply limit_1_none in E; simpl; rewrite E; reflexivity ]
    end.
Qed.

(** C4 (as the code has it): [POST /latest] applies no freshness horizon.
    For every requested resource the caller may see, the result has an entry
    exactly when the table of its kind holds at least one sample of it; the
    entry carries the latest sample by timestamp, whatever its age, and the
    answer does not depend on the current time. *)
Theorem latest_ignores_sample_age :
  forall (u : user) (fields : list (string * json)) (ids : list json)
         (idl : list string) (w : world),
    db_up w = true ->
    assoc "resourceIds" fields = Some (JArr ids) ->
    uuid_array ids = Some idl ->
    NoDup (map r_id (resources (db w))) ->
    exists metrics,
      post_latest u (Some (JObj fields)) w
      = (Ok (mk_reply 200 (LMetrics metrics)), w)
      /\ (forall r, In r (select_resources_any u idl (db w)) ->
            (sample_times (db w) r = [] -> assoc (r_id r) metrics = None)
            /\ (sample_times (db w) r <> [] ->
                exists e,
                  assoc (r_id r) metrics = Some e
                  /\ In (ld_time (le_data e)) (sample_times (db w) r)
                  /\ forall t, In t (sample_times (db w) r) ->
                               t <= ld_time (le_data e)))
      /\ (forall c,
            post_latest u (Some (JObj fields)) (at_clock c w)
            = (Ok (mk_reply 200 (LMetrics metrics)), at_clock c w)).
Proof.
  intros u fields ids idl w Hup Hids Hcast Hpk.
  exists (fold_left (latest_step (db w)) (select_resources_any u idl (db w)) []).
  assert (Hrun : forall w0, db_up w0 = true -> db w0 = db w ->
            post_latest u (Some (JObj fields)) w0
            = (Ok (mk_reply 200
                     (LMetrics (fold_left (latest_step (db w))
                                  (select_resources_any u idl (db w)) []))), w0)).
  { intros w0 Hup0 Hdb0. unfold post_latest, bind, ret, prop.
    rewrite Hids, Hcast. unfold query. rewrite Hup0, with_db_same.
    rewrite latest_loop_run by exact Hup0. rewrite Hdb0. reflexivity. }
  split; [apply Hrun; [exact Hup|reflexivity]|]. split.
  - intros r Hin.
    assert (Hnd : NoDup (map r_id (select_resources_any u idl (db w))))
      by (apply unique_ids_where; exact Hpk).
    rewrite (assoc_latest_fold _ _ [] r Hnd Hin).
    pose proof (latest_row_data_times (db w) r) as Hrow.
    destruct (latest_row_data (db w) r) as [data|].
    + destruct Hrow as [Ht Hmax]. split.
      * intros Hnil. rewrite Hnil in Ht. destruct Ht.
      * intros _. eexists. split; [reflexivity|]. split; assumption.
    + split; [reflexivity|]. intros Hne. contradiction.
  - intros c. apply Hrun; destruct w; [exact Hup|reflexivity].
Qed.

End Latest.

Lemma latest_ignores_sample_age_witness :
  exists metrics,
    @post_latest test_platform user_u1
      (Some (JObj [("resourceIds", JArr [JStr "srv"; JStr "web"])]))
      (world_of 1000000000 db_old_sample)
    = (Ok (mk_reply 200 (LMetrics metrics)), world_of 1000000000 db_old_sample)
    /\ option_map (fun e => ld_time (le_data e)) (assoc "srv" metrics) = Some 0
    /\ assoc "web" metrics = None.
Proof.
  destruct (@latest_ignores_sample_age test_platform user_u1
              [("resourceIds", JArr [JStr "srv"; JStr "web"])]
              [JStr "srv"; JStr "web"] ["srv"; "web"]
              (world_of 1000000000 db_old_sample)
              eq_refl eq_refl eq_refl)
    as (metrics & Hrun & Hentries & _).
  - simpl. repeat constructor; simpl; intuition discriminate.
  - exists metrics. split; [exact Hrun|].
    pose proof (f_equal fst Hrun) as Hm. vm_compute in Hm.
    injection Hm as Hm. subst metrics. split; reflexivity.
Defined.

(** C4, refuted as stated: eleven days after the only sample of server
    "srv" was taken, [POST /latest] still returns that sample for it. *)
Lemma latest_returns_stale_sample :
  let w := world_of 1000000000 db_old_sample in
  sample_times (db w) (resource_of "srv" server) = [0]
  /\ 0 + five_minutes < clock w
  /\ exists metrics,
       @post_latest test_platform user_u1
         (Some (JObj [("resourceIds", JArr [JStr "srv"])])) w
       = (Ok (mk_reply 200 (LMetrics metrics)), w)
       /\ option_map le_data (assoc "srv" metrics)
          = Some (server_latest_data old_server_row).
Proof.
  simpl. split; [reflexivity|]. split; [reflexivity|].
  eexists. split; [vm_compute; reflexivity|]. reflexivity.
Qed.

Section NoEvaluator.
Context {P : Platform}.

Lemma keeps_ret {A} (a : A) : keeps_alerts (ret a).
Proof. intros w. reflexivity. Qed.

Lemma keeps_throw {A} (e : error) : keeps_alerts (@throw A e).
Proof. intros w. reflexivity. Qed.

Lemma keeps_bind {A B} (m : M A) (k : A -> M B) :
  keeps_alerts m -> (forall a, keeps_alerts (k a)) -> keeps_alerts (bind m k).
Proof.
  intros Hm Hk w. unfold bind. specialize (Hm w).
  destruct (m w) as [[a|e] w']; simpl in *.
  - rewrite Hk. exact Hm.
  - exact Hm.
Qed.

Lemma keeps_try_catch {A} (m : M A) (h : error -> M A) :
  keeps_alerts m -> (forall e, keeps_alerts (h e)) -> keeps_alerts (try_catch m h).
Proof.
  intros Hm Hh w. unfold try_catch. specialize (Hm w).
  destruct (m w) as [[a|e] w']; simpl in *.
  - exact Hm.
  - rewrite Hh. exact Hm.
Qed.

Lemma keeps_query {A} (stmt : Z -> db_state -> A * db_state) :
  (forall now d, alert_tables (snd (stmt now d)) = alert_tables d) ->
  keeps_alerts (query stmt).
Proof.
  intros H w. unfold query. destruct (db_up w); [|reflexivity].
  specialize (H (clock w) (db w)). destruct (stmt (clock w) (db w)). exact H.
Qed.

Lemma keeps_logger lvl msg : keeps_alerts (logger lvl msg).
Proof. intros w. reflexivity. Qed.

Lemma keeps_get_clock : keeps_alerts get_clock.
Proof. intros w. reflexivity. Qed.

Lemma keeps_addToStream stream data : keeps_alerts (addToStream stream data).
Proof.
  intros w. unfold addToStream.
  destruct (redis_up w); [destruct (String.eqb stream "")|]; reflexivity.
Qed.

Lemma keeps_send_code {A} c (payload : A) : keeps_alerts (send_code c payload).
Proof. intros w. reflexivity. Qed.

Lemma keeps_send {A} (payload : A) : keeps_alerts (send payload).
Proof. intros w. reflexivity. Qed.

Lemma keeps_parse {A} (schema : option json -> option A) x :
  keeps_alerts (parse schema x).
Proof. intros w. unfold parse. destruct (schema x); reflexivity. Qed.

Lemma keeps_for_each {A} (xs : list A) (body : A -> M unit) :
  (forall x, keeps_alerts (body x)) -> keeps_alerts (for_each xs body).
Proof.
  intros H. induction xs as [|x tl IH]; simpl.
  - apply keeps_ret.
  - apply keeps_bind; [apply H|intros _; exact IH].
Qed.

Create HintDb keeps.
#[local] Hint Resolve keeps_ret keeps_throw keeps_logger keeps_get_clock
  keeps_addToStream keeps_send_code keeps_send keeps_parse : keeps.

(** Takes a handler apart along its binds, catches and branches; the SQL
    statements left over write other tables only. *)
Ltac keeps_step :=
  match goal with
  | |- keeps_alerts (bind _ _) => apply keeps_bind; [|intros ?]
  | |- keeps_alerts (try_catch _ _) => apply keeps_try_catch; [|intros ?]
  | |- keeps_alerts (query _) => apply keeps_query; intros ? ?; reflexivity
  | |- keeps_alerts (for_each _ _) => apply keeps_for_each; intros ?
  | |- keeps_alerts (match ?x with _ => _ end) => destruct x
  | |- keeps_alerts (let '(_, _) := ?x in _) => destruct x
  | |- keeps_alerts _ => solve [auto with keeps]
  end.

Lemma keeps_validateApiKey apiKey : keeps_alerts (validateApiKey apiKey).
Proof. unfold validateApiKey. repeat keeps_step. Qed.

Lemma keeps_ingest_catch what e : keeps_alerts (ingest_catch what e).
Proof. unfold ingest_catch. repeat keeps_step. Qed.

Lemma keeps_ingest_server k b : keeps_alerts (ingest_server k b).
Proof.
  unfold ingest_server.
  apply keeps_try_catch; [|intros; apply keeps_ingest_catch].
  destruct (header_present k); [|auto with keeps].
  apply keeps_bind; [apply keeps_validateApiKey|intros [userId|]];
    repeat keeps_step.
Qed.

Lemma keeps_ingest_website k b : keeps_alerts (ingest_website k b).
Proof.
  unfold ingest_website.
  apply keeps_try_catch; [|intros; apply keeps_ingest_catch].
  destruct (header_present k); [|auto with keeps].
  apply keeps_bind; [apply keeps_validateApiKey|intros [userId|]];
    repeat keeps_step.
Qed.

Lemma keeps_ingest_network k b : keeps_alerts (ingest_network k b).
Proof.
  unfold ingest_network.
  apply keeps_try_catch; [|intros; apply keeps_ingest_catch].
  destruct (header_present k); [|auto with keeps].
  apply keeps_bind; [apply keeps_validateApiKey|intros [userId|]];
    repeat keeps_step.
Qed.

Lemma keeps_batch_loop metrics c : keeps_alerts (batch_loop metrics c).
Proof.
  revert c. induction metrics as [|m tl IH]; intros c; simpl.
  - apply keeps_ret.
  - apply keeps_bind; [|intros; apply IH].
    unfold batch_entry. repeat keeps_step.
Qed.

Lemma keeps_ingest_batch k b : keeps_alerts (ingest_batch k b).
Proof.
  unfold ingest_batch.
  apply keeps_try_catch; [|intros; repeat keeps_step].
  destruct (header_present k); [|auto with keeps].
  apply keeps_bind; [apply keeps_validateApiKey|intros [userId|]];
    [|auto with keeps].
  apply keeps_bind; [repeat keeps_step|intros metrics].
  destruct metrics as [[| | | |items|]|]; auto with keeps.
  apply keeps_bind; [apply keeps_batch_loop|intros; auto with keeps].
Qed.


End NoEvaluator.


Section StatusDerivation.
Context {P : Platform}.

Lemma Qgtb_lt (x y : Q) : Qgtb x y = true <-> (y < x)%Q.
Proof.
  unfold Qgtb. rewrite negb_true_iff. split.
  - intros H. apply Qnot_le_lt. intros Hle. apply Qle_bool_iff in Hle. congruence.
  - intros H. destruct (Qle_bool x y) eqn:E; [|reflexivity].
    apply Qle_bool_iff in E. exfalso. exact (Qlt_not_le _ _ H E).
Qed.

Lemma Qgtb_le (x y : Q) : Qgtb x y = false <-> (x <= y)%Q.
Proof.
  unfold Qgtb. rewrite negb_false_iff. apply Qle_bool_iff.
Qed.

(** The bands of [get_resource_status] on the row it selected. *)
Lemma status_bands (m : server_metrics_row) :
  let cpu := cpu_usage_percent m in
  let mem := memory_usage_percent m in
  let disk := disk_usage_percent m in
  (status_of_metric m = critical <-> (90 < cpu \/ 90 < mem \/ 90 < disk)%Q)
  /\ (status_of_metric m = warning
      <-> (cpu <= 90 /\ mem <= 90 /\ disk <= 90)%Q
          /\ (75 < cpu \/ 75 < mem \/ 75 < disk)%Q)
  /\ (status_of_metric m = online <-> (cpu <= 75 /\ mem <= 75 /\ disk <= 75)%Q).
Proof.
  intros cpu mem disk. unfold status_of_metric. fold cpu mem disk.
  destruct (Qgtb cpu 90) eqn:C9; destruct (Qgtb mem 90) eqn:M9;
    destruct (Qgtb disk 90) eqn:D9; destruct (Qgtb cpu 75) eqn:C7;
    destruct (Qgtb mem 75) eqn:M7; destruct (Qgtb disk 75) eqn:D7; simpl;
    repeat match goal with
           | H : Qgtb _ _ = true |- _ => apply Qgtb_lt in H
           | H : Qgtb _ _ = false |- _ => apply Qgtb_le in H
           end;
    (split; [|split]); split; intros Hx; try discriminate; try reflexivity;
    try (exfalso;
         repeat match goal with
                | H : _ /\ _ |- _ => destruct H
                | H : _ \/ _ |- _ => destruct H
                end;
         match goal with
         | H1 : (?a < ?x)%Q, H2 : (?x <= ?a)%Q |- _ => exact (Qlt_not_le _ _ H1 H2)
         | H1 : (90 < ?x)%Q, H2 : (?x <= 75)%Q |- _ =>
             apply (Qlt_not_le _ _ H1); apply (Qle_trans _ 75); [exact H2|discriminate]
         end);
    auto 7 using Qlt_le_weak.
Qed.

(** [get_resource_status] reads the latest sample by timestamp among the
    resource's samples of the last five minutes. *)
Lemma get_resource_status_latest_fresh (now : Z) (d : db_state) (rid : string) :
  (recent_server_metrics now rid d = [] -> get_resource_status now d rid = unknown)
  /\ (recent_server_metrics now rid d <> [] ->
      exists m,
        In m (server_metrics d)
        /\ sm_resource_id m = rid
        /\ now - five_minutes < sm_time m
        /\ (forall m', In m' (server_metrics d) -> sm_resource_id m' = rid ->
                       now - five_minutes < sm_time m' -> sm_time m' <= sm_time m)
        /\ get_resource_status now d rid = status_of_metric m).
Proof.
  unfold get_resource_status. split.
  - intros ->. reflexivity.
  - intros Hne.
    destruct (order_by_time_desc_limit_1 sm_time (recent_server_metrics now rid d))
      as [m|] eqn:E.
    + destruct (limit_1_in_max _ _ _ E) as [Hin Hmax].
      unfold recent_server_metrics in Hin. apply filter_In in Hin.
      destruct Hin as [Hin Hp]. apply andb_true_iff in Hp. destruct Hp as [Hid Hf].
      exists m. split; [exact Hin|]. split; [apply String.eqb_eq; exact Hid|].
      split; [apply Z.ltb_lt; exact Hf|]. split; [|reflexivity].
      intros m' Hin' Hid' Hf'. apply Hmax. unfold recent_server_metrics.
      apply filter_In. split; [exact Hin'|].
      rewrite Hid', String.eqb_refl. apply Z.ltb_lt. exact Hf'.
    + apply limit_1_none in E. contradiction.
Qed.

Lemma select_check_other_type (rid userId : string) (ty : resource_type)
    (d : db_state) (r : resource_row) :
  NoDup (map r_id (resources d)) ->
  In r (resources d) -> r_id r = rid -> r_type r <> ty ->
  select_resource_check rid userId ty d = [].
Proof.
  unfold select_resource_check. intros Hnd Hin Hid Hty.
  destruct (filter _ (resources d)) as [|x tl] eqn:E; [reflexivity|exfalso].
  assert (Hx : In x (x :: tl)) by (left; reflexivity).
  rewrite <- E in Hx. apply filter_In in Hx. destruct Hx as [Hxin Hp].
  apply andb_true_iff in Hp. destruct Hp as [Hp Hxty].
  apply andb_true_iff in Hp. destruct Hp as [Hxid _].
  apply String.eqb_eq in Hxid.
  assert (x = r).
  { clear E. induction (resources d) as [|a l IH]; [destruct Hin|].
    inversion Hnd as [|? ? Hn Hnd']; subst.
    destruct Hin as [->|Hin]; destruct Hxin as [<-|Hxin]; auto.
    - exfalso. apply Hn. rewrite <- Hxid. apply in_map. exact Hxin.
    - exfalso. apply Hn. rewrite Hxid. apply in_map. exact Hin. }
  subst x. apply Hty. destruct (r_type r), ty; simpl in Hxty; congruence.
Qed.

(** A route asked about a resource it finds no row for answers 404 after
    the key was stamped, and writes nothing else. *)
Lemma ingest_website_not_found apiKey request_body w body userId :
  db_up w = true -> apiKey <> "" ->
  key_owner apiKey (clock w) (db w) = Some userId ->
  websiteMetricsSchema request_body = Some body ->
  select_resource_check (wb_resourceId body) userId website (db w) = [] ->
  ingest_website (Some apiKey) request_body w
  = (Ok (mk_reply 404 (error_body "Resource not found")),
     with_db (key_checked apiKey (clock w) (db w)) w).
Proof.
  intros Hup Hne Hkey Hparse Hres. apply String.eqb_neq in Hne.
  unfold ingest_website, try_catch, header_present. rewrite Hne.
  unfold bind at 1. rewrite validateApiKey_run by exact Hup. rewrite Hkey.
  unfold bind at 1. unfold parse. rewrite Hparse. unfold ret at 1.
  destruct w as [now up rup d st lg]. simpl in Hup, Hkey, Hres. subst up.
  unfold bind at 1. unfold query at 1. cbn [db_up with_db db clock].
  unfold select_resource_check in *. rewrite resources_key_checked, Hres.
  reflexivity.
Qed.

Lemma ingest_network_not_found apiKey request_body w body userId :
  db_up w = true -> apiKey <> "" ->
  key_owner apiKey (clock w) (db w) = Some userId ->
  networkMetricsSchema request_body = Some body ->
  select_resource_check (nb_resourceId body) userId network (db w) = [] ->
  ingest_network (Some apiKey) request_body w
  = (Ok (mk_reply 404 (error_body "Resource not found")),
     with_db (key_checked apiKey (clock w) (db w)) w).
Proof.
  intros Hup Hne Hkey Hparse Hres. apply String.eqb_neq in Hne.
  unfold ingest_network, try_catch, header_present. rewrite Hne.
  unfold bind at 1. rewrite validateApiKey_run by exact Hup. rewrite Hkey.
  unfold bind at 1. unfold parse. rewrite Hparse. unfold ret at 1.
  destruct w as [now up rup d st lg]. simpl in Hup, Hkey, Hres. subst up.
  unfold bind at 1. unfold query at 1. cbn [db_up with_db db clock].
  unfold select_resource_check in *. rewrite resources_key_checked, Hres.
  reflexivity.
Qed.


End StatusDerivation.

Lemma website_sample_accepted (rid timestamp : string) (isAvailable : bool)
    (w : world) :
  @datetime test_platform timestamp <> None ->
  @key_owner test_platform "k1" (clock w) (db w) = Some "u1" ->
  select_resource_check rid "u1" website (db w) <> [] ->
  exists body,
    @website_accepted test_platform "k1"
      (Some (website_sample rid timestamp isAvailable)) w body
    /\ wb_resourceId body = rid
    /\ w_isAvailable (wb_metrics body) = isAvailable.
Proof.
  intros Ht Hkey Hres.
  destruct (@datetime test_platform timestamp) as [t|] eqn:E; [|congruence].
  eexists. split.
  - unfold website_accepted. split; [discriminate|]. split.
    + unfold websiteMetricsSchema, website_sample, website_metrics_object,
        z_datetime_optional.
      cbn -[datetime]. rewrite E. reflexivity.
    + exists "u1". split; [exact Hkey|exact Hres].
  - simpl. split; reflexivity.
Qed.



Section Aggregates.

Lemma MAX_ge (xs : list Q) (x : Q) :
  In x xs -> exists m, MAX xs = Some m /\ (x <= m)%Q.
Proof.
  induction xs as [|y tl IH]; intros Hin; [destruct Hin|]. simpl.
  destruct Hin as [->|Hin].
  - destruct (MAX tl) as [m|]; [|exists x; split; [reflexivity|apply Qle_refl]].
    destruct (Qle_bool x m) eqn:E.
    + exists m. split; [reflexivity|]. apply Qle_bool_iff. exact E.
    + exists x. split; [reflexivity|apply Qle_refl].
  - destruct (IH Hin) as (m & -> & Hle).
    destruct (Qle_bool y m) eqn:E.
    + exists m. split; [reflexivity|exact Hle].
    + exists y. split; [reflexivity|].
      apply Qle_trans with m; [exact Hle|].
      apply Qlt_le_weak. apply Qnot_le_lt. intros H. apply Qle_bool_iff in H.
      congruence.
Qed.

Lemma MIN_le (xs : list Q) (x : Q) :
  In x xs -> exists m, MIN xs = Some m /\ (m <= x)%Q.
Proof.
  induction xs as [|y tl IH]; intros Hin; [destruct Hin|]. simpl.
  destruct Hin as [->|Hin].
  - destruct (MIN tl) as [m|]; [|exists x; split; [reflexivity|apply Qle_refl]].
    destruct (Qle_bool m x) eqn:E.
    + exists m. split; [reflexivity|]. apply Qle_bool_iff. exact E.
    + exists x. split; [reflexivity|apply Qle_refl].
  - destruct (IH Hin) as (m & -> & Hle).
    destruct (Qle_bool m y) eqn:E.
    + exists m. split; [reflexivity|exact Hle].
    + exists y. split; [reflexivity|].
      apply Qle_trans with m; [|exact Hle].
      apply Qlt_le_weak. apply Qnot_le_lt. intros H. apply Qle_bool_iff in H.
      congruence.
Qed.

(** A value already present changes neither the maximum nor the minimum. *)
Lemma MAX_duplicate (xs : list Q) (x : Q) : In x xs -> MAX (x :: xs) = MAX xs.
Proof.
  intros Hin. destruct (MAX_ge xs x Hin) as (m & Hm & Hle). simpl. rewrite Hm.
  apply Qle_bool_iff in Hle. rewrite Hle. reflexivity.
Qed.

Lemma MIN_duplicate (xs : list Q) (x : Q) : In x xs -> MIN (x :: xs) = MIN xs.
Proof.
  intros Hin. destruct (MIN_le xs x Hin) as (m & Hm & Hle). simpl. rewrite Hm.
  apply Qle_bool_iff in Hle. rewrite Hle. reflexivity.
Qed.

(** One more value [v] keeps the average exactly when [v] is the average. *)
Lemma AVG_one_more (xs : list Q) (v : Q) :
  xs <> [] ->
  exists a a',
    AVG xs = Some a /\ AVG (v :: xs) = Some a' /\ (a' == a <-> v == a)%Q.
Proof.
  intros Hne. destruct xs as [|x tl]; [congruence|].
  eexists. eexists. split; [reflexivity|]. split; [reflexivity|].
  set (S := Qsum (x :: tl)).
  change (Qsum (v :: x :: tl)) with (v + S)%Q.
  set (n := List.length (x :: tl)).
  change (List.length (v :: x :: tl)) with (Datatypes.S n).
  rewrite Nat2Z.inj_succ. unfold Z.succ. rewrite inject_Z_plus.
  set (N := inject_Z (Z.of_nat n)).
  assert (HN : (0 < N)%Q).
  { unfold N. change 0%Q with (inject_Z 0). rewrite <- Zlt_Qlt. unfold n.
    simpl List.length. lia. }
  assert (HN0 : ~ (N == 0)%Q) by (intros H; rewrite H in HN; discriminate).
  assert (HN1 : ~ (N + inject_Z 1 == 0)%Q).
  { intros H. assert (0 < N + inject_Z 1)%Q.
    { apply Qlt_trans with N; [exact HN|].
      rewrite <- (Qplus_0_r N) at 1. apply Qplus_lt_r. reflexivity. }
    rewrite H in H0. discriminate. }
  split; intros H.
  - assert (E : ((v + S) / (N + inject_Z 1) * (N * (N + inject_Z 1))
                 == S / N * (N * (N + inject_Z 1)))%Q) by (rewrite H; reflexivity).
    assert (E1 : ((v + S) / (N + inject_Z 1) * (N * (N + inject_Z 1))
                  == (v + S) * N)%Q) by (field; exact HN1).
    assert (E2 : (S / N * (N * (N + inject_Z 1)) == S * (N + inject_Z 1))%Q)
      by (field; exact HN0).
    rewrite E1, E2 in E.
    assert (E3 : (v * N == S)%Q).
    { assert (((v + S) * N - S * N == S * (N + inject_Z 1) - S * N)%Q)
        by (rewrite E; reflexivity).
      assert (((v + S) * N - S * N == v * N)%Q) by ring.
      assert ((S * (N + inject_Z 1) - S * N == S)%Q) by ring.
      rewrite H1, H2 in H0. exact H0. }
    rewrite <- E3. field. exact HN0.
  - rewrite H. field. split; assumption.
Qed.

End Aggregates.

Section Buckets.

Lemma insert_bucket_in (b x : Z) (l : list Z) :
  In x (insert_bucket b l) <-> x = b \/ In x l.
Proof.
  induction l as [|y tl IH]; simpl.
  - intuition.
  - destruct (b <? y) eqn:E1; [simpl; intuition|].
    destruct (b =? y) eqn:E2.
    + apply Z.eqb_eq in E2. subst y. simpl. intuition.
    + simpl. rewrite IH. intuition.
Qed.

Lemma insert_bucket_sorted (b : Z) (l : list Z) :
  StronglySorted Z.lt l -> StronglySorted Z.lt (insert_bucket b l).
Proof.
  induction l as [|y tl IH]; simpl; intros Hs.
  - constructor; constructor.
  - inversion Hs as [|? ? Htl Hall]; subst.
    destruct (b <? y) eqn:E1.
    + apply Z.ltb_lt in E1. constructor; [exact Hs|].
      constructor; [exact E1|].
      eapply Forall_impl; [|exact Hall]. simpl. intros. lia.
    + destruct (b =? y) eqn:E2; [exact Hs|].
      apply Z.ltb_ge in E1. apply Z.eqb_neq in E2.
      constructor; [apply IH; exact Htl|].
      apply Forall_forall. intros x Hx. apply insert_bucket_in in Hx.
      destruct Hx as [->|Hx]; [lia|].
      rewrite Forall_forall in Hall. apply Hall. exact Hx.
Qed.

Lemma insert_bucket_present (b : Z) (l : list Z) :
  StronglySorted Z.lt l -> In b l -> insert_bucket b l = l.
Proof.
  induction l as [|y tl IH]; intros Hs Hin; [destruct Hin|].
  inversion Hs as [|? ? Htl Hall]; subst. simpl.
  rewrite Forall_forall in Hall.
  destruct Hin as [->|Hin].
  - rewrite Z.ltb_irrefl, Z.eqb_refl. reflexivity.
  - specialize (Hall b Hin).
    destruct (b <? y) eqn:E1; [apply Z.ltb_lt in E1; lia|].
    destruct (b =? y) eqn:E2; [reflexivity|].
    rewrite IH by assumption. reflexivity.
Qed.

(** The buckets of a grouped query come out strictly ascending, each once,
    and they are the buckets of the grouped rows. *)
Lemma distinct_buckets_sorted (bs : list Z) : StronglySorted Z.lt (distinct_buckets bs).
Proof.
  induction bs as [|b tl IH]; simpl; [constructor|].
  apply insert_bucket_sorted. exact IH.
Qed.

Lemma distinct_buckets_in (bs : list Z) (x : Z) :
  In x (distinct_buckets bs) <-> In x bs.
Proof.
  induction bs as [|b tl IH]; simpl; [tauto|].
  rewrite insert_bucket_in, IH. intuition.
Qed.

Lemma distinct_buckets_duplicate (bs : list Z) (b : Z) :
  In b bs -> distinct_buckets (b :: bs) = distinct_buckets bs.
Proof.
  intros Hin. simpl. apply insert_bucket_present.
  - apply distinct_buckets_sorted.
  - apply distinct_buckets_in. exact Hin.
Qed.

End Buckets.

Section Duplicates.
Context {P : Platform}.

Lemma group_by_bucket_duplicate {R A B : Type} (time_of : R -> Z)
    (select : Z -> list R -> A) (proj : A -> B) (width : Z)
    (rows : list R) (r : R) :
  In r rows ->
  (forall b g, In r g -> proj (select b (r :: g)) = proj (select b g)) ->
  map proj (group_by_bucket time_of select width (r :: rows))
  = map proj (group_by_bucket time_of select width rows).
Proof.
  intros Hin Hproj. unfold group_by_bucket.
  change (map (fun x => time_bucket width (time_of x)) (r :: rows))
    with (time_bucket width (time_of r)
          :: map (fun x => time_bucket width (time_of x)) rows).
  rewrite distinct_buckets_duplicate
    by (apply in_map_iff; exists r; split; [reflexivity|exact Hin]).
  rewrite !map_map. apply map_ext. intros b.
  unfold bucket_group. simpl filter.
  destruct (time_bucket width (time_of r) =? b) eqn:E; [|reflexivity].
  apply Hproj. apply filter_In. split; assumption.
Qed.

Lemma view_duplicate {B : Type} (proj : server_metrics_1h_row -> B)
    (table : list server_metrics_row) (r : server_metrics_row) (rid : string) :
  In r table ->
  (forall b rid g, In r g ->
     proj {| h1_bucket := b; h1_resource_id := rid;
             avg_cpu := AVG (map cpu_usage_percent (r :: g));
             max_cpu := MAX (map cpu_usage_percent (r :: g));
             min_cpu := MIN (map cpu_usage_percent (r :: g));
             avg_memory := AVG (map memory_usage_percent (r :: g));
             max_memory := MAX (map memory_usage_percent (r :: g));
             avg_disk := AVG (map disk_usage_percent (r :: g)) |}
     = proj {| h1_bucket := b; h1_resource_id := rid;
               avg_cpu := AVG (map cpu_usage_percent g);
               max_cpu := MAX (map cpu_usage_percent g);
               min_cpu := MIN (map cpu_usage_percent g);
               avg_memory := AVG (map memory_usage_percent g);
               max_memory := MAX (map memory_usage_percent g);
               avg_disk := AVG (map disk_usage_percent g) |}) ->
  map proj (server_metrics_1h (r :: table) rid)
  = map proj (server_metrics_1h table rid).
Proof.
  intros Hin Hproj. unfold server_metrics_1h. simpl filter.
  destruct (String.eqb (sm_resource_id r) rid) eqn:E; [|reflexivity].
  apply group_by_bucket_duplicate.
  - apply filter_In. split; assumption.
  - intros b g Hg. apply Hproj. exact Hg.
Qed.

Lemma bucket_rows_duplicate (table : list server_metrics_row)
    (r : server_metrics_row) (rid : string) (width b : Z) :
  In r table ->
  server_bucket_rows (r :: table) rid width b = server_bucket_rows table rid width b
  \/ (server_bucket_rows (r :: table) rid width b
       = r :: server_bucket_rows table rid width b
      /\ In r (server_bucket_rows table rid width b)).
Proof.
  intros Hin. unfold server_bucket_rows, bucket_group. simpl filter.
  destruct (String.eqb (sm_resource_id r) rid) eqn:E; [|left; reflexivity].
  simpl filter.
  destruct (time_bucket width (sm_time r) =? b) eqn:Eb; [|left; reflexivity].
  right. split; [reflexivity|].
  apply filter_In. split; [|exact Eb]. apply filter_In. split; assumption.
Qed.


End Duplicates.



Section RangeQueries.
Context {P : Platform}.

Lemma time_bucket_bounds (width t : Z) :
  0 < width -> time_bucket width t <= t < time_bucket width t + width.
Proof.
  intros Hw. unfold time_bucket.
  pose proof (Z.mul_div_le (t - time_bucket_origin) width Hw).
  pose proof (Z.mul_succ_div_gt (t - time_bucket_origin) width Hw).
  lia.
Qed.

Section Generic.
Variables (R A : Type).
Variable resource_id_of : R -> string.
Variable time_of : R -> Z.
Variable select : Z -> list R -> A.
Variable bucket_of : A -> Z.
Hypothesis bucket_of_select : forall b g, bucket_of (select b g) = b.

Lemma range_query_buckets table width rid s e :
  map bucket_of (range_query resource_id_of time_of select table width rid s e)
  = distinct_buckets
      (map (fun r => time_bucket width (time_of r))
           (filter (where_range resource_id_of time_of rid s e) table)).
Proof.
  unfold range_query, group_by_bucket. rewrite map_map.
  rewrite (map_ext _ (fun b => b)) by (intros; apply bucket_of_select).
  apply map_id.
Qed.

Lemma range_query_sorted table width rid s e :
  StronglySorted Z.lt
    (map bucket_of (range_query resource_id_of time_of select table width rid s e)).
Proof. rewrite range_query_buckets. apply distinct_buckets_sorted. Qed.

Lemma range_query_covers table width rid s e b :
  In b (map bucket_of
          (range_query resource_id_of time_of select table width rid s e))
  <-> exists r, In r table /\ resource_id_of r = rid
                /\ s <= time_of r <= e /\ time_bucket width (time_of r) = b.
Proof.
  rewrite range_query_buckets, distinct_buckets_in, in_map_iff. split.
  - intros (r & Hb & Hin). apply filter_In in Hin. destruct Hin as [Hin Hp].
    unfold where_range in Hp. apply andb_true_iff in Hp. destruct Hp as [Hp He].
    apply andb_true_iff in Hp. destruct Hp as [Hid Hs].
    exists r. split; [exact Hin|]. split; [apply String.eqb_eq; exact Hid|].
    split; [|exact Hb]. split; [apply Z.leb_le; exact Hs|apply Z.leb_le; exact He].
  - intros (r & Hin & Hid & [Hs He] & Hb). exists r. split; [exact Hb|].
    apply filter_In. split; [exact Hin|]. unfold where_range.
    rewrite Hid, String.eqb_refl. simpl.
    apply andb_true_iff. split; apply Z.leb_le; assumption.
Qed.

Lemma range_query_empty table width rid s e :
  e < s -> range_query resource_id_of time_of select table width rid s e = [].
Proof.
  intros Hlt. unfold range_query.
  replace (filter (where_range resource_id_of time_of rid s e) table) with (@nil R);
    [reflexivity|].
  symmetry. induction table as [|r tl IH]; [reflexivity|]. simpl.
  rewrite <- IH. unfold where_range.
  destruct (s <=? time_of r) eqn:E1; destruct (time_of r <=? e) eqn:E2;
    rewrite ?andb_false_r; try reflexivity.
  apply Z.leb_le in E1. apply Z.leb_le in E2. lia.
Qed.

End Generic.

Lemma get_resource_metrics_run u rid qs qe qi w r rest width s e data :
  db_up w = true ->
  select_resource u rid (db w) = r :: rest ->
  query_width qi = Some width -> 0 < width ->
  query_start qs (clock w) = Some s ->
  query_end qe (clock w) = Some e ->
  series_of (db w) r width s e = Some data ->
  get_resource_metrics u rid qs qe qi w
  = (Ok (mk_reply 200
           (MData {| mb_resourceId := r_id r; mb_name := r_name r;
                     mb_resourceType := r_type r; mb_startTime := s;
                     mb_endTime := e; mb_interval := query_interval qi;
                     mb_data := data |})), w).
Proof.
  intros Hup Hsel Hw Hpos Hs He Hdata.
  unfold get_resource_metrics, bind, get_clock, query. rewrite Hup.
  rewrite with_db_same, Hsel.
  unfold query_width, query_interval, query_start, query_end in *.
  rewrite Hw, Hs, He.
  apply Z.ltb_lt in Hpos. rewrite Hpos.
  unfold series_of in Hdata.
  destruct (r_type r); try discriminate; injection Hdata as <-;
    rewrite Hup, with_db_same; reflexivity.
Qed.


End RangeQueries.


Example range_query_start_after_end :
  @get_resource_metrics test_platform user_u1 "srv" (Some "100000") (Some "0")
    None (world_of 600000 db_series)
  = (Ok (mk_reply 200
           (MData {| mb_resourceId := "srv"; mb_name := "srv";
                     mb_resourceType := server; mb_startTime := 100000;
                     mb_endTime := 0; mb_interval := "1m";
                     mb_data := ServerSeries [] |})),
     world_of 600000 db_series).
Proof. reflexivity. Qed.

(** The database branch of the same route: its statement names columns
    that [database_metrics] does not have, so the query is rejected and
    Fastify answers 500, whatever the range. *)
Example range_query_database_rejected :
  fst (fastify_reply
         (@get_resource_metrics test_platform user_u1 "dbs" (Some "0")
            (Some "100000") None) (world_of 600000 db_series))
  = mk_reply 500 None.
Proof. reflexivity. Qed.

Section Batch.
Context {P : Platform}.

Lemma with_log_same (w : world) : with_log (log w) w = w.
Proof. destruct w; reflexivity. Qed.

Lemma batch_entry_run (metric : json) (processed errors : Z) (w : world) :
  exists lg,
    batch_entry metric (processed, errors) w
    = (Ok (if counted metric then (processed + 1, errors)
           else (processed, errors + 1)),
       with_log lg w).
Proof.
  unfold batch_entry, counted, try_catch, bind.
  destruct metric;
    try (exists (log w); rewrite with_log_same; unfold ret;
         match goal with
         | |- context [is_str ?t "server"] =>
             destruct (is_str t "server"); [reflexivity|];
             destruct (is_str t "website"); [reflexivity|];
             destruct (is_str t "network"); reflexivity
         end).
  eexists. reflexivity.
Qed.

Lemma batch_loop_run (metrics : list json) (processed errors : Z) (w : world) :
  exists lg,
    batch_loop metrics (processed, errors) w
    = (Ok (processed + Z.of_nat (List.length (filter counted metrics)),
           errors + Z.of_nat (List.length
                                (filter (fun m => negb (counted m)) metrics))),
       with_log lg w).
Proof.
  revert processed errors w.
  induction metrics as [|m tl IH]; intros processed errors w.
  - exists (log w). rewrite with_log_same. simpl. rewrite !Z.add_0_r. reflexivity.
  - change (batch_loop (m :: tl) (processed, errors))
      with (bind (batch_entry m (processed, errors)) (fun c => batch_loop tl c)).
    unfold bind.
    destruct (batch_entry_run m processed errors w) as [lg1 ->].
    simpl filter. destruct (counted m); simpl negb; cbv iota.
    + destruct (IH (processed + 1) errors (with_log lg1 w)) as [lg ->].
      exists lg. simpl List.length. rewrite Nat2Z.inj_succ.
      destruct w; simpl. f_equal. f_equal. f_equal. lia.
    + destruct (IH processed (errors + 1) (with_log lg1 w)) as [lg ->].
      exists lg. simpl List.length. rewrite Nat2Z.inj_succ.
      destruct w; simpl. f_equal. f_equal. f_equal. lia.
Qed.

Lemma telemetry_key_checked apiKey now d :
  telemetry (key_checked apiKey now d) = telemetry d.
Proof.
  unfold key_checked. destruct (matching_key apiKey d) as [row|]; [|reflexivity].
  destruct (key_expired now row); reflexivity.
Qed.

Lemma filter_counted_split (metrics : list json) :
  (List.length (filter counted metrics)
   + List.length (filter (fun m => negb (counted m)) metrics))%nat
  = List.length metrics.
Proof.
  induction metrics as [|m tl IH]; [reflexivity|]. simpl.
  destruct (counted m); simpl; lia.
Qed.


End Batch.


Section LiveFeed.
Context {P : Platform}.

Lemma unauthenticated_message (c : connection) (data : json) (w : world) :
  authenticated c = false ->
  data <> JNull ->
  is_str (prop data "type") "auth" = false ->
  on_message c (Parsed data) w
  = (Ok (c, [SockSend not_authenticated_msg; SockClose]), w).
Proof.
  intros Hc Hnull Htype. unfold on_message, try_catch, on_data, bind.
  destruct data; try congruence; unfold ret at 1; rewrite Htype, Hc; reflexivity.
Qed.

Lemma unparsable_message (c : connection) (w : world) :
  on_message c Unparsable w
  = (Ok (c, [SockSend invalid_format_msg]),
     with_log ((lvl_error, "WebSocket message error") :: log w) w)
  /\ on_message c (Parsed JNull) w
     = (Ok (c, [SockSend invalid_format_msg]),
        with_log ((lvl_error, "WebSocket message error") :: log w) w).
Proof. split; reflexivity. Qed.

Ltac refusals :=
  repeat first [apply Forall_nil | apply Forall_cons];
  unfold refusal, not_authenticated_msg, invalid_format_msg; auto.

Lemma unauthenticated_step (c : connection) (m : frame) (w : world) :
  authenticated c = false ->
  verified_auth m = false ->
  exists out w',
    on_message c m w = (Ok (c, out), w') /\ Forall refusal out.
Proof.
  intros Hc Hm. destruct m as [|data].
  - eexists. eexists. split; [exact (proj1 (unparsable_message c w))|]. refusals.
  - destruct (is_str (prop data "type") "auth") eqn:Htype.
    + destruct data; try (simpl in Htype; discriminate).
      unfold verified_auth in Hm. rewrite Htype in Hm.
      unfold on_message, try_catch, on_data, bind, ret at 1. rewrite Htype.
      destruct (jwt_verify (prop (JObj fields) "token"));
        [simpl in Hm; discriminate|].
      eexists. eexists. split; [reflexivity|]. refusals.
    + destruct data;
        try (rewrite unauthenticated_message by (assumption || discriminate);
             eexists; eexists; (split; [reflexivity|]); refusals).
      eexists. eexists. split; [exact (proj2 (unparsable_message c w))|]. refusals.
Qed.

(** C10 (as the code has it). Until a message of type "auth" carries a
    token that verifies, the handler keeps the connection unauthenticated
    with no subscription and no stream reader, and all it writes are
    refusals: to every message that parses to a value other than [null] and
    is not of type "auth" (a ping, a subscribe, an unsubscribe, anything
    else) it replies [{type:"error", message:"Not authenticated"}] and closes
    the socket; to an "auth" message whose token fails it replies the auth
    error and closes; to a message that does not parse, or parses to [null],
    it replies [{type:"error", message:"Invalid message format"}] and leaves
    the socket open. No pong and no subscription acknowledgement is sent. *)
Theorem live_feed_requires_auth :
  (forall (c : connection) (data : json) (w : world),
      authenticated c = false ->
      data <> JNull ->
      is_str (prop data "type") "auth" = false ->
      on_message c (Parsed data) w
      = (Ok (c, [SockSend (JObj [("type", JStr "error");
                                 ("message", JStr "Not authenticated")]);
                 SockClose]), w))
  /\ (forall (c : connection) (w : world),
      fst (on_message c Unparsable w)
      = Ok (c, [SockSend (JObj [("type", JStr "error");
                                ("message", JStr "Invalid message format")])])
      /\ fst (on_message c (Parsed JNull) w)
         = Ok (c, [SockSend (JObj [("type", JStr "error");
                                   ("message", JStr "Invalid message format")])]))
  /\ (forall (messages : list frame) (w : world),
      (forall m, In m messages -> verified_auth m = false) ->
      exists out w',
        on_messages new_connection messages w = (Ok (new_connection, out), w')
        /\ Forall refusal out
        /\ (forall now, ~ In (SockSend (pong_msg now)) out)
        /\ (forall data, ~ In (SockSend (subscribed_msg data)) out)).
Proof.
  split; [exact unauthenticated_message|]. split.
  - intros c w. split; reflexivity.
  - intros messages w Hm.
    assert (Hrun : exists out w',
               on_messages new_connection messages w
               = (Ok (new_connection, out), w') /\ Forall refusal out).
    { revert w. induction messages as [|m tl IH]; intros w.
      - exists [], w. split; [reflexivity|constructor].
      - destruct (unauthenticated_step new_connection m w eq_refl
                    (Hm m (or_introl eq_refl))) as (out1 & w1 & Hstep & Hout1).
        destruct (IH (fun x Hx => Hm x (or_intror Hx)) w1)
          as (out2 & w2 & Hrest & Hout2).
        exists (out1 ++ out2), w2. split.
        + simpl on_messages. unfold bind. rewrite Hstep. simpl fst.
          rewrite Hrest. reflexivity.
        + apply Forall_app. split; assumption. }
    destruct Hrun as (out & w' & Hrun & Hout).
    exists out, w'. split; [exact Hrun|]. split; [exact Hout|].
    rewrite Forall_forall in Hout. split.
    + intros now Hin. destruct (Hout _ Hin) as [H|[H|[H|H]]]; discriminate.
    + intros data Hin. destruct (Hout _ Hin) as [H|[H|[H|H]]]; discriminate.
Qed.

End LiveFeed.

Lemma live_feed_requires_auth_witness :
  @on_message test_platform new_connection
    (Parsed (JObj [("type", JStr "ping")])) (world_of 100 empty_db)
  = (Ok (new_connection,
         [SockSend (JObj [("type", JStr "error");
                          ("message", JStr "Not authenticated")]);
          SockClose]), world_of 100 empty_db).
Proof.
  apply (proj1 (@live_feed_requires_auth test_platform)).
  - reflexivity.
  - discriminate.
  - reflexivity.
Defined.

(** C10, refuted as stated for messages that do not parse: before any
    authentication, a message that is not JSON gets "Invalid message format"
    for an answer, not "Not authenticated", and the socket is not closed. *)
Lemma unparsable_message_keeps_socket_open :
  fst (@on_message test_platform new_connection Unparsable (world_of 100 empty_db))
  = Ok (new_connection,
        [SockSend (JObj [("type", JStr "error");
                         ("message", JStr "Invalid message format")])])
  /\ ~ In SockClose
        (match fst (@on_message test_platform new_connection Unparsable
                      (world_of 100 empty_db)) with
         | Ok r => snd r
         | Throw _ => []
         end)
  /\ @verified_auth test_platform Unparsable = false.
Proof.
  split; [reflexivity|]. split; [|reflexivity].
  simpl. intros [H|[]]. discriminate.
Qed.

Section KeyValidation.
Context {P : Platform}.

Lemma validateApiKey_down (apiKey : string) (w : world) :
  db_up w = false ->
  validateApiKey apiKey w
  = (Ok None,
     with_log ((lvl_error, "API key validation error")
               :: (lvl_error, "query failed") :: log w) w).
Proof.
  intros Hdown. unfold validateApiKey, try_catch, bind, query. rewrite Hdown.
  destruct w; reflexivity.
Qed.

Lemma matching_key_found (apiKey : string) (d : db_state) (row : api_key_row) :
  matching_key apiKey d = Some row ->
  In row (api_keys d) /\ ak_is_active row = true
  /\ bcrypt_compare apiKey (ak_key_hash row) = true.
Proof.
  unfold matching_key. intros H. apply find_some in H. destruct H as [Hin Hb].
  apply filter_In in Hin. tauto.
Qed.

Lemma key_expired_false (now : Z) (row : api_key_row) :
  key_expired now row = false <->
  match ak_expires_at row with Some e => now <= e | None => True end.
Proof.
  unfold key_expired. destruct (ak_expires_at row) as [e|]; [|tauto].
  rewrite Z.ltb_ge. tauto.
Qed.

Lemma last_used_stamped (now : Z) (hash : string) (d : db_state) (k : api_key_row) :
  In k (api_keys (update_last_used now hash d)) ->
  ak_key_hash k = hash -> ak_last_used k = Some now.
Proof.
  unfold update_last_used. simpl. intros Hin Hh.
  apply in_map_iff in Hin. destruct Hin as (k0 & <- & _).
  destruct (String.eqb (ak_key_hash k0) hash) eqn:E; [reflexivity|].
  apply String.eqb_neq in E. contradiction.
Qed.

(** X1. [validateApiKey] never throws. It accepts a key only when an
    active row matches it under bcrypt and has not expired (a row expiring
    at this very instant still counts), answers with that row's user and
    stamps [last_used] on every row with that hash. When it refuses, or
    the database is down, the database is left as it was. *)
Theorem api_key_validation :
  forall (apiKey : string) (w : world),
  exists o w',
    validateApiKey apiKey w = (Ok o, w')
    /\ (forall u, o = Some u ->
          db_up w = true
          /\ exists row,
               In row (api_keys (db w))
               /\ ak_is_active row = true
               /\ bcrypt_compare apiKey (ak_key_hash row) = true
               /\ ak_user_id row = u
               /\ match ak_expires_at row with
                  | Some e => clock w <= e
                  | None => True
                  end
               /\ forall k, In k (api_keys (db w')) ->
                            ak_key_hash k = ak_key_hash row ->
                            ak_last_used k = Some (clock w))
    /\ (o = None -> db w' = db w)
    /\ (db_up w = false -> o = None).
Proof.
  intros apiKey w. destruct (db_up w) eqn:Hup.
  - rewrite (validateApiKey_run apiKey w Hup). eexists. eexists.
    split; [reflexivity|]. unfold key_owner, key_checked.
    destruct (matching_key apiKey (db w)) as [row|] eqn:Hrow.
    + destruct (matching_key_found _ _ _ Hrow) as (Hin & Hact & Hb).
      destruct (key_expired (clock w) row) eqn:Hexp.
      * split; [discriminate|]. split; [destruct w; reflexivity|discriminate].
      * split; [|split; discriminate].
        intros u Hu. injection Hu as <-. split; [reflexivity|].
        exists row. repeat (split; [assumption || reflexivity|]).
        split; [apply key_expired_false; exact Hexp|].
        intros k Hk. destruct w; simpl in Hk. apply (last_used_stamped _ _ _ _ Hk).
    + split; [discriminate|]. split; [destruct w; reflexivity|discriminate].
  - rewrite (validateApiKey_down apiKey w Hup). eexists. eexists.
    split; [reflexivity|]. split; [discriminate|].
    split; [destruct w; reflexivity|reflexivity].
Qed.

End KeyValidation.

Section IngestOutcomes.
Context {P : Platform}.

Lemma key_checked_refused apiKey now d :
  key_owner apiKey now d = None -> key_checked apiKey now d = d.
Proof.
  unfold key_owner, key_checked. destruct (matching_key apiKey d) as [row|]; [|reflexivity].
  destruct (key_expired now row); [reflexivity|discriminate].
Qed.

Lemma header_present_some x apiKey :
  header_present x = Some apiKey -> x = Some apiKey /\ apiKey <> "".
Proof.
  unfold header_present. destruct x as [k|]; [|discriminate].
  destruct (String.eqb k "") eqn:E; [discriminate|].
  intros H. injection H as <-. split; [reflexivity|]. apply String.eqb_neq. exact E.
Qed.

Lemma nonzero_length {A} (l : list A) :
  (Z.of_nat (List.length l) =? 0) = true -> l = [].
Proof. destruct l; [reflexivity|]. simpl. discriminate. Qed.

Ltac turn_down :=
  eexists; eexists; split; [reflexivity|]; unfold refused;
  cbn [code db streams with_db with_log];
  split; [auto|];
  split; [first [reflexivity | apply telemetry_key_checked]|];
  split; [reflexivity|];
  intros [H|H]; first [congruence | split; reflexivity].

Lemma ingest_server_cases x request_body w :
  (exists apiKey body,
      x = Some apiKey /\ db_up w = true
      /\ server_accepted apiKey request_body w body)
  \/ turned_down (ingest_server x request_body w) x w.
Proof.
  destruct (header_present x) as [apiKey|] eqn:Hx.
  2:{ right. unfold turned_down, ingest_server, try_catch. rewrite Hx.
      unfold send_code, ret. turn_down. }
  destruct (header_present_some _ _ Hx) as [-> Hne].
  destruct (db_up w) eqn:Hup.
  2:{ right. unfold turned_down, ingest_server, try_catch. rewrite Hx.
      unfold bind at 1. rewrite validateApiKey_down by exact Hup.
      unfold send_code, ret. destruct w as [now up rup d st lg]; turn_down. }
  destruct (key_owner apiKey (clock w) (db w)) as [userId|] eqn:Hk.
  2:{ right. unfold turned_down, ingest_server, try_catch. rewrite Hx.
      unfold bind at 1. rewrite validateApiKey_run by exact Hup. rewrite Hk.
      rewrite key_checked_refused by exact Hk. rewrite with_db_same.
      unfold send_code, ret. turn_down. }
  destruct (serverMetricsSchema request_body) as [body|] eqn:Hb.
  2:{ right. unfold turned_down, ingest_server, try_catch. rewrite Hx.
      unfold bind at 1. rewrite validateApiKey_run by exact Hup. rewrite Hk.
      unfold bind at 1. unfold parse. rewrite Hb. unfold throw, ingest_catch.
      unfold send_code, ret. destruct w as [now up rup d st lg]; cbn [db streams with_db].
      turn_down. }
  destruct (Z.of_nat (List.length
              (select_resource_check (sb_resourceId body) userId server (db w))) =? 0)
    eqn:Hc.
  - right. unfold turned_down, ingest_server, try_catch. rewrite Hx.
    unfold bind at 1. rewrite validateApiKey_run by exact Hup. rewrite Hk.
    unfold bind at 1. unfold parse. rewrite Hb. unfold ret at 1.
    unfold bind at 1. unfold query at 1.
    destruct w as [now up rup d st lg]. cbn [db_up with_db db clock] in *. subst up.
    unfold select_resource_check in *. rewrite resources_key_checked, Hc.
    unfold send_code, ret. cbn [db streams with_db].
    turn_down.
  - left. exists apiKey, body. split; [reflexivity|]. split; [reflexivity|].
    split; [exact Hne|]. split; [exact Hb|]. exists userId. split; [exact Hk|].
    intros E. rewrite E in Hc. discriminate.
Qed.

Lemma ingest_website_cases x request_body w :
  (exists apiKey body,
      x = Some apiKey /\ db_up w = true
      /\ website_accepted apiKey request_body w body)
  \/ turned_down (ingest_website x request_body w) x w.
Proof.
  destruct (header_present x) as [apiKey|] eqn:Hx.
  2:{ right. unfold turned_down, ingest_website, try_catch. rewrite Hx.
      unfold send_code, ret. turn_down. }
  destruct (header_present_some _ _ Hx) as [-> Hne].
  destruct (db_up w) eqn:Hup.
  2:{ right. unfold turned_down, ingest_website, try_catch. rewrite Hx.
      unfold bind at 1. rewrite validateApiKey_down by exact Hup.
      unfold send_code, ret. destruct w as [now up rup d st lg]; turn_down. }
  destruct (key_owner apiKey (clock w) (db w)) as [userId|] eqn:Hk.
  2:{ right. unfold turned_down, ingest_website, try_catch. rewrite Hx.
      unfold bind at 1. rewrite validateApiKey_run by exact Hup. rewrite Hk.
      rewrite key_checked_refused by exact Hk. rewrite with_db_same.
      unfold send_code, ret. turn_down. }
  destruct (websiteMetricsSchema request_body) as [body|] eqn:Hb.
  2:{ right. unfold turned_down, ingest_website, try_catch. rewrite Hx.
      unfold bind at 1. rewrite validateApiKey_run by exact Hup. rewrite Hk.
      unfold bind at 1. unfold parse. rewrite Hb. unfold throw, ingest_catch.
      unfold send_code, ret. destruct w as [now up rup d st lg]; cbn [db streams with_db].
      turn_down. }
  destruct (select_resource_check (wb_resourceId body) userId website (db w))
    as [|i l] eqn:Hc.
  - right. unfold turned_down.
    rewrite (ingest_website_not_found apiKey request_body w body userId Hup Hne Hk Hb Hc).
    destruct w as [now up rup d st lg]; cbn [db streams with_db].
    turn_down.
  - left. exists apiKey, body. split; [reflexivity|]. split; [reflexivity|].
    split; [exact Hne|]. split; [exact Hb|]. exists userId. split; [exact Hk|].
    rewrite Hc. discriminate.
Qed.

Lemma ingest_network_cases x request_body w :
  (exists apiKey body,
      x = Some apiKey /\ db_up w = true
      /\ network_accepted apiKey request_body w body)
  \/ turned_down (ingest_network x request_body w) x w.
Proof.
  destruct (header_present x) as [apiKey|] eqn:Hx.
  2:{ right. unfold turned_down, ingest_network, try_catch. rewrite Hx.
      unfold send_code, ret. turn_down. }
  destruct (header_present_some _ _ Hx) as [-> Hne].
  destruct (db_up w) eqn:Hup.
  2:{ right. unfold turned_down, ingest_network, try_catch. rewrite Hx.
      unfold bind at 1. rewrite validateApiKey_down by exact Hup.
      unfold send_code, ret. destruct w as [now up rup d st lg]; turn_down. }
  destruct (key_owner apiKey (clock w) (db w)) as [userId|] eqn:Hk.
  2:{ right. unfold turned_down, ingest_network, try_catch. rewrite Hx.
      unfold bind at 1. rewrite validateApiKey_run by exact Hup. rewrite Hk.
      rewrite key_checked_refused by exact Hk. rewrite with_db_same.
      unfold send_code, ret. turn_down. }
  destruct (networkMetricsSchema request_body) as [body|] eqn:Hb.
  2:{ right. unfold turned_down, ingest_network, try_catch. rewrite Hx.
      unfold bind at 1. rewrite validateApiKey_run by exact Hup. rewrite Hk.
      unfold bind at 1. unfold parse. rewrite Hb. unfold throw, ingest_catch.
      unfold send_code, ret. destruct w as [now up rup d st lg]; cbn [db streams with_db].
      turn_down. }
  destruct (select_resource_check (nb_resourceId body) userId network (db w))
    as [|i l] eqn:Hc.
  - right. unfold turned_down.
    rewrite (ingest_network_not_found apiKey request_body w body userId Hup Hne Hk Hb Hc).
    destruct w as [now up rup d st lg]; cbn [db streams with_db].
    turn_down.
  - left. exists apiKey, body. split; [reflexivity|]. split; [reflexivity|].
    split; [exact Hne|]. split; [exact Hb|]. exists userId. split; [exact Hk|].
    rewrite Hc. discriminate.
Qed.

End IngestOutcomes.

Section IngestInvariants.
Context {P : Platform}.

Lemma turned_down_in_order res x w : turned_down res x w -> outcome_in_order res x w.
Proof.
  intros (r & w' & -> & Href & Ht & Hs & Hd).
  exists r, w'. split; [reflexivity|].
  split; [destruct Href as [E|[E|E]]; rewrite E; simpl; tauto|].
  split; [intros E; destruct Href as [E'|[E'|E']]; congruence|].
  split; [intros _; exact Hs|].
  split; [intros _; exact Ht|].
  split; [intros E; destruct Href as [E'|[E'|E']]; congruence|exact Hd].
Qed.

Lemma published_in_order what entry d' w x apiKey timestamp :
  x = Some apiKey -> apiKey <> "" -> db_up w = true ->
  outcome_in_order
    (Ok (reply_after_publish timestamp w), after_publish what entry d' w) x w.
Proof.
  intros -> Hne Hup. eexists. eexists. split; [reflexivity|].
  unfold reply_after_publish, after_publish.
  assert (Hx : header_present (Some apiKey) = Some apiKey).
  { unfold header_present. apply String.eqb_neq in Hne. rewrite Hne. reflexivity. }
  destruct (redis_up w) eqn:Hr; cbn [code streams with_streams with_db with_log].
  - split; [simpl; tauto|]. split; [intros _; eexists; reflexivity|].
    split; [intros E; contradiction E; reflexivity|].
    split; [intros [E|[E|E]]; discriminate|].
    split; [discriminate|]. intros [E|E]; congruence.
  - split; [simpl; tauto|]. split; [discriminate|].
    split; [reflexivity|].
    split; [intros [E|[E|E]]; discriminate|].
    split; [intros _; split; [reflexivity|exact Hup]|]. intros [E|E]; congruence.
Qed.


End IngestInvariants.

Section IngestTenants.
Context {P : Platform}.

Lemma resources_server_writes now body d :
  resources (server_writes now body d)
  = map (fun r => if String.eqb (r_id r) (sb_resourceId body)
                  then set_seen (sample_time (sb_timestamp body) now)
                         (get_resource_status now
                            (upd_server_metrics
                               (cons (server_metrics_values
                                        (sample_time (sb_timestamp body) now) body)) d)
                            (sb_resourceId body)) r
                  else r) (resources d).
Proof.
  unfold server_writes, update_servers, update_resource_seen_server,
    update_resource_seen.
  rewrite (get_resource_status_table now _
             (upd_server_metrics
                (cons (server_metrics_values (sample_time (sb_timestamp body) now) body))
                d)) by (destruct d; reflexivity).
  destruct d; reflexivity.
Qed.

Lemma resources_website_writes now body d :
  resources (website_writes now body d)
  = map (fun r => if String.eqb (r_id r) (wb_resourceId body)
                  then set_seen (sample_time (wb_timestamp body) now)
                         (availability_status (w_isAvailable (wb_metrics body))) r
                  else r) (resources d).
Proof. destruct d; reflexivity. Qed.

Lemma resources_network_writes now body d :
  resources (network_writes now body d)
  = map (fun r => if String.eqb (r_id r) (nb_resourceId body)
                  then set_seen (sample_time (nb_timestamp body) now)
                         (availability_status (n_isAvailable (nb_metrics body))) r
                  else r) (resources d).
Proof. destruct d; reflexivity. Qed.

Lemma seen_elsewhere (rid : string) (set : resource_row -> resource_row)
    (rows : list resource_row) (r : resource_row) :
  In r rows -> r_id r <> rid ->
  In r (map (fun r => if String.eqb (r_id r) rid then set r else r) rows).
Proof.
  intros Hin Hne. apply in_map_iff. exists r. split; [|exact Hin].
  apply String.eqb_neq in Hne. rewrite Hne. reflexivity.
Qed.

Lemma resource_check_owner rid userId ty d :
  select_resource_check rid userId ty d <> [] ->
  exists r0, In r0 (resources d) /\ r_id r0 = rid /\ r_user_id r0 = userId
             /\ r_type r0 = ty.
Proof.
  unfold select_resource_check. intros Hne.
  destruct (filter _ (resources d)) as [|r0 tl] eqn:Hf; [contradiction Hne; reflexivity|].
  assert (Hin : In r0 (filter (fun r => String.eqb (r_id r) rid
                                        && String.eqb (r_user_id r) userId
                                        && resource_type_eqb (r_type r) ty)
                              (resources d))) by (rewrite Hf; left; reflexivity).
  apply filter_In in Hin. destruct Hin as [Hin Hb].
  apply andb_true_iff in Hb. destruct Hb as [Hb Hty].
  apply andb_true_iff in Hb. destruct Hb as [Hid Hu].
  exists r0. split; [exact Hin|]. apply String.eqb_eq in Hid, Hu.
  split; [exact Hid|]. split; [exact Hu|].
  destruct (r_type r0), ty; simpl in Hty; congruence.
Qed.

Lemma same_id_same_row (rows : list resource_row) (a b : resource_row) :
  NoDup (map r_id rows) -> In a rows -> In b rows -> r_id a = r_id b -> a = b.
Proof.
  induction rows as [|c tl IH]; intros Hnd Ha Hb E; [contradiction|].
  simpl in Hnd. inversion Hnd as [|? ? Hnot Hnd']; subst.
  destruct Ha as [->|Ha], Hb as [->|Hb].
  - reflexivity.
  - contradiction Hnot. rewrite E. apply in_map. exact Hb.
  - contradiction Hnot. rewrite <- E. apply in_map. exact Ha.
  - apply IH; assumption.
Qed.

Lemma foreign_resource_id (d : db_state) (r : resource_row) rid userId ty :
  NoDup (map r_id (resources d)) -> In r (resources d) ->
  r_user_id r <> userId ->
  select_resource_check rid userId ty d <> [] ->
  r_id r <> rid.
Proof.
  intros Hnd Hin Hu Hc E.
  destruct (resource_check_owner _ _ _ _ Hc) as (r0 & Hin0 & Hid & Hu0 & _).
  assert (r = r0) by (apply (same_id_same_row (resources d)); congruence).
  subst r0. contradiction.
Qed.

Lemma sample_times_server_writes now body d r :
  r_id r <> sb_resourceId body ->
  sample_times (server_writes now body d) r = sample_times d r.
Proof.
  intros Hne. apply not_eq_sym in Hne. apply String.eqb_neq in Hne.
  unfold sample_times. destruct (r_type r).
  - rewrite server_metrics_server_writes. cbn [filter].
    unfold server_metrics_values at 1. cbn [sm_resource_id]. rewrite Hne. reflexivity.
  - destruct d; reflexivity.
  - destruct d; reflexivity.
  - destruct d; reflexivity.
Qed.

Lemma sample_times_website_writes now body d r :
  r_id r <> wb_resourceId body ->
  sample_times (website_writes now body d) r = sample_times d r.
Proof.
  intros Hne. apply not_eq_sym in Hne. apply String.eqb_neq in Hne.
  unfold sample_times. destruct (r_type r); destruct d; try reflexivity.
  cbn. rewrite Hne. reflexivity.
Qed.

Lemma sample_times_network_writes now body d r :
  r_id r <> nb_resourceId body ->
  sample_times (network_writes now body d) r = sample_times d r.
Proof.
  intros Hne. apply not_eq_sym in Hne. apply String.eqb_neq in Hne.
  unfold sample_times. destruct (r_type r); destruct d; try reflexivity.
  cbn. rewrite Hne. reflexivity.
Qed.

Lemma sample_times_telemetry d d' r :
  telemetry d' = telemetry d -> sample_times d' r = sample_times d r.
Proof.
  unfold telemetry, sample_times. intros E. injection E as E1 E2 E3 E4 E5 E6 E7 E8.
  destruct (r_type r); congruence.
Qed.

Lemma sample_times_key_checked apiKey now d r :
  sample_times (key_checked apiKey now d) r = sample_times d r.
Proof. apply sample_times_telemetry, telemetry_key_checked. Qed.

Lemma resources_telemetry d d' :
  telemetry d' = telemetry d -> resources d' = resources d.
Proof. unfold telemetry. intros E. injection E. auto. Qed.

(** X3. With resource ids unique, a request to a single-sample route
    whose key does not authenticate the owner of a resource leaves that
    resource's row as it is and stores no sample under its id, whatever the
    body names. *)
Theorem ingest_keeps_other_tenants :
  forall (x_api_key : option string) (request_body : option json) (w : world)
         (r : resource_row),
    NoDup (map r_id (resources (db w))) ->
    In r (resources (db w)) ->
    (forall apiKey, x_api_key = Some apiKey ->
                    key_owner apiKey (clock w) (db w) <> Some (r_user_id r)) ->
    (In r (resources (db (snd (ingest_server x_api_key request_body w))))
     /\ sample_times (db (snd (ingest_server x_api_key request_body w))) r
        = sample_times (db w) r)
    /\ (In r (resources (db (snd (ingest_website x_api_key request_body w))))
        /\ sample_times (db (snd (ingest_website x_api_key request_body w))) r
           = sample_times (db w) r)
    /\ (In r (resources (db (snd (ingest_network x_api_key request_body w))))
        /\ sample_times (db (snd (ingest_network x_api_key request_body w))) r
           = sample_times (db w) r).
Proof.
  intros x b w r Hnd Hin Hkey. split; [|split].
  - destruct (ingest_server_cases x b w)
      as [(apiKey & body & Hx & Hup & Hacc)|(rp & w' & Hrun & _ & Ht & _)].
    + rewrite Hx, (ingest_server_run _ _ _ _ Hup Hacc). cbn [snd].
      rewrite db_after_publish.
      destruct Hacc as (_ & _ & userId & Hk & Hc).
      assert (Hne : r_id r <> sb_resourceId body).
      { apply (foreign_resource_id (db w) r _ userId server); auto.
        intros E. apply (Hkey apiKey Hx). congruence. }
      split.
      * rewrite resources_server_writes, resources_key_checked.
        apply seen_elsewhere; assumption.
      * rewrite sample_times_server_writes by exact Hne.
        apply sample_times_key_checked.
    + rewrite Hrun. cbn [snd]. rewrite (resources_telemetry _ _ Ht).
      split; [exact Hin|]. apply sample_times_telemetry. exact Ht.
  - destruct (ingest_website_cases x b w)
      as [(apiKey & body & Hx & Hup & Hacc)|(rp & w' & Hrun & _ & Ht & _)].
    + rewrite Hx, (ingest_website_run _ _ _ _ Hup Hacc). cbn [snd].
      rewrite db_after_publish.
      destruct Hacc as (_ & _ & userId & Hk & Hc).
      assert (Hne : r_id r <> wb_resourceId body).
      { apply (foreign_resource_id (db w) r _ userId website); auto.
        intros E. apply (Hkey apiKey Hx). congruence. }
      split.
      * rewrite resources_website_writes, resources_key_checked.
        apply seen_elsewhere; assumption.
      * rewrite sample_times_website_writes by exact Hne.
        apply sample_times_key_checked.
    + rewrite Hrun. cbn [snd]. rewrite (resources_telemetry _ _ Ht).
      split; [exact Hin|]. apply sample_times_telemetry. exact Ht.
  - destruct (ingest_network_cases x b w)
      as [(apiKey & body & Hx & Hup & Hacc)|(rp & w' & Hrun & _ & Ht & _)].
    + rewrite Hx, (ingest_network_run _ _ _ _ Hup Hacc). cbn [snd].
      rewrite db_after_publish.
      destruct Hacc as (_ & _ & userId & Hk & Hc).
      assert (Hne : r_id r <> nb_resourceId body).
      { apply (foreign_resource_id (db w) r _ userId network); auto.
        intros E. apply (Hkey apiKey Hx). congruence. }
      split.
      * rewrite resources_network_writes, resources_key_checked.
        apply seen_elsewhere; assumption.
      * rewrite sample_times_network_writes by exact Hne.
        apply sample_times_key_checked.
    + rewrite Hrun. cbn [snd]. rewrite (resources_telemetry _ _ Ht).
      split; [exact Hin|]. apply sample_times_telemetry. exact Ht.
Qed.

End IngestTenants.

Lemma ingest_keeps_other_tenants_witness :
  let w := world_of 100 db_two_tenants in
  In resource_u2
     (resources (db (snd (@ingest_server test_platform (Some "k1")
                            (Some (server_sample "100" 95)) w))))
  /\ sample_times
       (db (snd (@ingest_server test_platform (Some "k1")
                   (Some (server_sample "100" 95)) w))) resource_u2 = [].
Proof.
  refine (proj1 (@ingest_keeps_other_tenants test_platform (Some "k1")
                   (Some (server_sample "100" 95)) (world_of 100 db_two_tenants)
                   resource_u2 _ _ _)).
  - repeat constructor; simpl; intuition discriminate.
  - left. reflexivity.
  - intros apiKey E. injection E as <-. vm_compute. discriminate.
Defined.

Section BatchOutcomes.
Context {P : Platform}.

Lemma validateApiKey_effect (apiKey : string) (w : world) :
  exists o w',
    validateApiKey apiKey w = (Ok o, w')
    /\ telemetry (db w') = telemetry (db w)
    /\ streams w' = streams w
    /\ (db_up w = true -> o = key_owner apiKey (clock w) (db w))
    /\ (db_up w = false -> o = None).
Proof.
  destruct (db_up w) eqn:Hup.
  - rewrite (validateApiKey_run apiKey w Hup). eexists. eexists.
    split; [reflexivity|]. destruct w as [now up rup d st lg]. cbn [db streams with_db].
    split; [apply telemetry_key_checked|]. split; [reflexivity|].
    split; [reflexivity|discriminate].
  - rewrite (validateApiKey_down apiKey w Hup). eexists. eexists.
    split; [reflexivity|]. destruct w as [now up rup d st lg].
    cbn [db streams with_log].
    split; [reflexivity|]. split; [reflexivity|]. split; [discriminate|reflexivity].
Qed.

Lemma ingest_batch_quiet (x_api_key : option string) (request_body : option json)
    (w : world) :
  exists r w',
    ingest_batch x_api_key request_body w = (Ok r, w')
    /\ telemetry (db w') = telemetry (db w)
    /\ streams w' = streams w.
Proof.
  unfold ingest_batch, try_catch.
  destruct (header_present x_api_key) as [apiKey|].
  2:{ eexists. eexists. split; [reflexivity|]. split; reflexivity. }
  unfold bind at 1.
  destruct (validateApiKey_effect apiKey w) as (o & w1 & -> & Ht & Hs & _).
  destruct o as [userId|]; [|eexists; eexists; split; [reflexivity|]; tauto].
  assert (Hfail : forall w2, telemetry (db w2) = telemetry (db w) ->
                             streams w2 = streams w ->
            exists r w',
              (logger lvl_error "Batch ingestion error" ;;;
               send_code 500 (error_body "Internal server error")) w2 = (Ok r, w')
              /\ telemetry (db w') = telemetry (db w)
              /\ streams w' = streams w).
  { intros w2 H1 H2. eexists. eexists. split; [reflexivity|].
    destruct w2; cbn in *. tauto. }
  destruct request_body as [b|]; [|unfold bind, throw; apply Hfail; assumption].
  destruct b as [|bb|q|s|l|f]; try (unfold bind, throw; apply Hfail; assumption);
    unfold bind at 1; unfold ret at 1;
    try (eexists; eexists; split; [reflexivity|]; tauto).
  unfold prop.
  destruct (assoc "metrics" f) as [[|bb|q|s|metrics|f']|];
    try (eexists; eexists; split; [reflexivity|]; tauto).
  unfold bind at 1.
  destruct (batch_loop_run metrics 0 0 w1) as [lg ->].
  eexists. eexists. split; [reflexivity|].
  destruct w1; cbn in *. tauto.
Qed.

Lemma ingest_batch_telemetry x_api_key request_body w :
  telemetry (db (snd (ingest_batch x_api_key request_body w))) = telemetry (db w).
Proof.
  destruct (ingest_batch_quiet x_api_key request_body w) as (r & w' & -> & Ht & _).
  exact Ht.
Qed.

(** X5. [POST /batch] answers every request and never throws; whatever
    the key and the body, the sample tables, the resources and the streams
    are as before. Without a key that validates the answer is 401; a body
    that is missing or null gives 500; a body whose [metrics] is not an array
    gives 400; otherwise the answer is 200. *)
Theorem batch_outcomes :
  forall (x_api_key : option string) (request_body : option json) (w : world),
  exists r w',
    ingest_batch x_api_key request_body w = (Ok r, w')
    /\ telemetry (db w') = telemetry (db w)
    /\ streams w' = streams w
    /\ code r
       = match header_present x_api_key with
         | None => 401
         | Some apiKey =>
             if negb (db_up w) then 401
             else
               match key_owner apiKey (clock w) (db w) with
               | None => 401
               | Some _ =>
                   match request_body with
                   | None | Some JNull => 500
                   | Some b =>
                       match prop b "metrics" with
                       | Some (JArr _) => 200
                       | _ => 400
                       end
                   end
               end
         end.
Proof.
  intros x b w. unfold ingest_batch, try_catch.
  destruct (header_present x) as [apiKey|].
  2:{ eexists. eexists. split; [reflexivity|]. repeat split. }
  unfold bind at 1.
  destruct (validateApiKey_effect apiKey w) as (o & w1 & -> & Ht & Hs & Hup & Hdown).
  assert (Ho : o = if negb (db_up w) then None
                   else key_owner apiKey (clock w) (db w)).
  { destruct (db_up w); [apply Hup|apply Hdown]; reflexivity. }
  destruct (negb (db_up w)); [subst o; eexists; eexists; split; [reflexivity|]; tauto|].
  rewrite <- Ho. clear Ho Hup Hdown.
  destruct o as [userId|]; [|eexists; eexists; split; [reflexivity|]; tauto].
  assert (Hfail : forall w2, telemetry (db w2) = telemetry (db w) ->
                             streams w2 = streams w ->
            exists r w',
              (logger lvl_error "Batch ingestion error" ;;;
               send_code 500 (error_body "Internal server error")) w2 = (Ok r, w')
              /\ telemetry (db w') = telemetry (db w)
              /\ streams w' = streams w /\ code r = 500).
  { intros w2 H1 H2. eexists. eexists. split; [reflexivity|].
    destruct w2; cbn in *. tauto. }
  destruct b as [b|]; [|unfold bind, throw; apply Hfail; assumption].
  destruct b as [|bb|q|s|l|f]; try (unfold bind, throw; apply Hfail; assumption);
    unfold bind at 1; unfold ret at 1;
    try (eexists; eexists; split; [reflexivity|]; tauto).
  unfold prop.
  destruct (assoc "metrics" f) as [[|bb|q|s|metrics|f']|];
    try (eexists; eexists; split; [reflexivity|]; tauto).
  unfold bind at 1.
  destruct (batch_loop_run metrics 0 0 w1) as [lg ->].
  eexists. eexists. split; [reflexivity|].
  destruct w1; cbn in *. tauto.
Qed.

End BatchOutcomes.

Section IngestReferences.
Context {P : Platform}.

Lemma resource_of_kind_seen d d' rid ty resourceId
    (set : resource_row -> resource_row) :
  (forall r, r_id (set r) = r_id r /\ r_type (set r) = r_type r) ->
  resources d'
  = map (fun r => if String.eqb (r_id r) resourceId then set r else r) (resources d) ->
  resource_of_kind d rid ty -> resource_of_kind d' rid ty.
Proof.
  intros Hset Hres (r & Hin & Hid & Hty). unfold resource_of_kind. rewrite Hres.
  exists (if String.eqb (r_id r) resourceId then set r else r).
  split; [apply in_map_iff; exists r; split; [reflexivity|exact Hin]|].
  destruct (String.eqb (r_id r) resourceId); [|tauto].
  destruct (Hset r) as [-> ->]. tauto.
Qed.

Lemma resource_of_kind_checked rid userId ty d :
  select_resource_check rid userId ty d <> [] -> resource_of_kind d rid ty.
Proof.
  intros Hc. destruct (resource_check_owner _ _ _ _ Hc) as (r0 & Hin & Hid & _ & Hty).
  exists r0. tauto.
Qed.

Lemma resource_of_kind_key_checked apiKey now d rid ty :
  resource_of_kind (key_checked apiKey now d) rid ty <-> resource_of_kind d rid ty.
Proof. unfold resource_of_kind. rewrite resources_key_checked. tauto. Qed.

Lemma samples_have_resources_telemetry d d' :
  telemetry d' = telemetry d ->
  samples_have_resources d -> samples_have_resources d'.
Proof.
  unfold telemetry, samples_have_resources, resource_of_kind.
  intros E. injection E as E1 E2 E3 E4 E5 E6 E7 E8.
  rewrite E1, E2, E3, E4, E5, E7. tauto.
Qed.

Lemma process_metrics_server_writes now body d :
  process_metrics (server_writes now body d)
  = rev (map (process_metrics_values (sample_time (sb_timestamp body) now)
                (sb_resourceId body))
             (match sb_processes body with Some l => l | None => [] end))
    ++ process_metrics d.
Proof. destruct d; reflexivity. Qed.

Lemma service_metrics_server_writes now body d :
  service_metrics (server_writes now body d)
  = rev (map (service_metrics_values (sample_time (sb_timestamp body) now)
                (sb_resourceId body))
             (match sb_services body with Some l => l | None => [] end))
    ++ service_metrics d.
Proof. destruct d; reflexivity. Qed.

Lemma samples_have_resources_server now body d userId :
  select_resource_check (sb_resourceId body) userId server d <> [] ->
  samples_have_resources d -> samples_have_resources (server_writes now body d).
Proof.
  intros Hc (Hs & Hw & Hn & Hp & Hv).
  pose proof (resource_of_kind_checked _ _ _ _ Hc) as Hnew.
  assert (Hk : forall rid ty, resource_of_kind d rid ty ->
                              resource_of_kind (server_writes now body d) rid ty).
  { intros rid ty. apply (resource_of_kind_seen d _ rid ty (sb_resourceId body)
                            (set_seen (sample_time (sb_timestamp body) now)
                               (get_resource_status now
                                  (upd_server_metrics
                                     (cons (server_metrics_values
                                              (sample_time (sb_timestamp body) now)
                                              body)) d)
                                  (sb_resourceId body)))).
    - intros r. split; reflexivity.
    - apply resources_server_writes. }
  unfold samples_have_resources. repeat split.
  - intros m. rewrite server_metrics_server_writes. intros [<-|Hin]; auto.
  - intros m Hin. apply Hk, Hw. destruct d; exact Hin.
  - intros m Hin. apply Hk, Hn. destruct d; exact Hin.
  - intros m. rewrite process_metrics_server_writes. intros Hin.
    apply in_app_or in Hin. destruct Hin as [Hin|Hin]; [|auto].
    apply in_rev, in_map_iff in Hin. destruct Hin as (p & <- & _). auto.
  - intros m. rewrite service_metrics_server_writes. intros Hin.
    apply in_app_or in Hin. destruct Hin as [Hin|Hin]; [|auto].
    apply in_rev, in_map_iff in Hin. destruct Hin as (p & <- & _). auto.
Qed.

Lemma samples_have_resources_website now body d userId :
  select_resource_check (wb_resourceId body) userId website d <> [] ->
  samples_have_resources d -> samples_have_resources (website_writes now body d).
Proof.
  intros Hc (Hs & Hw & Hn & Hp & Hv).
  pose proof (resource_of_kind_checked _ _ _ _ Hc) as Hnew.
  assert (Hk : forall rid ty, resource_of_kind d rid ty ->
                              resource_of_kind (website_writes now body d) rid ty).
  { intros rid ty. apply (resource_of_kind_seen d _ rid ty (wb_resourceId body)
                            (set_seen (sample_time (wb_timestamp body) now)
                               (availability_status
                                  (w_isAvailable (wb_metrics body))))).
    - intros r. split; reflexivity.
    - apply resources_website_writes. }
  unfold samples_have_resources. repeat split.
  - intros m Hin. apply Hk, Hs. destruct d; exact Hin.
  - intros m Hin.
    assert (Hin' : m = website_metrics_values (sample_time (wb_timestamp body) now) body
                   \/ In m (website_metrics d)).
    { destruct d; simpl in Hin. destruct Hin as [<-|Hin]; [left; reflexivity|right; exact Hin]. }
    destruct Hin' as [->|Hin']; auto.
  - intros m Hin. apply Hk, Hn. destruct d; exact Hin.
  - intros m Hin. apply Hk, Hp. destruct d; exact Hin.
  - intros m Hin. apply Hk, Hv. destruct d; exact Hin.
Qed.

Lemma samples_have_resources_network now body d userId :
  select_resource_check (nb_resourceId body) userId network d <> [] ->
  samples_have_resources d -> samples_have_resources (network_writes now body d).
Proof.
  intros Hc (Hs & Hw & Hn & Hp & Hv).
  pose proof (resource_of_kind_checked _ _ _ _ Hc) as Hnew.
  assert (Hk : forall rid ty, resource_of_kind d rid ty ->
                              resource_of_kind (network_writes now body d) rid ty).
  { intros rid ty. apply (resource_of_kind_seen d _ rid ty (nb_resourceId body)
                            (set_seen (sample_time (nb_timestamp body) now)
                               (availability_status
                                  (n_isAvailable (nb_metrics body))))).
    - intros r. split; reflexivity.
    - apply resources_network_writes. }
  unfold samples_have_resources. repeat split.
  - intros m Hin. apply Hk, Hs. destruct d; exact Hin.
  - intros m Hin. apply Hk, Hw. destruct d; exact Hin.
  - intros m Hin.
    assert (Hin' : m = network_metrics_values (sample_time (nb_timestamp body) now) body
                   \/ In m (network_metrics d)).
    { destruct d; simpl in Hin. destruct Hin as [<-|Hin]; [left; reflexivity|right; exact Hin]. }
    destruct Hin' as [->|Hin']; auto.
  - intros m Hin. apply Hk, Hp. destruct d; exact Hin.
  - intros m Hin. apply Hk, Hv. destruct d; exact Hin.
Qed.

Lemma samples_have_resources_key_checked apiKey now d :
  samples_have_resources d -> samples_have_resources (key_checked apiKey now d).
Proof. apply samples_have_resources_telemetry, telemetry_key_checked. Qed.

Lemma check_key_checked rid userId ty apiKey now d :
  select_resource_check rid userId ty (key_checked apiKey now d)
  = select_resource_check rid userId ty d.
Proof. unfold select_resource_check. rewrite resources_key_checked. reflexivity. Qed.

(** X4. If every stored sample, process row and service row belongs to
    a resource of the kind of its table, the same holds after any request to
    any of the four ingestion routes: a sample is stored only under a resource
    of the route's kind that exists, and no route removes a resource or
    changes its kind. *)
Theorem ingest_keeps_references :
  forall (x_api_key : option string) (request_body : option json) (w : world),
    samples_have_resources (db w) ->
    samples_have_resources (db (snd (ingest_server x_api_key request_body w)))
    /\ samples_have_resources (db (snd (ingest_website x_api_key request_body w)))
    /\ samples_have_resources (db (snd (ingest_network x_api_key request_body w)))
    /\ samples_have_resources (db (snd (ingest_batch x_api_key request_body w))).
Proof.
  intros x b w Hinv. split; [|split; [|split]].
  - destruct (ingest_server_cases x b w)
      as [(apiKey & body & Hx & Hup & Hacc)|(rp & w' & Hrun & _ & Ht & _)].
    + rewrite Hx, (ingest_server_run _ _ _ _ Hup Hacc). cbn [snd].
      rewrite db_after_publish. destruct Hacc as (_ & _ & userId & _ & Hc).
      apply (samples_have_resources_server _ _ _ userId).
      * rewrite check_key_checked. exact Hc.
      * apply samples_have_resources_key_checked. exact Hinv.
    + rewrite Hrun. apply (samples_have_resources_telemetry _ _ Ht Hinv).
  - destruct (ingest_website_cases x b w)
      as [(apiKey & body & Hx & Hup & Hacc)|(rp & w' & Hrun & _ & Ht & _)].
    + rewrite Hx, (ingest_website_run _ _ _ _ Hup Hacc). cbn [snd].
      rewrite db_after_publish. destruct Hacc as (_ & _ & userId & _ & Hc).
      apply (samples_have_resources_website _ _ _ userId).
      * rewrite check_key_checked. exact Hc.
      * apply samples_have_resources_key_checked. exact Hinv.
    + rewrite Hrun. apply (samples_have_resources_telemetry _ _ Ht Hinv).
  - destruct (ingest_network_cases x b w)
      as [(apiKey & body & Hx & Hup & Hacc)|(rp & w' & Hrun & _ & Ht & _)].
    + rewrite Hx, (ingest_network_run _ _ _ _ Hup Hacc). cbn [snd].
      rewrite db_after_publish. destruct Hacc as (_ & _ & userId & _ & Hc).
      apply (samples_have_resources_network _ _ _ userId).
      * rewrite check_key_checked. exact Hc.
      * apply samples_have_resources_key_checked. exact Hinv.
    + rewrite Hrun. apply (samples_have_resources_telemetry _ _ Ht Hinv).
  - apply (samples_have_resources_telemetry (db w)); [|exact Hinv].
    apply ingest_batch_telemetry.
Qed.

End IngestReferences.

Lemma ingest_keeps_references_witness :
  samples_have_resources
    (db (snd (@ingest_server test_platform (Some "k1")
                (Some (server_sample "100" 95)) (world_of 100 db_old_sample)))).
Proof.
  refine (proj1 (@ingest_keeps_references test_platform (Some "k1")
                   (Some (server_sample "100" 95)) (world_of 100 db_old_sample) _)).
  unfold samples_have_resources. repeat split; intros m Hin; simpl in Hin;
    try contradiction.
  destruct Hin as [<-|[]]. exists (resource_of "srv" server).
  simpl. repeat split; auto.
Defined.

Section IngestBounds.
Context {P : Platform}.

Lemma z_number_min_max_bounds lo hi x q :
  z_number_min_max lo hi x = Some q -> (lo <= q <= hi)%Q.
Proof.
  unfold z_number_min_max. destruct x as [[| | q' | | |]|]; try discriminate.
  destruct (Qle_bool lo q' && Qle_bool q' hi) eqn:E; [|discriminate].
  intros H. injection H as <-. apply andb_true_iff in E.
  destruct E as [E1 E2]. apply Qle_bool_iff in E1, E2. tauto.
Qed.

Ltac step_schema H :=
  match type of H with
  | match ?e with _ => _ end = Some _ =>
      let E := fresh "E" in destruct e eqn:E; [|discriminate H]
  end.

Lemma server_metrics_object_bounds x m :
  server_metrics_object x = Some m ->
  (0 <= cpuUsagePercent m <= 100)%Q
  /\ (0 <= memoryUsagePercent m <= 100)%Q
  /\ (0 <= diskUsagePercent m <= 100)%Q.
Proof.
  unfold server_metrics_object. intros H.
  repeat step_schema H. injection H as <-. cbn.
  repeat split;
    match goal with
    | E : z_number_min_max _ _ _ = Some ?q |- (_ <= ?q)%Q =>
        apply (z_number_min_max_bounds _ _ _ _ E)
    | E : z_number_min_max _ _ _ = Some ?q |- (?q <= _)%Q =>
        apply (z_number_min_max_bounds _ _ _ _ E)
    end.
Qed.

Lemma serverMetricsSchema_bounds x body :
  serverMetricsSchema x = Some body ->
  percentages_in_range (server_metrics_values 0 body)
  /\ is_uuid (sb_resourceId body) = true.
Proof.
  unfold serverMetricsSchema. intros H.
  repeat step_schema H. injection H as <-.
  split.
  - unfold percentages_in_range, server_metrics_values. cbn.
    eapply server_metrics_object_bounds; eassumption.
  - cbn. unfold z_uuid in *.
    match goal with
    | E : match ?p with _ => _ end = Some ?s |- is_uuid ?s = true =>
        destruct p as [[| | | s' | |]|]; try discriminate E;
        destruct (is_uuid s') eqn:U; [|discriminate E];
        injection E as <-; exact U
    end.
Qed.

(** X6. Every row [POST /server] adds to [server_metrics] has its CPU,
    memory and disk usage percentages between 0 and 100 and is filed under a
    well-formed uuid; a request can add at most that one row and removes
    none. *)
Theorem stored_percentages_in_range :
  forall (x_api_key : option string) (request_body : option json) (w : world),
    server_metrics (db (snd (ingest_server x_api_key request_body w)))
    = server_metrics (db w)
    \/ exists m,
         server_metrics (db (snd (ingest_server x_api_key request_body w)))
         = m :: server_metrics (db w)
         /\ percentages_in_range m
         /\ is_uuid (sm_resource_id m) = true.
Proof.
  intros x b w.
  destruct (ingest_server_cases x b w)
    as [(apiKey & body & Hx & Hup & Hacc)|(rp & w' & Hrun & _ & Ht & _)].
  - right. rewrite Hx, (ingest_server_run _ _ _ _ Hup Hacc). cbn [snd].
    rewrite db_after_publish, server_metrics_server_writes,
      server_metrics_key_checked.
    eexists. split; [reflexivity|].
    destruct Hacc as (_ & Hb & _).
    apply serverMetricsSchema_bounds in Hb. exact Hb.
  - left. rewrite Hrun. cbn [snd]. unfold telemetry in Ht. congruence.
Qed.

End IngestBounds.

Section IngestThenRead.
Context {P : Platform}.

Lemma select_latest_new {R : Type} (rid_of : R -> string) (time_of : R -> Z)
    (row : R) (table : list R) (rid : string) :
  rid_of row = rid ->
  (forall m, In m table -> rid_of m = rid -> time_of m < time_of row) ->
  select_latest rid_of time_of (row :: table) rid = Some row.
Proof.
  intros Hrow Hold. unfold select_latest. cbn [filter]. rewrite Hrow, String.eqb_refl.
  apply limit_1_strict_max; [left; reflexivity|].
  intros x [<-|Hx]; [left; reflexivity|right].
  apply filter_In in Hx. destruct Hx as [Hx Hid]. apply String.eqb_eq in Hid.
  apply Hold; assumption.
Qed.

Lemma post_latest_one (u : user) (rid : string) (w : world) (r : resource_row)
    (data : latest_data) :
  db_up w = true ->
  uuid_in rid = true ->
  NoDup (map r_id (resources (db w))) ->
  In r (resources (db w)) -> r_id r = rid ->
  is_admin u || String.eqb (r_user_id r) (u_id u) = true ->
  latest_row_data (db w) r = Some data ->
  exists metrics,
    post_latest u (Some (JObj [("resourceIds", JArr [JStr rid])])) w
    = (Ok (mk_reply 200 (LMetrics metrics)), w)
    /\ assoc rid metrics
       = Some {| le_name := r_name r; le_type := r_type r; le_data := data |}.
Proof.
  intros Hup Huuid Hnd Hin Hid Hown Hdata.
  exists (fold_left (latest_step (db w)) (select_resources_any u [rid] (db w)) []).
  split.
  - unfold post_latest, bind, ret, prop. cbn [assoc String.eqb Ascii.eqb Bool.eqb].
    cbn [uuid_array]. rewrite Huuid. cbn [uuid_array].
    unfold query. rewrite Hup, with_db_same.
    rewrite latest_loop_run by exact Hup. reflexivity.
  - rewrite <- Hid.
    rewrite (assoc_latest_fold (db w) _ [] r).
    + rewrite Hdata. reflexivity.
    + apply unique_ids_where. exact Hnd.
    + apply filter_In. split; [exact Hin|]. rewrite Hown, andb_true_r.
      cbn [existsb]. rewrite Hid, String.eqb_refl. reflexivity.
Qed.

Lemma ids_after_seen (rid : string) (set : resource_row -> resource_row)
    (rows : list resource_row) :
  (forall r, r_id (set r) = r_id r) ->
  map r_id (map (fun r => if String.eqb (r_id r) rid then set r else r) rows)
  = map r_id rows.
Proof.
  intros Hset. rewrite map_map. apply map_ext. intros r.
  destruct (String.eqb (r_id r) rid); [apply Hset|reflexivity].
Qed.

Lemma owner_sees (u : user) (userId : string) (r : resource_row) :
  u_id u = userId -> r_user_id r = userId ->
  is_admin u || String.eqb (r_user_id r) (u_id u) = true.
Proof. intros -> ->. rewrite String.eqb_refl. apply orb_true_r. Qed.

Lemma seen_row_in (rid : string) (set : resource_row -> resource_row)
    (rows : list resource_row) (r0 : resource_row) :
  In r0 rows -> r_id r0 = rid ->
  In (set r0) (map (fun r => if String.eqb (r_id r) rid then set r else r) rows).
Proof.
  intros Hin Hid. apply in_map_iff. exists r0. split; [|exact Hin].
  rewrite Hid, String.eqb_refl. reflexivity.
Qed.


End IngestThenRead.


Section IngestThenRange.
Context {P : Platform}.

Lemma no_row_with_id (rid : string) (keep : resource_row -> bool)
    (rows : list resource_row) :
  ~ In rid (map r_id rows) ->
  filter (fun r => String.eqb (r_id r) rid && keep r) rows = [].
Proof.
  induction rows as [|a tl IH]; intros Hn; [reflexivity|]. cbn [filter].
  destruct (String.eqb (r_id a) rid) eqn:E.
  - apply String.eqb_eq in E. contradiction Hn. left. exact E.
  - cbn. apply IH. intros H. apply Hn. right. exact H.
Qed.

Lemma select_resource_head (u : user) (rid : string) (d : db_state)
    (r1 : resource_row) :
  NoDup (map r_id (resources d)) ->
  In r1 (resources d) -> r_id r1 = rid ->
  is_admin u || String.eqb (r_user_id r1) (u_id u) = true ->
  select_resource u rid d = [r1].
Proof.
  unfold select_resource. intros Hnd Hin Hid Hown.
  induction (resources d) as [|a tl IH]; [contradiction|].
  inversion Hnd as [|? ? Hnot Hnd']; subst. cbn [filter].
  destruct Hin as [->|Hin].
  - rewrite String.eqb_refl, Hown. cbn [andb]. f_equal.
    apply no_row_with_id. exact Hnot.
  - destruct (String.eqb (r_id a) (r_id r1)) eqn:E.
    + apply String.eqb_eq in E. contradiction Hnot. rewrite E. apply in_map. exact Hin.
    + cbn [andb]. apply IH; assumption.
Qed.

Lemma nothing_kept {R : Type} (keep : R -> bool) (rows : list R) :
  (forall m, In m rows -> keep m = false) -> filter keep rows = [].
Proof.
  induction rows as [|a tl IH]; intros H; [reflexivity|]. cbn [filter].
  rewrite (H a) by (left; reflexivity). apply IH. intros m Hm. apply H. right. exact Hm.
Qed.

Lemma AVG_single (x : Q) : agg_is (AVG [x]) x = true.
Proof.
  unfold agg_is, AVG, Qsum. cbn [fold_right List.length].
  apply Qeq_bool_iff. field.
Qed.

Lemma group_row_in {R A : Type} (time_of : R -> Z) (select : Z -> list R -> A)
    (width : Z) (rows : list R) (r : R) :
  In r rows ->
  In (select (time_bucket width (time_of r))
        (bucket_group time_of width (time_bucket width (time_of r)) rows))
     (group_by_bucket time_of select width rows).
Proof.
  intros Hin. unfold group_by_bucket.
  apply in_map_iff. exists (time_bucket width (time_of r)). split; [reflexivity|].
  apply distinct_buckets_in. apply in_map_iff. exists r. split; [reflexivity|exact Hin].
Qed.


End IngestThenRange.


Section MetricsAccess.
Context {P : Platform}.


Lemma latest_fold_scope (d : db_state) (l : list resource_row)
    (acc : list (string * latest_entry)) (k : string) (e : latest_entry) :
  assoc k (fold_left (latest_step d) l acc) = Some e ->
  assoc k acc = Some e
  \/ exists r, In r l /\ r_id r = k /\ le_name e = r_name r /\ le_type e = r_type r
               /\ latest_row_data d r = Some (le_data e).
Proof.
  revert acc. induction l as [|a tl IH]; intros acc H; [left; exact H|].
  cbn [fold_left] in H. apply IH in H. destruct H as [H|(r & Hin & Hr)].
  - unfold latest_step in H. destruct (latest_row_data d a) as [data|] eqn:Hd.
    + rewrite assoc_set_key in H. destruct (String.eqb k (r_id a)) eqn:E.
      * apply String.eqb_eq in E. injection H as <-. right. exists a.
        split; [left; reflexivity|]. cbn. auto.
      * left. exact H.
    + left. exact H.
  - right. exists r. split; [right; exact Hin|exact Hr].
Qed.


End MetricsAccess.



Section Conservation.

Lemma sorted_no_duplicate (b : Z) (bs : list Z) :
  StronglySorted Z.lt (b :: bs) -> ~ In b bs.
Proof.
  intros H Hin. inversion H as [|? ? _ Hall]; subst.
  rewrite Forall_forall in Hall. specialize (Hall b Hin). lia.
Qed.

Lemma one_bucket_counts (b : Z) (bs : list Z) :
  StronglySorted Z.lt bs -> In b bs ->
  Zsum (map (fun x => if b =? x then 1 else 0) bs) = 1.
Proof.
  induction bs as [|x tl IH]; intros Hs Hin; [contradiction|].
  pose proof (sorted_no_duplicate _ _ Hs) as Hnot.
  inversion Hs as [|? ? Hs' _]; subst. cbn [map Zsum fold_right].
  destruct Hin as [->|Hin].
  - rewrite Z.eqb_refl.
    replace (fold_right Z.add 0 (map (fun x => if b =? x then 1 else 0) tl)) with 0;
      [reflexivity|].
    symmetry. clear IH Hs Hs'. induction tl as [|y tl IH]; [reflexivity|].
    cbn [map fold_right]. destruct (b =? y) eqn:E.
    + apply Z.eqb_eq in E. contradiction Hnot. left. symmetry. exact E.
    + rewrite IH; [reflexivity|]. intros H. apply Hnot. right. exact H.
  - destruct (b =? x) eqn:E.
    + apply Z.eqb_eq in E. subst x. contradiction.
    + fold (Zsum (map (fun x => if b =? x then 1 else 0) tl)). rewrite IH; auto.
Qed.

Lemma no_bucket_counts (b : Z) (bs : list Z) (n : Z) :
  Zsum (map (fun x => if b =? x then n else 0) bs) = n * Zsum (map (fun x => if b =? x then 1 else 0) bs).
Proof.
  induction bs as [|x tl IH]; cbn [map Zsum fold_right]; [lia|].
  unfold Zsum in IH. rewrite IH. destruct (b =? x); lia.
Qed.

Lemma groups_partition {R : Type} (time_of : R -> Z) (keep : R -> bool) (width : Z)
    (rows : list R) (bs : list Z) :
  StronglySorted Z.lt bs ->
  (forall r, In r rows -> In (time_bucket width (time_of r)) bs) ->
  Zsum (map (fun b => Z.of_nat (List.length
                                  (filter keep (bucket_group time_of width b rows))))
            bs)
  = Z.of_nat (List.length (filter keep rows)).
Proof.
  intros Hs. induction rows as [|r tl IH]; intros Hall.
  - clear Hs Hall. cbn. induction bs as [|b bs IHb]; [reflexivity|].
    cbn [map Zsum fold_right]. unfold Zsum in IHb. rewrite IHb. reflexivity.
  - assert (Hstep : forall b,
              Z.of_nat (List.length
                          (filter keep (bucket_group time_of width b (r :: tl))))
              = (if time_bucket width (time_of r) =? b
                 then (if keep r then 1 else 0) else 0)
                + Z.of_nat (List.length
                              (filter keep (bucket_group time_of width b tl)))).
    { intros b. unfold bucket_group. cbn [filter].
      destruct (time_bucket width (time_of r) =? b); [|lia].
      cbn [filter]. destruct (keep r); cbn [List.length]; lia. }
    rewrite (map_ext _ _ Hstep).
    assert (Hsplit : forall (f g : Z -> Z) l,
               Zsum (map (fun b => f b + g b) l) = Zsum (map f l) + Zsum (map g l)).
    { intros f g l. induction l as [|x l IHl]; cbn [map Zsum fold_right]; [lia|].
      unfold Zsum in IHl. rewrite IHl. lia. }
    rewrite Hsplit, IH by (intros x Hx; apply Hall; right; exact Hx).
    rewrite no_bucket_counts, one_bucket_counts;
      [|exact Hs|apply Hall; left; reflexivity].
    cbn [filter]. destruct (keep r); cbn [List.length]; lia.
Qed.

Lemma group_counts {R A : Type} (time_of : R -> Z) (select : Z -> list R -> A)
    (count : A -> Z) (keep : R -> bool) (width : Z) (rows : list R) :
  (forall b g, count (select b g) = Z.of_nat (List.length (filter keep g))) ->
  Zsum (map count (group_by_bucket time_of select width rows))
  = Z.of_nat (List.length (filter keep rows)).
Proof.
  intros Hcount. unfold group_by_bucket. rewrite map_map.
  rewrite (map_ext _ (fun b => Z.of_nat
                                 (List.length
                                    (filter keep (bucket_group time_of width b rows)))))
    by (intros b; apply Hcount).
  apply groups_partition; [apply distinct_buckets_sorted|].
  intros r Hin. apply distinct_buckets_in. apply in_map_iff.
  exists r. split; [reflexivity|exact Hin].
Qed.

Lemma filter_everything {R : Type} (rows : list R) : filter (fun _ => true) rows = rows.
Proof. induction rows as [|r tl IH]; [reflexivity|]. cbn. rewrite IH. reflexivity. Qed.

Lemma group_nonempty {R A : Type} (time_of : R -> Z) (select : Z -> list R -> A)
    (width : Z) (rows : list R) (row : A) :
  In row (group_by_bucket time_of select width rows) ->
  exists b g, row = select b g /\ g <> [] /\ g = bucket_group time_of width b rows.
Proof.
  unfold group_by_bucket. intros Hin. apply in_map_iff in Hin.
  destruct Hin as (b & <- & Hb). exists b, (bucket_group time_of width b rows).
  split; [reflexivity|]. split; [|reflexivity].
  apply (proj1 (distinct_buckets_in _ _)) in Hb. apply in_map_iff in Hb.
  destruct Hb as (r & Hr & Hin).
  intros Hnil. assert (Hm : In r (bucket_group time_of width b rows)).
  { unfold bucket_group. apply filter_In. split; [exact Hin|]. apply Z.eqb_eq. exact Hr. }
  rewrite Hnil in Hm. contradiction.
Qed.

Lemma filter_length_le {R : Type} (keep : R -> bool) (rows : list R) :
  (List.length (filter keep rows) <= List.length rows)%nat.
Proof.
  induction rows as [|r tl IH]; [apply le_n|]. cbn [filter].
  destruct (keep r); cbn [List.length]; lia.
Qed.

(** X11. The availability counts of a range query add up. Over the rows
    returned for a website (and likewise for a network check), the [checks]
    sum to the number of the resource's samples in the window and the
    [successful] sum to the number of those reporting the target
    available: no sample is counted twice or left out. In each row
    [checks] is at least 1 and [successful] lies between 0 and [checks]. *)
Theorem range_counts_add_up :
  forall (width : Z) (resourceId : string) (startTime endTime : Z),
    (forall table : list website_metrics_row,
        let rows := website_range table width resourceId startTime endTime in
        let window :=
          filter (where_range wm_resource_id wm_time resourceId startTime endTime)
                 table in
        Zsum (map wbk_checks rows) = COUNT window
        /\ Zsum (map wbk_successful rows) = SUM_available wm_is_available window
        /\ Forall (fun row => 1 <= wbk_checks row
                              /\ 0 <= wbk_successful row <= wbk_checks row) rows)
    /\ (forall table : list network_metrics_row,
        let rows := network_range table width resourceId startTime endTime in
        let window :=
          filter (where_range nm_resource_id nm_time resourceId startTime endTime)
                 table in
        Zsum (map nbk_checks rows) = COUNT window
        /\ Zsum (map nbk_successful rows) = SUM_available nm_is_available window
        /\ Forall (fun row => 1 <= nbk_checks row
                              /\ 0 <= nbk_successful row <= nbk_checks row) rows).
Proof.
  intros width rid s e. split.
  - intros table rows window. unfold rows, website_range, range_query. fold window.
    split; [|split].
    + rewrite (group_counts wm_time select_website wbk_checks (fun _ => true)).
      * rewrite filter_everything. reflexivity.
      * intros b g. rewrite filter_everything. reflexivity.
    + apply (group_counts wm_time select_website wbk_successful wm_is_available).
      intros b g. reflexivity.
    + apply Forall_forall. intros row Hin.
      apply group_nonempty in Hin. destruct Hin as (b & g & -> & Hne & _).
      cbn [select_website wbk_checks wbk_successful]. unfold COUNT, SUM_available.
      pose proof (filter_length_le wm_is_available g).
      destruct g; [contradiction|]. cbn [List.length] in *. lia.
  - intros table rows window. unfold rows, network_range, range_query. fold window.
    split; [|split].
    + rewrite (group_counts nm_time select_network nbk_checks (fun _ => true)).
      * rewrite filter_everything. reflexivity.
      * intros b g. rewrite filter_everything. reflexivity.
    + apply (group_counts nm_time select_network nbk_successful nm_is_available).
      intros b g. reflexivity.
    + apply Forall_forall. intros row Hin.
      apply group_nonempty in Hin. destruct Hin as (b & g & -> & Hne & _).
      cbn [select_network nbk_checks nbk_successful]. unfold COUNT, SUM_available.
      pose proof (filter_length_le nm_is_available g).
      destruct g; [contradiction|]. cbn [List.length] in *. lia.
Qed.

End Conservation.

Section Rollup.

Lemma Qsum_between (xs : list Q) (lo hi : Q) :
  (forall x, In x xs -> lo <= x <= hi)%Q ->
  (lo * inject_Z (Z.of_nat (List.length xs)) <= Qsum xs
   /\ Qsum xs <= hi * inject_Z (Z.of_nat (List.length xs)))%Q.
Proof.
  induction xs as [|x tl IH]; intros H.
  - cbn. split; ring_simplify; apply Qle_refl.
  - destruct IH as [IH1 IH2]; [intros y Hy; apply H; right; exact Hy|].
    destruct (H x (or_introl eq_refl)) as [H1 H2].
    cbn [List.length Qsum fold_right]. fold (Qsum tl).
    rewrite Nat2Z.inj_succ. unfold Z.succ. rewrite inject_Z_plus.
    split.
    + setoid_replace (lo * (inject_Z (Z.of_nat (List.length tl)) + inject_Z 1))%Q
        with (lo + lo * inject_Z (Z.of_nat (List.length tl)))%Q by ring.
      apply Qplus_le_compat; assumption.
    + setoid_replace (hi * (inject_Z (Z.of_nat (List.length tl)) + inject_Z 1))%Q
        with (hi + hi * inject_Z (Z.of_nat (List.length tl)))%Q by ring.
      apply Qplus_le_compat; assumption.
Qed.

Lemma AVG_between (xs : list Q) (lo hi : Q) :
  xs <> [] ->
  (forall x, In x xs -> lo <= x <= hi)%Q ->
  exists a, AVG xs = Some a /\ (lo <= a <= hi)%Q.
Proof.
  intros Hne H. destruct (Qsum_between xs lo hi H) as [H1 H2].
  destruct xs as [|x tl]; [contradiction|].
  eexists. split; [reflexivity|].
  assert (Hpos : (0 < inject_Z (Z.of_nat (List.length (x :: tl))))%Q).
  { rewrite <- (Zlt_Qlt 0). cbn [List.length]. lia. }
  split.
  - apply Qle_shift_div_l; assumption.
  - apply Qle_shift_div_r; assumption.
Qed.

Lemma MAX_bounds (xs : list Q) :
  xs <> [] -> exists m, MAX xs = Some m /\ forall x, In x xs -> (x <= m)%Q.
Proof.
  intros Hne. destruct xs as [|x0 tl]; [contradiction|].
  destruct (MAX_ge (x0 :: tl) x0 (or_introl eq_refl)) as (m & Hm & _).
  exists m. split; [exact Hm|]. intros x Hx.
  destruct (MAX_ge (x0 :: tl) x Hx) as (m' & Hm' & Hle). congruence.
Qed.

Lemma MIN_bounds (xs : list Q) :
  xs <> [] -> exists m, MIN xs = Some m /\ forall x, In x xs -> (m <= x)%Q.
Proof.
  intros Hne. destruct xs as [|x0 tl]; [contradiction|].
  destruct (MIN_le (x0 :: tl) x0 (or_introl eq_refl)) as (m & Hm & _).
  exists m. split; [exact Hm|]. intros x Hx.
  destruct (MIN_le (x0 :: tl) x Hx) as (m' & Hm' & Hle). congruence.
Qed.

Lemma column_nonempty {R : Type} (col : R -> Q) (g : list R) :
  g <> [] -> map col g <> [].
Proof. destruct g; [contradiction|discriminate]. Qed.

(** X12. Every row of the hourly rollup [server_metrics_1h] is built
    from at least one sample of its resource in its hour, so none of its
    aggregates is NULL; its minimum, average and maximum CPU are ordered
    [min <= avg <= max], every sample of the hour has its CPU between the
    minimum and the maximum, and the average memory is at most the maximum
    memory. *)
Theorem hourly_rollup_bounds :
  forall (table : list server_metrics_row) (resourceId : string)
         (row : server_metrics_1h_row),
    In row (server_metrics_1h table resourceId) ->
    h1_resource_id row = resourceId
    /\ (exists m, In m table /\ sm_resource_id m = resourceId
                  /\ time_bucket one_hour (sm_time m) = h1_bucket row)
    /\ (exists mn a mx,
          min_cpu row = Some mn /\ avg_cpu row = Some a /\ max_cpu row = Some mx
          /\ (mn <= a <= mx)%Q
          /\ forall m, In m table -> sm_resource_id m = resourceId ->
                       time_bucket one_hour (sm_time m) = h1_bucket row ->
                       (mn <= cpu_usage_percent m <= mx)%Q)
    /\ (exists am mm,
          avg_memory row = Some am /\ max_memory row = Some mm /\ (am <= mm)%Q)
    /\ avg_disk row <> None.
Proof.
  intros table rid row Hin. unfold server_metrics_1h in Hin.
  apply group_nonempty in Hin. destruct Hin as (b & g & -> & Hne & Hg).
  cbn [h1_resource_id h1_bucket min_cpu avg_cpu max_cpu avg_memory max_memory avg_disk].
  split; [reflexivity|].
  assert (Hmem : forall m, In m g <->
                           In m table /\ sm_resource_id m = rid
                           /\ time_bucket one_hour (sm_time m) = b).
  { intros m. rewrite Hg. unfold bucket_group. rewrite !filter_In.
    rewrite Z.eqb_eq, String.eqb_eq. tauto. }
  split.
  { destruct g as [|m tl]; [contradiction|]. exists m. apply Hmem. left. reflexivity. }
  split.
  - destruct (MIN_bounds (map cpu_usage_percent g) (column_nonempty _ g Hne))
      as (mn & Hmn & Hlo).
    destruct (MAX_bounds (map cpu_usage_percent g) (column_nonempty _ g Hne))
      as (mx & Hmx & Hhi).
    destruct (AVG_between (map cpu_usage_percent g) mn mx (column_nonempty _ g Hne))
      as (a & Ha & Hbetween); [intros x Hx; split; auto|].
    exists mn, a, mx. split; [exact Hmn|]. split; [exact Ha|]. split; [exact Hmx|].
    split; [exact Hbetween|].
    intros m Hm Hid Hb.
    assert (Hx : In (cpu_usage_percent m) (map cpu_usage_percent g)).
    { apply in_map. apply Hmem. tauto. }
    split; auto.
  - split.
    + destruct (MAX_bounds (map memory_usage_percent g) (column_nonempty _ g Hne))
        as (mx & Hmx & Hhi).
      destruct (MIN_bounds (map memory_usage_percent g) (column_nonempty _ g Hne))
        as (mn & Hmn & Hlo).
      destruct (AVG_between (map memory_usage_percent g) mn mx
                  (column_nonempty _ g Hne))
        as (a & Ha & Hbetween); [intros x Hx; split; auto|].
      exists a, mx. split; [exact Ha|]. split; [exact Hmx|apply Hbetween].
    + destruct g; [contradiction|discriminate].
Qed.

End Rollup.

Lemma hourly_rollup_bounds_witness :
  exists row,
    In row (server_metrics_1h (server_metrics db_series) "srv")
    /\ exists mn a mx,
         min_cpu row = Some mn /\ avg_cpu row = Some a /\ max_cpu row = Some mx
         /\ (mn <= a <= mx)%Q.
Proof.
  destruct (server_metrics_1h (server_metrics db_series) "srv") as [|row tl] eqn:E;
    [vm_compute in E; discriminate|].
  exists row. split; [left; reflexivity|].
  destruct (hourly_rollup_bounds (server_metrics db_series) "srv" row)
    as (_ & _ & (mn & a & mx & H1 & H2 & H3 & H4 & _) & _).
  - rewrite E. left. reflexivity.
  - exists mn, a, mx. auto.
Defined.

Section SocketState.
Context {P : Platform}.

Lemma on_message_step (c : connection) (m : frame) (w : world) :
  exists c' out w',
    on_message c m w = (Ok (c', out), w') /\ ws_step c c' /\ db w' = db w
    /\ streams w' = streams w.
Proof.
  unfold on_message, try_catch.
  destruct m as [|data].
  { eexists. eexists. eexists. split; [reflexivity|]. split; [constructor|].
    destruct w; split; reflexivity. }
  destruct data as [|b|q|s|l|f];
    try (eexists; eexists; eexists; split; [reflexivity|]; split; [constructor|];
         destruct w; split; reflexivity).
  - (* a boolean, number, string or array has no [type] *)
    unfold on_data, bind, ret. cbn [prop is_str].
    destruct (authenticated c); eexists; eexists; eexists;
      (split; [reflexivity|]); (split; [constructor|]); split; reflexivity.
  - unfold on_data, bind, ret. cbn [prop is_str].
    destruct (authenticated c); eexists; eexists; eexists;
      (split; [reflexivity|]); (split; [constructor|]); split; reflexivity.
  - unfold on_data, bind, ret. cbn [prop is_str].
    destruct (authenticated c); eexists; eexists; eexists;
      (split; [reflexivity|]); (split; [constructor|]); split; reflexivity.
  - unfold on_data, bind, ret. cbn [prop is_str].
    destruct (authenticated c); eexists; eexists; eexists;
      (split; [reflexivity|]); (split; [constructor|]); split; reflexivity.
  - unfold on_data. unfold bind at 1. unfold ret at 1.
    destruct (is_str (prop (JObj f) "type") "auth").
    { destruct (jwt_verify (prop (JObj f) "token")) as [id|].
      - eexists. eexists. eexists. split; [reflexivity|]. split; [apply ws_auth|].
        destruct w; split; reflexivity.
      - eexists. eexists. eexists. split; [reflexivity|]. split; [constructor|].
        split; reflexivity. }
    destruct (authenticated c) eqn:Hauth; cbn [negb].
    2:{ eexists. eexists. eexists. split; [reflexivity|]. split; [constructor|].
        split; reflexivity. }
    destruct (is_str (prop (JObj f) "type") "subscribe").
    { destruct (includes (subscriptions c) (stream_key (JObj f))) eqn:Hinc; cbn [negb].
      - eexists. eexists. eexists. split; [reflexivity|]. split; [constructor|].
        split; reflexivity.
      - eexists. eexists. eexists. split; [reflexivity|].
        split; [|destruct w; split; reflexivity].
        pose proof (ws_subscribe c _ Hauth Hinc) as H. rewrite Hauth in H. exact H. }
    destruct (is_str (prop (JObj f) "type") "unsubscribe").
    { destruct (includes (subscriptions c) (stream_key (JObj f))) eqn:Hinc.
      - eexists. eexists. eexists. split; [reflexivity|].
        split; [|destruct w; split; reflexivity].
        pose proof (ws_unsubscribe c _ Hauth Hinc) as H. rewrite Hauth in H. exact H.
      - eexists. eexists. eexists. split; [reflexivity|]. split; [constructor|].
        split; reflexivity. }
    destruct (is_str (prop (JObj f) "type") "ping").
    + eexists. eexists. eexists. split; [reflexivity|]. split; [constructor|].
      split; reflexivity.
    + eexists. eexists. eexists. split; [reflexivity|]. split; [constructor|].
      split; reflexivity.
Qed.

Lemma includes_in (l : list string) (k : string) : includes l k = true <-> In k l.
Proof.
  unfold includes. rewrite existsb_exists. split.
  - intros (x & Hx & E). apply String.eqb_eq in E. subst. exact Hx.
  - intros H. exists k. split; [exact H|apply String.eqb_refl].
Qed.

Lemma includes_not_in (l : list string) (k : string) : includes l k = false <-> ~ In k l.
Proof.
  rewrite <- includes_in. destruct (includes l k); split; congruence || tauto.
Qed.

Lemma in_others (k x : string) (l : list string) :
  In x (filter (fun y => negb (String.eqb y k)) l) <-> In x l /\ x <> k.
Proof.
  rewrite filter_In, negb_true_iff, String.eqb_neq. tauto.
Qed.

Lemma in_splice_first (k x : string) (l : list string) :
  NoDup l -> (In x (splice_first k l) <-> In x l /\ x <> k).
Proof.
  induction l as [|y tl IH]; intros Hnd; [simpl; tauto|].
  inversion Hnd as [|? ? Hnot Hnd']; subst. cbn [splice_first].
  destruct (String.eqb k y) eqn:E.
  - apply String.eqb_eq in E. subst y. split.
    + intros H. split; [right; exact H|]. intros ->. contradiction.
    + intros [[H|H] Hne]; [congruence|exact H].
  - apply String.eqb_neq in E. cbn [In]. rewrite (IH Hnd'). split.
    + intros [H|H]; [subst; split; [left; reflexivity|congruence]|tauto].
    + tauto.
Qed.

Lemma nodup_splice_first (k : string) (l : list string) :
  NoDup l -> NoDup (splice_first k l).
Proof.
  induction l as [|y tl IH]; intros Hnd; [constructor|].
  inversion Hnd as [|? ? Hnot Hnd']; subst. cbn [splice_first].
  destruct (String.eqb k y); [exact Hnd'|]. constructor; [|apply IH; exact Hnd'].
  intros H. apply in_splice_first in H; tauto.
Qed.

Lemma nodup_others (k : string) (l : list string) :
  NoDup l -> NoDup (filter (fun y => negb (String.eqb y k)) l).
Proof.
  induction l as [|y tl IH]; intros Hnd; [constructor|].
  inversion Hnd as [|? ? Hnot Hnd']; subst. cbn [filter].
  destruct (negb (String.eqb y k)); [|apply IH; exact Hnd'].
  constructor; [|apply IH; exact Hnd']. intros H. apply in_others in H. tauto.
Qed.

Lemma ws_step_in_step (c c' : connection) : ws_step c c' -> in_step c -> in_step c'.
Proof.
  intros Hstep (Hs & Hr & Hsame). destruct Hstep as [|id|k _ Hk|k _ Hk].
  - repeat split; auto; apply Hsame.
  - repeat split; auto; apply Hsame.
  - apply includes_not_in in Hk. unfold in_step.
    cbn [subscriptions streamReaders]. split; [|split].
    + clear Hsame Hr. induction (subscriptions c) as [|y tl IH].
      * repeat constructor. intros [].
      * inversion Hs as [|? ? Hnot Hnd']; subst. cbn [app]. constructor.
        -- intros H. apply in_app_or in H. destruct H as [H|[H|[]]]; [contradiction|].
           apply Hk. left. symmetry. exact H.
        -- apply IH; [intros H; apply Hk; right; exact H|exact Hnd'].
    + constructor; [|apply nodup_others; exact Hr].
      intros H. apply in_others in H. tauto.
    + intros x. rewrite in_app_iff. cbn [In]. rewrite in_others, Hsame.
      destruct (string_dec x k) as [->|Hne]; [tauto|].
      split; [intros [H|[H|[]]]; [tauto|congruence]|intros [H|H]; [congruence|tauto]].
  - unfold in_step. cbn [subscriptions streamReaders]. split; [|split].
    + apply nodup_splice_first. exact Hs.
    + apply nodup_others. exact Hr.
    + intros x. rewrite in_splice_first by exact Hs. rewrite in_others, Hsame. tauto.
Qed.

Lemma ws_step_authenticated (c c' : connection) :
  ws_step c c' -> authenticated c = true -> authenticated c' = true.
Proof. intros Hstep Ha. destruct Hstep; auto. Qed.

Lemma ws_step_locked (c c' : connection) :
  ws_step c c' -> authenticated c' = false -> c' = c.
Proof.
  intros Hstep Ha. destruct Hstep as [|id|k Hc _|k Hc _]; cbn in Ha; congruence.
Qed.

Lemma on_messages_steps (c : connection) (messages : list frame) (w : world) :
  exists c' out w',
    on_messages c messages w = (Ok (c', out), w')
    /\ (in_step c -> in_step c')
    /\ (authenticated c = true -> authenticated c' = true)
    /\ (authenticated c' = false -> c' = c)
    /\ db w' = db w /\ streams w' = streams w.
Proof.
  revert c w. induction messages as [|m tl IH]; intros c w.
  - exists c, [], w. split; [reflexivity|]. tauto.
  - cbn [on_messages]. unfold bind at 1.
    destruct (on_message_step c m w) as (c1 & out1 & w1 & -> & Hstep & Hd1 & Hs1).
    cbn [fst snd]. unfold bind at 1.
    destruct (IH c1 w1) as (c2 & out2 & w2 & -> & Hinv & Hauth & Hlock & Hd2 & Hs2).
    eexists. eexists. eexists. split; [reflexivity|]. cbn [fst].
    split; [intros H; apply Hinv, (ws_step_in_step c c1 Hstep H)|].
    split; [intros H; apply Hauth, (ws_step_authenticated c c1 Hstep H)|].
    split; [|split; congruence].
    intros H. pose proof (Hlock H) as E. subst c2.
    apply (ws_step_locked c c1 Hstep H).
Qed.

(** X13. Whatever messages a live-feed socket receives, in whatever
    order, its handler answers each without throwing and keeps its state in
    step: no stream key is subscribed twice, each subscribed key has exactly
    one polling timer and no other key has one. The handler never writes to
    the database or to a stream. *)
Theorem socket_state_in_step :
  forall (c : connection) (messages : list frame) (w : world),
    in_step c ->
    exists c' out w',
      on_messages c messages w = (Ok (c', out), w')
      /\ in_step c'
      /\ db w' = db w /\ streams w' = streams w.
Proof.
  intros c messages w Hinv.
  destruct (on_messages_steps c messages w) as (c' & out & w' & H & Hi & _ & _ & Hd).
  exists c', out, w'. split; [exact H|]. split; [exact (Hi Hinv)|exact Hd].
Qed.

(** X14. Authentication of a live-feed socket is never lost: once a
    token has verified, no later message (a failed [auth] included) makes
    the connection unauthenticated again. And a connection that is
    unauthenticated after a run of messages is in the state it started in:
    nothing was subscribed on the way. *)
Theorem socket_authentication_is_kept :
  forall (c : connection) (messages : list frame) (w : world),
  exists c' out w',
    on_messages c messages w = (Ok (c', out), w')
    /\ (authenticated c = true -> authenticated c' = true)
    /\ (authenticated c' = false -> c' = c).
Proof.
  intros c messages w.
  destruct (on_messages_steps c messages w) as (c' & out & w' & H & _ & Ha & Hl & _).
  exists c', out, w'. auto.
Qed.

End SocketState.

Lemma socket_state_in_step_witness :
  exists c' out w',
    @on_messages test_platform new_connection
      [auth_with "good"; subscribe_to "server" "srv"; subscribe_to "server" "srv";
       unsubscribe_from "website" "web"; Unparsable]
      (world_of 100 empty_db)
    = (Ok (c', out), w')
    /\ in_step c'
    /\ db w' = empty_db /\ streams w' = [].
Proof.
  apply (@socket_state_in_step test_platform new_connection).
  unfold in_step. cbn. repeat split; try constructor; tauto.
Defined.

Section SocketRoundTrip.
Context {P : Platform}.

Lemma splice_appended (k : string) (l : list string) :
  ~ In k l -> splice_first k (l ++ [k]) = l.
Proof.
  induction l as [|y tl IH]; intros Hn; cbn [app splice_first].
  - rewrite String.eqb_refl. reflexivity.
  - destruct (String.eqb k y) eqn:E.
    + apply String.eqb_eq in E. contradiction Hn. left. symmetry. exact E.
    + rewrite IH; [reflexivity|]. intros H. apply Hn. right. exact H.
Qed.

Lemma others_all (k : string) (l : list string) :
  ~ In k l -> filter (fun y => negb (String.eqb y k)) l = l.
Proof.
  induction l as [|y tl IH]; intros Hn; [reflexivity|]. cbn [filter].
  destruct (String.eqb y k) eqn:E.
  - apply String.eqb_eq in E. contradiction Hn. left. exact E.
  - cbn [negb]. rewrite IH; [reflexivity|]. intros H. apply Hn. right. exact H.
Qed.

Lemma includes_appended (k : string) (l : list string) : includes (l ++ [k]) k = true.
Proof. apply includes_in. apply in_or_app. right. left. reflexivity. Qed.

(** X15. Round trip of a subscription. On an authenticated connection
    whose state is in step and which is not subscribed to a resource's
    stream, [subscribe] followed by [unsubscribe] for that resource is
    acknowledged by one [subscribed] and one [unsubscribed] message and
    leaves the connection exactly as it was; a second [subscribe] right
    after the first is ignored without any reply. *)
Theorem subscribe_unsubscribe_round_trip :
  forall (c : connection) (resourceType resourceId : string) (w : world),
    authenticated c = true ->
    in_step c ->
    ~ In (key_of resourceType resourceId) (subscriptions c) ->
    let sub := subscribe_to resourceType resourceId in
    let unsub := unsubscribe_from resourceType resourceId in
    (exists w',
        on_messages c [sub; unsub] w
        = (Ok (c, [SockSend (JObj [("type", JStr "subscribed");
                                   ("resourceId", JStr resourceId);
                                   ("resourceType", JStr resourceType)]);
                   SockSend (JObj [("type", JStr "unsubscribed");
                                   ("resourceId", JStr resourceId);
                                   ("resourceType", JStr resourceType)])]), w'))
    /\ (exists c1 w1 w2,
          on_messages c [sub] w
          = (Ok (c1, [SockSend (JObj [("type", JStr "subscribed");
                                      ("resourceId", JStr resourceId);
                                      ("resourceType", JStr resourceType)])]), w1)
          /\ In (key_of resourceType resourceId) (subscriptions c1)
          /\ on_messages c1 [sub] w1 = (Ok (c1, []), w2)).
Proof.
  intros c ty rid w Hauth (Hs & Hr & Hsame) Hnew sub unsub.
  assert (Hnot : includes (subscriptions c) (key_of ty rid) = false)
    by (apply includes_not_in; exact Hnew).
  assert (Hreaders : ~ In (key_of ty rid) (streamReaders c))
    by (rewrite <- Hsame; exact Hnew).
  assert (Hsub : forall w0,
            on_message c sub w0
            = (Ok ({| authenticated := true; userId := userId c;
                      subscriptions := subscriptions c ++ [key_of ty rid];
                      streamReaders := key_of ty rid :: streamReaders c |},
                   [SockSend (JObj [("type", JStr "subscribed");
                                    ("resourceId", JStr rid);
                                    ("resourceType", JStr ty)])]),
               with_log ((lvl_info, "subscribed") :: log w0) w0)).
  { intros w0. unfold on_message, try_catch, sub, subscribe_to, on_data.
    unfold bind at 1. unfold ret at 1. cbn [prop assoc String.eqb Ascii.eqb Bool.eqb is_str].
    rewrite Hauth. cbn [negb].
    change (stream_key (JObj [("type", JStr "subscribe"); ("resourceId", JStr rid);
                              ("resourceType", JStr ty)])) with (key_of ty rid).
    rewrite Hnot. cbn [negb]. rewrite (others_all _ _ Hreaders).
    reflexivity. }
  split.
  - cbn [on_messages]. unfold bind at 1. rewrite Hsub. cbn [fst snd].
    unfold bind at 1.
    unfold on_message at 1, try_catch, unsub, unsubscribe_from, on_data.
    unfold bind at 1. unfold ret at 1.
    cbn [prop assoc String.eqb Ascii.eqb Bool.eqb is_str authenticated negb
         subscriptions streamReaders userId].
    change (stream_key (JObj [("type", JStr "unsubscribe"); ("resourceId", JStr rid);
                              ("resourceType", JStr ty)])) with (key_of ty rid).
    rewrite includes_appended, (splice_appended _ _ Hnew).
    cbn [filter]. rewrite String.eqb_refl. cbn [negb].
    rewrite (others_all _ _ Hreaders).
    eexists. unfold bind, logger, ret. cbn [fst snd app].
    clear Hsub. destruct c as [a u s r]. cbn in Hauth. subst a. reflexivity.
  - exists {| authenticated := true; userId := userId c;
              subscriptions := subscriptions c ++ [key_of ty rid];
              streamReaders := key_of ty rid :: streamReaders c |}.
    eexists. eexists. split; [|split].
    + cbn [on_messages]. unfold bind at 1. rewrite Hsub. reflexivity.
    + cbn [subscriptions]. apply in_or_app. right. left. reflexivity.
    + cbn [on_messages]. unfold bind at 1.
      unfold on_message at 1, try_catch, sub, subscribe_to, on_data.
      unfold bind at 1. unfold ret at 1.
      cbn [prop assoc String.eqb Ascii.eqb Bool.eqb is_str authenticated negb
           subscriptions streamReaders userId fst snd].
      change (stream_key (JObj [("type", JStr "subscribe"); ("resourceId", JStr rid);
                                ("resourceType", JStr ty)])) with (key_of ty rid).
      rewrite includes_appended. reflexivity.
Qed.

End SocketRoundTrip.

Lemma subscribe_unsubscribe_round_trip_witness :
  exists w',
    @on_messages test_platform connection_u1
      [subscribe_to "server" "srv"; unsubscribe_from "server" "srv"]
      (world_of 100 empty_db)
    = (Ok (connection_u1,
           [SockSend (JObj [("type", JStr "subscribed"); ("resourceId", JStr "srv");
                            ("resourceType", JStr "server")]);
            SockSend (JObj [("type", JStr "unsubscribed"); ("resourceId", JStr "srv");
                            ("resourceType", JStr "server")])]), w').
Proof.
  refine (proj1 (@subscribe_unsubscribe_round_trip test_platform connection_u1
                   "server" "srv" (world_of 100 empty_db) eq_refl _ _)).
  - unfold in_step. cbn. repeat split; try constructor; tauto.
  - intros [].
Defined.

Section LiveFeedWiring.
Context {P : Platform}.

Lemma subscribed_after (c : connection) (ty rid : string) (w : world) :
  authenticated c = true -> in_step c ->
  exists c' out w',
    on_message c (subscribe_to ty rid) w = (Ok (c', out), w')
    /\ In (key_of ty rid) (subscriptions c')
    /\ In (key_of ty rid) (streamReaders c').
Proof.
  intros Hauth Hinv.
  destruct (on_message_step c (subscribe_to ty rid) w)
    as (c' & out & w' & Hrun & Hstep & _).
  exists c', out, w'. split; [exact Hrun|].
  pose proof (ws_step_in_step c c' Hstep Hinv) as (_ & _ & Hsame).
  assert (Hin : In (key_of ty rid) (subscriptions c')); [|split; [exact Hin|apply Hsame, Hin]].
  revert Hrun. unfold on_message, try_catch, subscribe_to, on_data.
  unfold bind at 1. unfold ret at 1.
  cbn [prop assoc String.eqb Ascii.eqb Bool.eqb is_str]. rewrite Hauth. cbn [negb].
  change (stream_key (JObj [("type", JStr "subscribe"); ("resourceId", JStr rid);
                            ("resourceType", JStr ty)])) with (key_of ty rid).
  destruct (includes (subscriptions c) (key_of ty rid)) eqn:Hinc; cbn [negb].
  - unfold ret. intros E. injection E as <- _ _. apply includes_in. exact Hinc.
  - unfold bind, logger, ret. intros E. injection E as <- _ _.
    cbn [subscriptions]. apply in_or_app. right. left. reflexivity.
Qed.


End LiveFeedWiring.


Section PolicyDeletion.
Context {P : Platform}.

Lemma deactivate_nothing (policyId userId : string) (d : db_state) :
  existsb (policy_of policyId userId) (alert_policies d) = false ->
  snd (deactivate_policy policyId userId d) = d.
Proof.
  intros E. unfold deactivate_policy, upd_alert_policies. cbn [snd].
  replace (map (fun p => if policy_of policyId userId p then set_inactive p else p)
               (alert_policies d)) with (alert_policies d); [destruct d; reflexivity|].
  rewrite <- (map_id (alert_policies d)) at 1. apply map_ext_in. intros p Hin.
  destruct (policy_of policyId userId p) eqn:Hp; [|reflexivity].
  assert (existsb (policy_of policyId userId) (alert_policies d) = true)
    by (apply existsb_exists; exists p; tauto).
  congruence.
Qed.

Lemma delete_policy_run (userId policyId : string) (w : world) :
  db_up w = true -> uuid_in policyId = true ->
  delete_policy userId policyId w
  = if existsb (policy_of policyId userId) (alert_policies (db w))
    then (Ok (mk_reply 200 (JObj [("message",
                                   JStr "Alert policy deleted successfully")])),
          with_log ((lvl_info, "Alert policy deleted") :: log w)
            (with_db (snd (deactivate_policy policyId userId (db w))) w))
    else (Ok (mk_reply 404 (error_body "Alert policy not found")), w).
Proof.
  intros Hup Huuid. unfold delete_policy, bind, query. rewrite Huuid, Hup.
  assert (Hd : deactivate_policy policyId userId (db w)
               = (map ap_id (filter (policy_of policyId userId)
                                    (alert_policies (db w))),
                  snd (deactivate_policy policyId userId (db w)))) by reflexivity.
  rewrite Hd. clear Hd.
  destruct (existsb (policy_of policyId userId) (alert_policies (db w))) eqn:E.
  - apply existsb_exists in E. destruct E as (p & Hin & Hp).
    assert (H : In p (filter (policy_of policyId userId) (alert_policies (db w))))
      by (apply filter_In; tauto).
    destruct (filter (policy_of policyId userId) (alert_policies (db w))) as [|q tl];
      [contradiction|].
    reflexivity.
  - rewrite deactivate_nothing by exact E. rewrite with_db_same.
    replace (filter (policy_of policyId userId) (alert_policies (db w)))
      with (@nil alert_policy_row); [reflexivity|].
    symmetry. apply nothing_kept. intros p Hin.
    destruct (policy_of policyId userId p) eqn:Hp; [|reflexivity].
    assert (existsb (policy_of policyId userId) (alert_policies (db w)) = true)
      by (apply existsb_exists; exists p; tauto).
    congruence.
Qed.

Lemma deactivate_twice (policyId userId : string) (d : db_state) :
  snd (deactivate_policy policyId userId (snd (deactivate_policy policyId userId d)))
  = snd (deactivate_policy policyId userId d).
Proof.
  unfold deactivate_policy, upd_alert_policies. cbn. f_equal.
  rewrite map_map. apply map_ext. intros p.
  destruct (policy_of policyId userId p) eqn:E.
  - unfold policy_of in *. cbn. rewrite E. reflexivity.
  - rewrite E. reflexivity.
Qed.

Lemma deactivate_keeps_match (policyId userId : string) (l : list alert_policy_row) :
  existsb (policy_of policyId userId)
    (map (fun p => if policy_of policyId userId p then set_inactive p else p) l)
  = existsb (policy_of policyId userId) l.
Proof.
  induction l as [|p tl IH]; [reflexivity|]. cbn [map existsb]. rewrite IH. f_equal.
  destruct (policy_of policyId userId p) eqn:E; [|exact E].
  unfold policy_of in *. cbn. exact E.
Qed.


End PolicyDeletion.


Section IncidentAccess.
Context {P : Platform}.

Lemma no_incident_check (incidentId caller : string) (d : db_state) :
  (forall i p, In i (incidents d) -> i_id i = incidentId ->
               In p (alert_policies d) -> ap_id p = i_alert_policy_id i ->
               ap_user_id p <> caller) ->
  select_incident_check incidentId caller d = [].
Proof.
  intros H. unfold select_incident_check.
  induction (incidents d) as [|i tl IH]; [reflexivity|]. cbn [filter].
  destruct (String.eqb (i_id i) incidentId) eqn:E.
  - cbn [flat_map]. rewrite IH by (intros i0 p Hi; apply H; right; exact Hi).
    rewrite app_nil_r.
    replace (filter (fun ap => String.eqb (i_alert_policy_id i) (ap_id ap)
                               && String.eqb (ap_user_id ap) caller)
                    (alert_policies d)) with (@nil alert_policy_row); [reflexivity|].
    symmetry. apply nothing_kept. intros p Hp.
    destruct (String.eqb (i_alert_policy_id i) (ap_id p)) eqn:E1; [|reflexivity].
    apply String.eqb_eq in E, E1. cbn [andb]. apply String.eqb_neq.
    apply (H i p); auto. left. reflexivity.
  - apply IH. intros i0 p Hi. apply H. right. exact Hi.
Qed.


End IncidentAccess.


Section IncidentList.
Context {P : Platform}.

Lemma insert_by_triggered_in (row x : incident_listing) (l : list incident_listing) :
  In x (insert_by_triggered row l) <-> x = row \/ In x l.
Proof.
  induction l as [|y tl IH]; cbn [insert_by_triggered In].
  - intuition.
  - destruct (i_triggered_at (il_incident y) <=? i_triggered_at (il_incident row));
      cbn [In]; [intuition|]. rewrite IH. intuition.
Qed.

Lemma order_by_triggered_in (x : incident_listing) (l : list incident_listing) :
  In x (order_by_triggered_desc l) <-> In x l.
Proof.
  induction l as [|y tl IH]; [reflexivity|].
  unfold order_by_triggered_desc in *. cbn [fold_right In].
  rewrite insert_by_triggered_in, IH. intuition.
Qed.

Lemma insert_by_triggered_length (row : incident_listing) (l : list incident_listing) :
  List.length (insert_by_triggered row l) = S (List.length l).
Proof.
  induction l as [|y tl IH]; [reflexivity|]. cbn [insert_by_triggered].
  destruct (i_triggered_at (il_incident y) <=? i_triggered_at (il_incident row));
    cbn [List.length]; [reflexivity|]. rewrite IH. reflexivity.
Qed.

Lemma order_by_triggered_length (l : list incident_listing) :
  List.length (order_by_triggered_desc l) = List.length l.
Proof.
  induction l as [|y tl IH]; [reflexivity|].
  unfold order_by_triggered_desc in *. cbn [fold_right List.length].
  rewrite insert_by_triggered_length, IH. reflexivity.
Qed.

Lemma insert_by_triggered_sorted (row : incident_listing) (l : list incident_listing) :
  StronglySorted newer_or_equal l ->
  StronglySorted newer_or_equal (insert_by_triggered row l).
Proof.
  induction l as [|y tl IH]; intros Hs; cbn [insert_by_triggered].
  - repeat constructor.
  - inversion Hs as [|? ? Hs' Hall]; subst.
    destruct (i_triggered_at (il_incident y) <=? i_triggered_at (il_incident row))
      eqn:E.
    + apply Z.leb_le in E. constructor; [exact Hs|].
      constructor; [exact E|]. rewrite Forall_forall in *. intros x Hx.
      specialize (Hall x Hx). unfold newer_or_equal in *. lia.
    + apply Z.leb_gt in E. constructor; [apply IH; exact Hs'|].
      rewrite Forall_forall in *. intros x Hx. apply insert_by_triggered_in in Hx.
      destruct Hx as [->|Hx]; [unfold newer_or_equal; lia|apply Hall; exact Hx].
Qed.

Lemma order_by_triggered_sorted (l : list incident_listing) :
  StronglySorted newer_or_equal (order_by_triggered_desc l).
Proof.
  induction l as [|y tl IH]; [constructor|].
  unfold order_by_triggered_desc in *. cbn [fold_right].
  apply insert_by_triggered_sorted. exact IH.
Qed.

Lemma sorted_prefix (n : nat) (l : list incident_listing) :
  StronglySorted newer_or_equal l ->
  StronglySorted newer_or_equal (firstn n l)
  /\ forall a b, In a (firstn n l) -> In b (skipn n l) -> newer_or_equal a b.
Proof.
  revert l. induction n as [|n IH]; intros l Hs.
  - cbn. split; [constructor|intros a b []].
  - destruct l as [|x tl]; [cbn; split; [constructor|intros a b []]|].
    inversion Hs as [|? ? Hs' Hall]; subst. destruct (IH tl Hs') as [H1 H2].
    cbn [firstn skipn]. rewrite Forall_forall in Hall. split.
    + constructor; [exact H1|]. apply Forall_forall. intros y Hy.
      apply Hall.
      rewrite <- (firstn_skipn n tl). apply in_or_app. left. exact Hy.
    + intros a b [<-|Ha] Hb.
      * apply Hall. rewrite <- (firstn_skipn n tl). apply in_or_app. right. exact Hb.
      * apply H2; assumption.
Qed.

Lemma joined_rows (d : db_state) (row : incident_listing) :
  In row (incidents_joined d)
  <-> In (il_incident row) (incidents d)
      /\ In (il_policy row) (alert_policies d)
      /\ In (il_resource row) (resources d)
      /\ ap_id (il_policy row) = i_alert_policy_id (il_incident row)
      /\ r_id (il_resource row) = i_resource_id (il_incident row).
Proof.
  unfold incidents_joined. rewrite in_flat_map. split.
  - intros (i & Hi & H). apply in_flat_map in H. destruct H as (ap & Hap & H).
    apply in_map_iff in H. destruct H as (r & <- & Hr).
    apply filter_In in Hap, Hr. destruct Hap as [Hap E1]. destruct Hr as [Hr E2].
    apply String.eqb_eq in E1, E2. cbn. auto.
  - intros (Hi & Hap & Hr & E1 & E2). exists (il_incident row). split; [exact Hi|].
    apply in_flat_map. exists (il_policy row). split.
    + apply filter_In. split; [exact Hap|]. rewrite E1. apply String.eqb_refl.
    + apply in_map_iff. exists (il_resource row). split; [destruct row; reflexivity|].
      apply filter_In. split; [exact Hr|]. rewrite E2. apply String.eqb_refl.
Qed.


End IncidentList.


Section StreamEntries.

Lemma read_fields_pairs (data : list (string * string))
    (acc : list (string * option string)) (k : string) :
  assoc k (read_fields (stream_fields data) acc)
  = match assoc k (rev data) with
    | Some v => Some (Some v)
    | None => assoc k acc
    end.
Proof.
  revert acc. induction data as [|[k0 v0] tl IH]; intros acc; [reflexivity|].
  cbn [stream_fields flat_map fst snd app read_fields].
  change (flat_map (fun kv : string * string => [fst kv; snd kv]) tl)
    with (stream_fields tl).
  rewrite IH. cbn [rev].
  assert (Happ : forall (l1 l2 : list (string * string)),
             assoc k (l1 ++ l2)
             = match assoc k l1 with Some v => Some v | None => assoc k l2 end).
  { intros l1 l2. induction l1 as [|[a b] l1 IH1]; [reflexivity|]. cbn [app assoc].
    destruct (String.eqb k a); [reflexivity|exact IH1]. }
  rewrite Happ. destruct (assoc k (rev tl)); [reflexivity|].
  rewrite assoc_set_key. cbn [assoc].
  destruct (String.eqb k k0); reflexivity.
Qed.

Lemma assoc_unique (data : list (string * string)) (k v : string) :
  NoDup (map fst data) -> In (k, v) data -> assoc k data = Some v.
Proof.
  induction data as [|[a b] tl IH]; intros Hnd Hin; [contradiction|].
  inversion Hnd as [|? ? Hnot Hnd']; subst. cbn [assoc].
  destruct Hin as [E|Hin].
  - injection E as -> ->. rewrite String.eqb_refl. reflexivity.
  - destruct (String.eqb k a) eqn:E; [|apply IH; assumption].
    apply String.eqb_eq in E. subst a. contradiction Hnot.
    apply in_map_iff. exists (k, v). split; [reflexivity|exact Hin].
Qed.

Lemma assoc_absent {A} (data : list (string * A)) (k : string) :
  ~ In k (map fst data) -> assoc k data = None.
Proof.
  induction data as [|[a b] tl IH]; intros Hn; [reflexivity|]. cbn [assoc].
  destruct (String.eqb k a) eqn:E.
  - apply String.eqb_eq in E. contradiction Hn. left. symmetry. exact E.
  - apply IH. intros H. apply Hn. right. exact H.
Qed.


End StreamEntries.


Section ResourceDeletion.
Context {P : Platform}.

Lemma delete_resource_run (userId resourceId : string) (w : world) :
  db_up w = true -> uuid_in resourceId = true ->
  (exists r, In r (resources (db w)) /\ r_id r = resourceId /\ r_user_id r = userId) ->
  delete_resource userId resourceId w
  = (Ok (mk_reply 200 (JObj [("message", JStr "Resource deleted successfully")])),
     with_log ((lvl_info, "Resource deleted") :: log w)
       (with_db (snd (deactivate_resource resourceId userId (db w))) w)).
Proof.
  intros Hup Huuid (r & Hin & Hid & Hu).
  unfold delete_resource, bind, query. rewrite Huuid, Hup.
  assert (Hd : deactivate_resource resourceId userId (db w)
               = (map r_id (filter (resource_owned resourceId userId)
                                   (resources (db w))),
                  snd (deactivate_resource resourceId userId (db w)))) by reflexivity.
  rewrite Hd. clear Hd.
  assert (H : In r (filter (resource_owned resourceId userId) (resources (db w)))).
  { apply filter_In. split; [exact Hin|]. unfold resource_owned.
    rewrite Hid, Hu, !String.eqb_refl. reflexivity. }
  destruct (filter (resource_owned resourceId userId) (resources (db w))) as [|q tl];
    [contradiction|].
  reflexivity.
Qed.

Lemma check_after_delete (resourceId userId rid uid : string) (ty : resource_type)
    (d : db_state) :
  select_resource_check rid uid ty (snd (deactivate_resource resourceId userId d))
  = select_resource_check rid uid ty d.
Proof.
  unfold select_resource_check, deactivate_resource. cbn [snd].
  replace (resources
             (upd_resources
                (map (fun r => if resource_owned resourceId userId r
                               then set_deleted r else r)) d))
    with (map (fun r => if resource_owned resourceId userId r then set_deleted r else r)
              (resources d)) by (destruct d; reflexivity).
  induction (resources d) as [|r tl IH]; [reflexivity|]. cbn [map filter].
  assert (E : forall f : resource_row -> string,
             (f = r_id \/ f = r_user_id) ->
             f (if resource_owned resourceId userId r then set_deleted r else r) = f r).
  { intros f [-> | ->]; destruct (resource_owned resourceId userId r); reflexivity. }
  rewrite (E r_id), (E r_user_id) by tauto.
  replace (r_type (if resource_owned resourceId userId r then set_deleted r else r))
    with (r_type r) by (destruct (resource_owned resourceId userId r); reflexivity).
  destruct (String.eqb (r_id r) rid && String.eqb (r_user_id r) uid
            && resource_type_eqb (r_type r) ty).
  - cbn [map]. rewrite IH, (E r_id) by tauto. reflexivity.
  - exact IH.
Qed.

Lemma keys_after_delete (resourceId userId apiKey : string) (now : Z) (d : db_state) :
  key_owner apiKey now (snd (deactivate_resource resourceId userId d))
  = key_owner apiKey now d.
Proof.
  unfold key_owner, matching_key, deactivate_resource. cbn [snd].
  destruct d; reflexivity.
Qed.

(** X21. Deleting a resource is a soft delete that does not stop its
    ingestion. [DELETE /:id] by the owner answers 200 and only clears
    [is_active] on the owner's row: every row keeps its id, owner and kind,
    stored samples stay, and any request the single-sample routes accepted
    before the deletion they accept after it, for the deleted resource as
    for any other. *)
Theorem resource_delete_keeps_ingestion :
  forall (userId resourceId : string) (w : world),
    db_up w = true -> uuid_in resourceId = true ->
    (exists r, In r (resources (db w)) /\ r_id r = resourceId
               /\ r_user_id r = userId) ->
    exists w',
      delete_resource userId resourceId w
      = (Ok (mk_reply 200 (JObj [("message", JStr "Resource deleted successfully")])),
         w')
      /\ clock w' = clock w /\ db_up w' = true
      /\ resources (db w')
         = map (fun r => if resource_owned resourceId userId r then set_deleted r
                         else r) (resources (db w))
      /\ (forall r, In r (resources (db w')) -> r_id r = resourceId ->
                    r_user_id r = userId -> r_is_active r = false)
      /\ server_metrics (db w') = server_metrics (db w)
      /\ website_metrics (db w') = website_metrics (db w)
      /\ network_metrics (db w') = network_metrics (db w)
      /\ (forall apiKey request_body body,
            server_accepted apiKey request_body w body ->
            server_accepted apiKey request_body w' body)
      /\ (forall apiKey request_body body,
            website_accepted apiKey request_body w body ->
            website_accepted apiKey request_body w' body)
      /\ (forall apiKey request_body body,
            network_accepted apiKey request_body w body ->
            network_accepted apiKey request_body w' body).
Proof.
  intros userId resourceId w Hup Huuid Hown.
  rewrite (delete_resource_run userId resourceId w Hup Huuid Hown).
  eexists. split; [reflexivity|].
  destruct w as [now up rup d st lg]. cbn [clock db_up db with_db with_log] in *.
  split; [reflexivity|]. split; [exact Hup|].
  split; [destruct d; reflexivity|].
  split.
  { intros r Hin Hid Hu.
    replace (resources (snd (deactivate_resource resourceId userId d)))
      with (map (fun r => if resource_owned resourceId userId r then set_deleted r
                          else r) (resources d)) in Hin by (destruct d; reflexivity).
    apply in_map_iff in Hin. destruct Hin as (q & Hq & _).
    destruct (resource_owned resourceId userId q) eqn:E; subst r; [reflexivity|].
    unfold resource_owned in E. rewrite Hid, Hu, !String.eqb_refl in E. discriminate. }
  split; [destruct d; reflexivity|].
  split; [destruct d; reflexivity|].
  split; [destruct d; reflexivity|].
  split; [|split].
  - intros apiKey b body (Hne & Hb & uid & Hk & Hc).
    split; [exact Hne|]. split; [exact Hb|]. exists uid.
    cbn [clock db with_db with_log] in *. rewrite keys_after_delete, check_after_delete. tauto.
  - intros apiKey b body (Hne & Hb & uid & Hk & Hc).
    split; [exact Hne|]. split; [exact Hb|]. exists uid.
    cbn [clock db with_db with_log] in *. rewrite keys_after_delete, check_after_delete. tauto.
  - intros apiKey b body (Hne & Hb & uid & Hk & Hc).
    split; [exact Hne|]. split; [exact Hb|]. exists uid.
    cbn [clock db with_db with_log] in *. rewrite keys_after_delete, check_after_delete. tauto.
Qed.

End ResourceDeletion.

Lemma resource_delete_keeps_ingestion_witness :
  exists w' r w'',
    @delete_resource test_platform "u1" "srv" (world_of 100 db_u1)
    = (Ok (mk_reply 200 (JObj [("message", JStr "Resource deleted successfully")])),
       w')
    /\ option_map r_is_active (resource_by_id "srv" (db w')) = Some false
    /\ @ingest_server test_platform (Some "k1") (Some (server_sample "100" 95)) w'
       = (Ok r, w'')
    /\ code r = 200
    /\ List.length (server_metrics (db w'')) = 1%nat.
Proof.
  destruct (@resource_delete_keeps_ingestion test_platform "u1" "srv"
              (world_of 100 db_u1) eq_refl eq_refl)
    as (w' & Hrun & Hclock & Hup & Hres & _ & Hsm & _ & _ & Hacc & _).
  - exists (resource_of "srv" server). split; [left; reflexivity|]. split; reflexivity.
  - destruct (server_sample_accepted "100" 100 95 (world_of 100 db_u1))
      as (body & Hacc0 & _); try reflexivity; [vm_compute; discriminate|].
    pose proof (Hacc "k1" _ body Hacc0) as Hacc1.
    exists w'. eexists. eexists. split; [exact Hrun|].
    split; [unfold resource_by_id; rewrite Hres; reflexivity|].
    rewrite (@ingest_server_run test_platform _ _ _ _ Hup Hacc1).
    split; [reflexivity|].
    injection Hrun as Hw'. subst w'. split; reflexivity.
Defined.

Section TypeRoute.
Context {P : Platform}.

Lemma type_loop_run (rows : list resource_row) (width s e : Z)
    (acc : list type_entry) (w : world) :
  db_up w = true ->
  (forall r, In r rows -> r_type r <> database) ->
  type_loop rows width s e acc w
  = (Ok (acc ++ map (type_entry_of (db w) width s e) rows), w).
Proof.
  intros Hup. revert acc. induction rows as [|r tl IH]; intros acc Hty.
  - cbn. rewrite app_nil_r. reflexivity.
  - cbn [type_loop map]. unfold bind at 1.
    assert (Hr : r_type r <> database) by (apply Hty; left; reflexivity).
    assert (Hres : match r_type r with
                   | server =>
                       rows <- query (fun _ d =>
                         (server_range (server_metrics d) width (r_id r) s e, d)) ;;
                       ret (ServerSeries rows)
                   | website =>
                       rows <- query (fun _ d =>
                         (website_range (website_metrics d) width (r_id r) s e, d)) ;;
                       ret (WebsiteSeries rows)
                   | network =>
                       rows <- query (fun _ d =>
                         (network_range (network_metrics d) width (r_id r) s e, d)) ;;
                       ret (NetworkSeries rows)
                   | database => rejected_query
                   end w
                   = (Ok (te_data (type_entry_of (db w) width s e r)), w)).
    { unfold type_entry_of, series_of. cbn [te_data].
      destruct (r_type r); try contradiction;
        unfold bind, query, ret; rewrite Hup, with_db_same; reflexivity. }
    rewrite Hres. rewrite IH by (intros x Hx; apply Hty; right; exact Hx).
    rewrite <- app_assoc. reflexivity.
Qed.

Lemma of_type_rows (u : user) (ty : resource_type) (d : db_state) (r : resource_row) :
  In r (select_resources_of_type u ty d)
  <-> In r (resources d) /\ r_type r = ty
      /\ is_admin u || String.eqb (r_user_id r) (u_id u) = true.
Proof.
  unfold select_resources_of_type. rewrite filter_In, andb_true_iff.
  assert (E : resource_type_eqb (r_type r) ty = true <-> r_type r = ty)
    by (destruct (r_type r), ty; cbn; split; congruence).
  rewrite E. tauto.
Qed.

(** X22. [GET /type/:type] agrees with [GET /:resourceId]. For the
    kinds server, website and network, with at least one resource of the
    kind visible to the caller and once PostgreSQL has accepted the instants
    and a positive bucket width, the answer is 200 with one entry per such
    resource, in table order; each entry carries the resource's id and name
    and exactly the data [GET /:resourceId] returns for that resource with
    the same query. Nothing is written. *)
Theorem type_metrics_agree_with_single :
  forall (u : user) (resourceType : string) (ty : resource_type)
         (qs qe qi : option string) (w : world) (width s e : Z),
    db_up w = true ->
    NoDup (map r_id (resources (db w))) ->
    resource_type_in resourceType = Some ty -> ty <> database ->
    select_resources_of_type u ty (db w) <> [] ->
    query_width qi = Some width -> 0 < width ->
    query_start qs (clock w) = Some s ->
    query_end qe (clock w) = Some e ->
    exists entries,
      get_type_metrics u resourceType qs qe qi w
      = (Ok (mk_reply 200 (TResources entries)), w)
      /\ map te_resourceId entries
         = map r_id (select_resources_of_type u ty (db w))
      /\ forall entry, In entry entries ->
           exists r,
             In r (resources (db w)) /\ r_type r = ty
             /\ te_resourceId entry = r_id r /\ te_name entry = r_name r
             /\ get_resource_metrics u (te_resourceId entry) qs qe qi w
                = (Ok (mk_reply 200
                         (MData {| mb_resourceId := r_id r; mb_name := r_name r;
                                   mb_resourceType := ty; mb_startTime := s;
                                   mb_endTime := e;
                                   mb_interval := query_interval qi;
                                   mb_data := te_data entry |})), w).
Proof.
  intros u tyname ty qs qe qi w width s e Hup Hnd Hty Hnodb Hne Hw Hpos Hs He.
  exists (map (type_entry_of (db w) width s e) (select_resources_of_type u ty (db w))).
  assert (Hall : forall r, In r (select_resources_of_type u ty (db w)) ->
                           r_type r <> database).
  { intros r Hr. apply of_type_rows in Hr. destruct Hr as (_ & -> & _). exact Hnodb. }
  split; [|split].
  - unfold get_type_metrics. unfold bind at 1. unfold get_clock at 1.
    rewrite Hty. unfold bind at 1. unfold query at 1. rewrite Hup, with_db_same.
    destruct (select_resources_of_type u ty (db w)) as [|r0 tl] eqn:Hsel;
      [contradiction|].
    unfold query_width, query_interval, query_start, query_end in *.
    rewrite Hw, Hs, He. apply Z.ltb_lt in Hpos. rewrite Hpos.
    unfold bind. rewrite type_loop_run by assumption. reflexivity.
  - rewrite map_map. reflexivity.
  - intros entry Hin. apply in_map_iff in Hin. destruct Hin as (r & <- & Hr).
    pose proof (Hall r Hr) as Hrdb.
    apply of_type_rows in Hr. destruct Hr as (Hin & Hrty & Hown).
    exists r. split; [exact Hin|]. split; [exact Hrty|].
    split; [reflexivity|]. split; [reflexivity|].
    cbn [type_entry_of te_resourceId te_data].
    destruct (series_of (db w) r width s e) as [data|] eqn:Hdata;
      [|unfold series_of in Hdata; destruct (r_type r); congruence].
    rewrite <- Hrty.
    apply (get_resource_metrics_run u (r_id r) qs qe qi w r [] width s e data);
      auto.
    apply select_resource_head; auto.
Qed.

End TypeRoute.

Lemma type_metrics_agree_with_single_witness :
  exists entries,
    @get_type_metrics test_platform user_u1 "server" (Some "0") (Some "100000") None
      (world_of 600000 db_series)
    = (Ok (mk_reply 200 (TResources entries)), world_of 600000 db_series)
    /\ map te_resourceId entries = ["srv"].
Proof.
  destruct (@type_metrics_agree_with_single test_platform user_u1 "server" server
              (Some "0") (Some "100000") None (world_of 600000 db_series)
              60000 0 100000 eq_refl)
    as (entries & Hrun & Hids & _); try reflexivity.
  - repeat constructor; simpl; intuition discriminate.
  - discriminate.
  - discriminate.
  - exists entries. split; [exact Hrun|exact Hids].
Defined.

Section Availability.

Lemma percent_of_counts (s c : Z) :
  0 <= s <= c -> 1 <= c ->
  let p := (inject_Z s / inject_Z c * 100)%Q in
  (0 <= p <= 100)%Q /\ ((p == 100)%Q <-> s = c) /\ ((p == 0)%Q <-> s = 0).
Proof.
  intros Hs Hc p.
  assert (Hcpos : (0 < inject_Z c)%Q) by (rewrite <- (Zlt_Qlt 0); lia).
  assert (Hcne : ~ (inject_Z c == 0)%Q).
  { intros E. rewrite E in Hcpos. apply (Qlt_irrefl 0). exact Hcpos. }
  assert (Hs0 : (0 <= inject_Z s)%Q) by (rewrite <- (Zle_Qle 0); lia).
  assert (Hsc : (inject_Z s <= inject_Z c)%Q) by (rewrite <- Zle_Qle; lia).
  assert (Hfrac0 : (0 <= inject_Z s / inject_Z c)%Q).
  { apply Qle_shift_div_l; [exact Hcpos|]. rewrite Qmult_0_l. exact Hs0. }
  assert (Hfrac1 : (inject_Z s / inject_Z c <= 1)%Q).
  { apply Qle_shift_div_r; [exact Hcpos|]. rewrite Qmult_1_l. exact Hsc. }
  assert (Hback : (inject_Z s == p * inject_Z c / 100)%Q).
  { unfold p. field. exact Hcne. }
  split; [|split].
  - unfold p. split.
    + apply Qmult_le_0_compat; [exact Hfrac0|discriminate].
    + setoid_replace (100 : Q) with (1 * 100)%Q at 2 by reflexivity.
      apply Qmult_le_compat_r; [exact Hfrac1|discriminate].
  - split.
    + intros E. rewrite E in Hback.
      assert (E' : (inject_Z s == inject_Z c)%Q) by (rewrite Hback; field).
      unfold Qeq in E'. cbn in E'. lia.
    + intros ->. unfold p. field. exact Hcne.
  - split.
    + intros E. rewrite E in Hback.
      assert (E' : (inject_Z s == inject_Z 0)%Q) by (rewrite Hback; field).
      unfold Qeq in E'. cbn in E'. lia.
    + intros ->. unfold p. field. exact Hcne.
Qed.

(** X23. Every row of the hourly availability aggregate
    [website_availability_1h] counts at least one check, its successful
    checks lie between 0 and the total, and its availability percentage is
    defined (the division is never by zero) and lies between 0 and 100; it
    is 100 exactly when every check of the hour succeeded and 0 exactly when
    none did. Its minimum, average and maximum response times are ordered. *)
Theorem availability_rollup_bounds :
  forall (table : list website_metrics_row) (resourceId : string)
         (row : website_availability_1h_row),
    In row (website_availability_1h table resourceId) ->
    1 <= total_checks row
    /\ 0 <= successful_checks row <= total_checks row
    /\ (0 <= availability_percent row <= 100)%Q
    /\ ((availability_percent row == 100)%Q
        <-> successful_checks row = total_checks row)
    /\ ((availability_percent row == 0)%Q <-> successful_checks row = 0)
    /\ exists mn a mx,
         min_response_time row = Some mn /\ avg_response_time row = Some a
         /\ max_response_time row = Some mx /\ (mn <= a <= mx)%Q.
Proof.
  intros table rid row Hin. unfold website_availability_1h in Hin.
  apply group_nonempty in Hin. destruct Hin as (b & g & -> & Hne & _).
  cbn [total_checks successful_checks availability_percent min_response_time
       avg_response_time max_response_time].
  assert (Hc : 1 <= COUNT g).
  { unfold COUNT. destruct g; [contradiction|]. cbn [List.length]. lia. }
  assert (Hs : 0 <= SUM_available wm_is_available g <= COUNT g).
  { unfold SUM_available, COUNT. pose proof (filter_length_le wm_is_available g). lia. }
  destruct (percent_of_counts _ _ Hs Hc) as (Hp & H100 & H0).
  split; [exact Hc|]. split; [exact Hs|]. split; [exact Hp|].
  split; [exact H100|]. split; [exact H0|].
  destruct (MIN_bounds (map response_time_ms g) (column_nonempty _ g Hne))
    as (mn & Hmn & Hlo).
  destruct (MAX_bounds (map response_time_ms g) (column_nonempty _ g Hne))
    as (mx & Hmx & Hhi).
  destruct (AVG_between (map response_time_ms g) mn mx (column_nonempty _ g Hne))
    as (a & Ha & Hbetween); [intros x Hx; split; auto|].
  exists mn, a, mx. auto.
Qed.

End Availability.

Lemma availability_rollup_bounds_witness :
  exists row,
    In row (website_availability_1h website_checks "web")
    /\ total_checks row = 3 /\ successful_checks row = 2
    /\ (0 <= availability_percent row <= 100)%Q.
Proof.
  destruct (website_availability_1h website_checks "web") as [|row tl] eqn:E;
    [vm_compute in E; discriminate|].
  exists row. split; [left; reflexivity|].
  destruct (availability_rollup_bounds website_checks "web" row)
    as (_ & _ & Hp & _).
  - rewrite E. left. reflexivity.
  - vm_compute in E. injection E as <- _. split; [reflexivity|].
    split; [reflexivity|exact Hp].
Defined.

Section StatusTimers.
Context {P : Platform}.

Lemma status_on_message_run (c : status_connection) (m : frame) (w : world) :
  exists out w',
    status_on_message c m w
    = (Ok (if verified_auth m
           then {| st_authenticated := true;
                   statusInterval := Some (st_started c);
                   st_running := st_started c :: st_running c;
                   st_started := S (st_started c) |}
           else c, out), w').
Proof.
  unfold status_on_message, try_catch, verified_auth.
  destruct m as [|data]; [eexists; eexists; reflexivity|].
  destruct data as [|b|q|s|l|f]; try (eexists; eexists; reflexivity).
  - unfold bind, ret. cbn [prop is_str andb].
    destruct (st_authenticated c); eexists; eexists; reflexivity.
  - unfold bind, ret. cbn [prop is_str andb].
    destruct (st_authenticated c); eexists; eexists; reflexivity.
  - unfold bind, ret. cbn [prop is_str andb].
    destruct (st_authenticated c); eexists; eexists; reflexivity.
  - unfold bind, ret. cbn [prop is_str andb].
    destruct (st_authenticated c); eexists; eexists; reflexivity.
  - unfold bind at 1. unfold ret at 1.
    destruct (is_str (prop (JObj f) "type") "auth"); cbn [andb].
    + destruct (jwt_verify (prop (JObj f) "token")); eexists; eexists; reflexivity.
    + destruct (st_authenticated c); eexists; eexists; reflexivity.
Qed.

Lemma timers_after_auth (c : status_connection) :
  timers_in_order c ->
  timers_in_order {| st_authenticated := true;
                     statusInterval := Some (st_started c);
                     st_running := st_started c :: st_running c;
                     st_started := S (st_started c) |}.
Proof.
  intros (Hnd & Hlt & _). unfold timers_in_order. cbn. split; [|split].
  - constructor; [|exact Hnd]. intros H. apply Hlt in H. lia.
  - intros t [<-|H]; [lia|]. apply Hlt in H. lia.
  - reflexivity.
Qed.

Lemma status_on_messages_run (c : status_connection) (messages : list frame)
    (w : world) :
  timers_in_order c ->
  exists c' out w',
    status_on_messages c messages w = (Ok (c', out), w')
    /\ timers_in_order c'
    /\ List.length (st_running c')
       = (List.length (filter verified_auth messages) + List.length (st_running c))%nat.
Proof.
  revert c w. induction messages as [|m tl IH]; intros c w Hinv.
  - exists c, [], w. split; [reflexivity|]. split; [exact Hinv|reflexivity].
  - cbn [status_on_messages]. unfold bind at 1.
    destruct (status_on_message_run c m w) as (out1 & w1 & ->). cbn [fst snd].
    unfold bind at 1. cbn [filter].
    destruct (verified_auth m).
    + destruct (IH _ w1 (timers_after_auth c Hinv)) as (c2 & out2 & w2 & -> & Hi & Hl).
      eexists. eexists. eexists. split; [reflexivity|]. cbn [fst].
      split; [exact Hi|]. rewrite Hl. cbn [st_running List.length]. lia.
    + destruct (IH c w1 Hinv) as (c2 & out2 & w2 & -> & Hi & Hl).
      eexists. eexists. eexists. split; [reflexivity|]. cbn [fst].
      split; [exact Hi|exact Hl].
Qed.

Lemma clear_newest (t : nat) (running : list nat) :
  NoDup (t :: running) -> clear_interval t (t :: running) = running.
Proof.
  intros Hnd. inversion Hnd as [|? ? Hnot _]; subst.
  unfold clear_interval. cbn [filter]. rewrite Nat.eqb_refl. cbn [negb]. clear Hnd.
  induction running as [|x tl IH]; [reflexivity|]. cbn [filter].
  destruct (Nat.eqb x t) eqn:E.
  - apply Nat.eqb_eq in E. contradiction Hnot. left. exact E.
  - cbn [negb]. f_equal. apply IH. intros H. apply Hnot. right. exact H.
Qed.

(** X24. The status socket leaks timers. Every [auth] message whose
    token verifies starts a new 5-second status timer and overwrites the one
    variable that remembers it, and closing the socket clears only the timer
    that variable holds. So after a run of messages on a fresh connection
    and the close, the number of timers still running is the number of
    verified [auth] messages minus one (none when there was at most one). *)
Theorem status_socket_leaks_timers :
  forall (messages : list frame) (w : world),
  exists c out w' c' w'',
    status_on_messages new_status_connection messages w = (Ok (c, out), w')
    /\ List.length (st_running c) = List.length (filter verified_auth messages)
    /\ status_on_close c w' = (Ok c', w'')
    /\ List.length (st_running c')
       = pred (List.length (filter verified_auth messages)).
Proof.
  intros messages w.
  destruct (status_on_messages_run new_status_connection messages w)
    as (c & out & w' & Hrun & (Hnd & Hlt & Hvar) & Hlen).
  { unfold timers_in_order. cbn. split; [constructor|]. split; [intros t []|reflexivity]. }
  cbn [new_status_connection st_running List.length] in Hlen.
  rewrite Nat.add_0_r in Hlen.
  exists c, out, w'. rewrite <- Hlen.
  destruct c as [a si running started]. cbn [st_running statusInterval] in *.
  unfold status_on_close, bind, logger, ret. cbn [statusInterval st_running].
  destruct running as [|t tl]; subst si.
  - eexists. eexists. split; [exact Hrun|]. split; [reflexivity|].
    split; reflexivity.
  - eexists. eexists. split; [exact Hrun|]. split; [reflexivity|].
    split; [reflexivity|]. cbn [st_running].
    rewrite clear_newest by exact Hnd. reflexivity.
Qed.

End StatusTimers.

Section DatabaseMetrics.
Context {P : Platform}.

Lemma type_loop_database (r : resource_row) (tl : list resource_row)
    (width s e : Z) (acc : list type_entry) (w : world) :
  r_type r = database ->
  type_loop (r :: tl) width s e acc w
  = (Throw DbError, with_log ((lvl_error, "query failed") :: log w) w).
Proof.
  intros Hty. cbn [type_loop]. rewrite Hty. reflexivity.
Qed.


End DatabaseMetrics.

